(** * Site collection engine (js/state/siteUtil.js): shallow embedding

    The sites list of the application state is an Immutable.js [List] of
    [Map]s.  Here a site record is a Rocq record whose optional keys are
    [option]s, the list is a [list], indices are [nat], and "not found"
    ([-1] in the source) is [None].  Functions of the source that recurse
    through the folder tree ([removeSite], [getAncestorFolderIds]) do not
    terminate on cyclic trees, so they take a [fuel] argument and return
    [None] when it runs out. *)

From Stdlib Require Import ZArith String List Lia Sorting.Sorted.
From stdpp Require Import base list.
Import ListNotations.

Local Open Scope Z_scope.

(** ** Data model *)

(** Modelled from the spec: the constants module [js/constants/siteTags.js]
    is missing from the sources; the spec gives the tag enumeration
    {BOOKMARK, BOOKMARK_FOLDER, PINNED, ...} of opaque equatable values.
    Like its sibling [downloadActions], the module is built with
    [mapValuesByKeys], so each constant is a non-empty string named after
    its key. *)
Inductive siteTag : Type :=
  | BOOKMARK
  | BOOKMARK_FOLDER
  | PINNED
  | READING_LIST.

(** Modelled from the spec: the string behind each constant of the missing
    [siteTags] module (its key in lower case, dashes for underscores).  The
    strings matter only where the source treats a tag as a string
    ([typeof tags === 'string'], [String.prototype.includes]). *)
Definition tagName (t : siteTag) : string :=
  match t with
  | BOOKMARK => "bookmark"
  | BOOKMARK_FOLDER => "bookmark-folder"
  | PINNED => "pinned"
  | READING_LIST => "reading-list"
  end.

(** [===] on two tag strings. *)
Definition tag_eqb (a b : siteTag) : bool := String.eqb (tagName a) (tagName b).

(** [haystack.includes(needle)] on strings. *)
Definition str_includes (haystack needle : string) : bool :=
  match String.index 0 needle haystack with
  | Some _ => true
  | None => false
  end.

(** A timestamp slot: absent key, [null] (history cleared) or a number. *)
Inductive jsnum : Type :=
  | JUndefined
  | JNull
  | JNum (n : Z).

(** One entry of the sites list.  [None] is an absent key ([undefined]).
    Numbers are the integers the application stores (ids, partition
    numbers, millisecond timestamps).  [tags] is always an Immutable List on
    entries of the sites list: [mergeSiteDetails] and [getDetailFromFrame]
    always set it, and [removeSite] and [filterOutNonRecents] read its
    [size] unguarded. *)
Record site : Type := mkSite {
  location : option string;
  title : option string;
  customTitle : option string;
  tags : list siteTag;
  lastAccessedTime : jsnum;
  count : option Z;
  folderId : option Z;
  parentFolderId : option Z;
  partitionNumber : option Z;
  favicon : option string;
  themeColor : option string
}.

(** The [tags] argument of [isBookmark], [isBookmarkFolder] and
    [getSiteIndex]: absent, one tag string, or a list of tags. *)
Inductive tagsArg : Type :=
  | NoTags
  | TagStr (t : siteTag)
  | TagList (ts : list siteTag).

Definition ofTag (tag : option siteTag) : tagsArg :=
  match tag with
  | Some t => TagStr t
  | None => NoTags
  end.

(** ** JavaScript primitives used by the source *)

(** Truthiness of a number-or-undefined, of a string-or-undefined and of a
    timestamp slot. *)
Definition truthy_num (v : option Z) : bool :=
  match v with
  | Some n => negb (n =? 0)
  | None => false
  end.

Definition truthy_str (v : option string) : bool :=
  match v with
  | Some s => negb (String.eqb s "")
  | None => false
  end.

Definition truthy_time (v : jsnum) : bool :=
  match v with
  | JNum n => negb (n =? 0)
  | _ => false
  end.

(** [a === b] on number-or-undefined and string-or-undefined values. *)
Definition strict_eq_num (a b : option Z) : bool :=
  match a, b with
  | Some x, Some y => x =? y
  | None, None => true
  | _, _ => false
  end.

Definition strict_eq_str (a b : option string) : bool :=
  match a, b with
  | Some x, Some y => String.eqb x y
  | None, None => true
  | _, _ => false
  end.

(** Truthiness of a value that is either absent or an object or non-empty
    string (a tag constant, an entry of the list). *)
Definition truthy_opt {A : Type} (v : option A) : bool :=
  match v with
  | Some _ => true
  | None => false
  end.

(** [v || 0] on numbers. *)
Definition or0 (v : option Z) : Z :=
  match v with
  | Some n => n
  | None => 0
  end.

(** [t || dflt] on a timestamp slot. *)
Definition time_or (v : jsnum) (dflt : Z) : Z :=
  match v with
  | JNum n => if n =? 0 then dflt else n
  | _ => dflt
  end.

(** Immutable's [findIndex]: index of the first entry satisfying [p]. *)
Fixpoint findIndex {A : Type} (p : A -> bool) (l : list A) : option nat :=
  match l with
  | [] => None
  | x :: l' => if p x then Some 0%nat else S <$> findIndex p l'
  end.

(** Immutable's [tags.toSet()], in insertion order. *)
Fixpoint toSet (ts : list siteTag) : list siteTag :=
  match ts with
  | [] => []
  | t :: ts' => t :: List.filter (fun u => negb (tag_eqb u t)) (toSet ts')
  end.

(** [tags.toSet().add(tag).toList()] *)
Definition tagsAdd (tag : siteTag) (ts : list siteTag) : list siteTag :=
  let s := toSet ts in
  if existsb (tag_eqb tag) s then s else s ++ [tag].

(** [tags.toSet().remove(tag).toList()]; the library leaves the order of a
    Set unspecified, the model keeps the order of the list. *)
Definition tagsRemove (tag : option siteTag) (ts : list siteTag) : list siteTag :=
  match tag with
  | Some t => List.filter (fun u => negb (tag_eqb u t)) (toSet ts)
  | None => toSet ts
  end.

(** ** Record updates ([setIn] / [deleteIn] on one key) *)

Definition set_lastAccessedTime (v : jsnum) (s : site) : site :=
  mkSite (location s) (title s) (customTitle s) (tags s) v (count s)
         (folderId s) (parentFolderId s) (partitionNumber s) (favicon s)
         (themeColor s).

Definition set_parentFolderId (v : option Z) (s : site) : site :=
  mkSite (location s) (title s) (customTitle s) (tags s) (lastAccessedTime s)
         (count s) (folderId s) v (partitionNumber s) (favicon s)
         (themeColor s).

Definition delete_customTitle (s : site) : site :=
  mkSite (location s) (title s) None (tags s) (lastAccessedTime s) (count s)
         (folderId s) (parentFolderId s) (partitionNumber s) (favicon s)
         (themeColor s).

Definition set_tags (ts : list siteTag) (s : site) : site :=
  mkSite (location s) (title s) (customTitle s) ts (lastAccessedTime s)
         (count s) (folderId s) (parentFolderId s) (partitionNumber s)
         (favicon s) (themeColor s).

(** ** Identity / lookup *)

(** [isBookmark]: on a tag string [includes] is the substring test, on a
    list it is membership. *)
Definition isBookmark (tags' : tagsArg) : bool :=
  match tags' with
  | NoTags => false
  | TagStr t => str_includes (tagName t) (tagName BOOKMARK)
  | TagList ts => existsb (tag_eqb BOOKMARK) ts
  end.

Definition isBookmarkFolder (tags' : tagsArg) : bool :=
  match tags' with
  | NoTags => false
  | TagStr t => tag_eqb t BOOKMARK_FOLDER
  | TagList ts => existsb (tag_eqb BOOKMARK_FOLDER) ts
  end.

(** The two tests of [getSiteIndex]: a folder with the [folderId] of
    [siteDetail], and an entry with the [location] and
    [partitionNumber || 0] of [siteDetail]. *)
Definition sameFolderId (siteDetail s : site) : bool :=
  isBookmarkFolder (TagList (tags s))
  && strict_eq_num (folderId s) (folderId siteDetail).

Definition sameIdentity (siteDetail s : site) : bool :=
  strict_eq_str (location s) (location siteDetail)
  && (or0 (partitionNumber s) =? or0 (partitionNumber siteDetail)).

(** [getSiteIndex]: folders are searched by [folderId], other entries by
    [location] and [partitionNumber || 0]. *)
Definition getSiteIndex (sites : option (list site)) (siteDetail : option site)
    (tags' : tagsArg) : option nat :=
  match sites, siteDetail with
  | Some sites, Some siteDetail =>
      if isBookmarkFolder tags' then findIndex (sameFolderId siteDetail) sites
      else findIndex (sameIdentity siteDetail) sites
  | _, _ => None
  end.

(** ** Folder ids *)

(** What the comparator handed to [sites.max] returns: the number [0], or a
    boolean. *)
Inductive jscmp : Type :=
  | CmpNum (n : Z)
  | CmpBool (b : bool).

(** The comparator of [getNextFolderIdItem]. *)
Definition folderIdComparator (siteA siteB : site) : jscmp :=
  let folderIdA := folderId siteA in
  let folderIdB := folderId siteB in
  if strict_eq_num folderIdA folderIdB then CmpNum 0
  else match folderIdA, folderIdB with
       | None, _ => CmpBool false
       | Some _, None => CmpBool true
       | Some a, Some b => CmpBool (a >? b)
       end.

(** [comp > 0] in JavaScript ([true] counts as 1, [false] as 0). *)
Definition cmp_gt0 (c : jscmp) : bool :=
  match c with
  | CmpNum n => 0 <? n
  | CmpBool b => b
  end.

(** Immutable's [maxCompare(comparator, a, b)]: [b] replaces [a] when
    [comparator(b, a) > 0]; its other disjunct needs [b] to be nullish or
    NaN, which an entry of the list never is. *)
Definition maxCompare (comparator : site -> site -> jscmp) (a b : site) : bool :=
  cmp_gt0 (comparator b a).

(** The reducer of Immutable's [max]. *)
Definition max_step (a b : site) : site :=
  if maxCompare folderIdComparator a b then b else a.

(** [sites.max(comparator)]: a reduce without initial value, [undefined] on
    the empty list. *)
Definition getNextFolderIdItem (sites : list site) : option site :=
  match sites with
  | [] => None
  | first :: rest => Some (fold_left max_step rest first)
  end.

Definition getNextFolderId (sites : option (list site)) : Z :=
  let defaultFolderId := 0 in
  match sites with
  | None => defaultFolderId
  | Some sites =>
      match getNextFolderIdItem sites with
      | Some maxIdItem => or0 (folderId maxIdItem) + 1
      | None => 0 + 1
      end
  end.

(** ** Merge *)

(** [mergeSiteDetails]; [now] is the value of [new Date().getTime()].
    [Number(x)] is applied to numbers only and is the identity there. *)
Definition mergeSiteDetails (now : Z) (oldSiteDetail : option site)
    (newSiteDetail : site) (tag : option siteTag) (folderId' : option Z) : site :=
  let tags0 := match oldSiteDetail with Some o => tags o | None => [] end in
  let tags1 := match tag with Some t => tagsAdd t tags0 | None => tags0 end in
  let customTitle' :=
    match customTitle newSiteDetail with
    | Some s => Some s
    | None => match oldSiteDetail with Some o => customTitle o | None => None end
    end in
  let lastAccessedTime' :=
    if isBookmark (ofTag tag) || isBookmarkFolder (ofTag tag)
    then time_or (lastAccessedTime newSiteDetail) 0
    else time_or (lastAccessedTime newSiteDetail) now in
  let old_or (A : Type) (get : site -> option A) (keep : option A -> bool) : option A :=
    match oldSiteDetail with
    | Some o => if keep (get o) then get o else None
    | None => None
    end in
  mkSite
    (if truthy_str (location newSiteDetail) then location newSiteDetail else None)
    (title newSiteDetail)
    customTitle'
    tags1
    (JNum lastAccessedTime')
    (if (length tags1 =? 0)%nat
     then Some (or0 (match oldSiteDetail with Some o => count o | None => None end) + 1)
     else None)
    (if truthy_num folderId' then folderId' else None)
    (match parentFolderId newSiteDetail with
     | Some p => Some p
     | None => old_or Z parentFolderId truthy_num
     end)
    (match partitionNumber newSiteDetail with
     | Some p => Some p
     | None => old_or Z partitionNumber truthy_num
     end)
    (if truthy_str (favicon newSiteDetail) then favicon newSiteDetail
     else old_or string favicon truthy_str)
    (if truthy_str (themeColor newSiteDetail) then themeColor newSiteDetail
     else old_or string themeColor truthy_str).

(** ** Mutation *)

(** The three outcomes of [removeSite] once the entry at [index] is known;
    [tags0] is the tag list read before the cascade. *)
Definition removeSite_finish (index : nat) (tags0 : list siteTag)
    (tag : option siteTag) (sites : list site) : list site :=
  if (length tags0 =? 0)%nat && negb (truthy_opt tag) then
    delete index sites
  else if (0 <? length tags0)%nat && negb (truthy_opt tag) then
    alter (set_lastAccessedTime JNull) index sites
  else
    alter (fun s => set_tags (tagsRemove tag tags0)
                      (delete_customTitle (set_parentFolderId (Some 0) s)))
          index sites.

(** The cascade of [removeSite] over the children of a folder:
    [childSites.forEach(site => site.get('tags').forEach(tag =>
    sites = removeSite(sites, site, tag)))], with [rm] the recursive call. *)
Definition removeChildSites
    (rm : list site -> site -> option siteTag -> option (list site))
    (childSites : list site) (sites : list site) : option (list site) :=
  fold_left
    (fun acc child =>
       fold_left
         (fun acc' t =>
            match acc' with
            | Some sites' => rm sites' child (Some t)
            | None => None
            end)
         (tags child) acc)
    childSites (Some sites).

(** [removeSite].  [None] means that the recursion through the children of
    a folder did not end within [fuel] calls.  The index returned by
    [getSiteIndex] is always within the list, and the cascade keeps the
    length of the list, so every [setIn] hits an existing entry. *)
Fixpoint removeSite (fuel : nat) (sites : list site) (siteDetail : site)
    (tag : option siteTag) : option (list site) :=
  match fuel with
  | O => None
  | S fuel' =>
      match getSiteIndex (Some sites) (Some siteDetail) (ofTag tag) with
      | None => Some sites
      | Some index =>
          match sites !! index with
          | None => None
          | Some entry =>
              let tags0 := tags entry in
              let cascade :=
                if isBookmarkFolder (TagList tags0) then
                  let folderId' := folderId entry in
                  let childSites :=
                    List.filter (fun s => strict_eq_num (parentFolderId s) folderId') sites in
                  removeChildSites (removeSite fuel') childSites sites
                else Some sites in
              match cascade with
              | Some sites' => Some (removeSite_finish index tags0 tag sites')
              | None => None
              end
          end
      end
  end.

(** [if (tag === undefined) tag = siteDetail.getIn(['tags', 0])] *)
Definition defaultTag (tag : option siteTag) (siteDetail : site) : option siteTag :=
  match tag with
  | Some t => Some t
  | None => head (tags siteDetail)
  end.

(** The test of [addSite] for a duplicate of the folder [siteDetail]. *)
Definition isDupFolder (siteDetail s : site) : bool :=
  isBookmarkFolder (TagList (tags s))
  && strict_eq_num (parentFolderId s) (parentFolderId siteDetail)
  && strict_eq_str (customTitle s) (customTitle siteDetail).

(** [addSite]; [fuel] bounds the [removeSite] call that drops a duplicate
    folder. *)
Definition addSite (fuel : nat) (now : Z) (sites : list site) (siteDetail : site)
    (tag : option siteTag) (originalSiteDetail : option site) : option (list site) :=
  let tag := defaultTag tag siteDetail in
  let index := getSiteIndex (Some sites)
                 (Some (match originalSiteDetail with Some o => o | None => siteDetail end))
                 (ofTag tag) in
  let oldSite := match index with Some i => sites !! i | None => None end in
  let folderId0 := folderId siteDetail in
  let prepared : option (list site * option Z) :=
    if isBookmarkFolder (ofTag tag) then
      if negb (truthy_opt oldSite) && truthy_num folderId0 then
        match List.find (isDupFolder siteDetail) sites with
        | Some dupFolder =>
            match removeSite fuel sites dupFolder (Some BOOKMARK_FOLDER) with
            | Some sites' => Some (sites', folderId0)
            | None => None
            end
        | None => Some (sites, folderId0)
        end
      else if negb (truthy_num folderId0) then
        Some (sites, Some (getNextFolderId (Some sites)))
      else Some (sites, folderId0)
    else Some (sites, folderId0) in
  match prepared with
  | None => None
  | Some (sites', folderId') =>
      let site' := mergeSiteDetails now oldSite siteDetail tag folderId' in
      match index with
      | None => Some (sites' ++ [site'])
      | Some i => Some (<[i := site']> sites')
      end
  end.

(** ** Moves *)

(** [getAncestorFolderIds]: the array [parentFolderIds] is threaded through
    and returned.  [None]: the walk did not end within [fuel] calls. *)
Fixpoint getAncestorFolderIds (fuel : nat) (parentFolderIds : list (option Z))
    (bookmarkFolder : site) (allBookmarks : list site) : option (list (option Z)) :=
  match fuel with
  | O => None
  | S fuel' =>
      if truthy_num (parentFolderId bookmarkFolder) then
        let parentFolderIds' := parentFolderIds ++ [parentFolderId bookmarkFolder] in
        match List.find (fun item => strict_eq_num (folderId item)
                                       (parentFolderId bookmarkFolder)) allBookmarks with
        | Some nextItem => getAncestorFolderIds fuel' parentFolderIds' nextItem allBookmarks
        | None => Some parentFolderIds'
        end
      else Some parentFolderIds
  end.

(** [typeof v === 'number'] *)
Definition is_number (v : option Z) : bool := truthy_opt v.

Definition isMoveAllowed (fuel : nat) (sites : list site)
    (sourceDetail destinationDetail : site) : option bool :=
  if is_number (parentFolderId destinationDetail) && is_number (folderId sourceDetail) then
    if strict_eq_num (folderId sourceDetail) (folderId destinationDetail) then Some false
    else
      match getAncestorFolderIds fuel [] destinationDetail sites with
      | None => None
      | Some ancestorFolderIds =>
          if existsb (strict_eq_num (folderId sourceDetail)) ancestorFolderIds
          then Some false
          else Some true
      end
  else Some true.

(** ** Queries *)

(** The comparator of [filterOutNonRecents]. *)
Definition recencyComparator (site1 site2 : site) : Z :=
  time_or (lastAccessedTime site2) 0 - time_or (lastAccessedTime site1) 0.

(** Immutable's [sort(comparator)] is stable: entries the comparator calls
    equal keep their order.  [sort_insert x l] puts [x] in front of the
    first entry that does not have to precede it. *)
Fixpoint sort_insert (comparator : site -> site -> Z) (x : site) (l : list site) : list site :=
  match l with
  | [] => [x]
  | y :: l' =>
      if comparator x y <=? 0 then x :: y :: l'
      else y :: sort_insert comparator x l'
  end.

Fixpoint sort (comparator : site -> site -> Z) (l : list site) : list site :=
  match l with
  | [] => []
  | x :: l' => sort_insert comparator x (sort comparator l')
  end.

(** [x] may stand before [y] in a list ordered by descending
    [lastAccessedTime || 0]. *)
Definition more_recent (x y : site) : Prop :=
  time_or (lastAccessedTime y) 0 <= time_or (lastAccessedTime x) 0.

(** Immutable's [take(amount)] is [slice(0, Math.max(0, amount))]. *)
Definition take_amount (amount : Z) (l : list site) : list site :=
  take (Z.to_nat (Z.max 0 amount)) l.

(** [filterOutNonRecents]; [historySize] is the value of
    [getSetting(settings.AUTOCOMPLETE_HISTORY_SIZE)]. *)
Definition filterOutNonRecents (historySize : Z) (sites : list site) : list site :=
  let sitesWithTags := List.filter (fun s => negb (length (tags s) =? 0)%nat) sites in
  let topHistorySites :=
    take_amount historySize
      (sort recencyComparator (List.filter (fun s => (length (tags s) =? 0)%nat) sites)) in
  sitesWithTags ++ topHistorySites.

(** A JavaScript value handed to [getOrigin]. *)
Inductive jsval : Type :=
  | VUndefined
  | VNull
  | VBool (b : bool)
  | VNumber (n : Z)
  | VString (s : string).

(** The fields of the result of Node's [url.parse] that [getOrigin] reads;
    [None] is [null]. *)
Record parsedUrl : Type := mkParsed {
  protocol : option string;
  host : option string;
  slashes : bool
}.

(** [[a, b].join(sep)]: [null] joins as the empty string. *)
Definition join2 (sep : string) (a b : option string) : string :=
  String.append (default EmptyString a) (String.append sep (default EmptyString b)).

(** [getOrigin]; [urlParse] is Node's [url.parse], [None] is [null]. *)
Definition getOrigin (urlParse : string -> parsedUrl) (location' : jsval) : option string :=
  match location' with
  | VString s =>
      if String.prefix "file://" s then Some "file:///"%string
      else
        let parsed := urlParse s in
        if truthy_str (host parsed) && truthy_str (protocol parsed) then
          if slashes parsed
          then Some (join2 "//" (protocol parsed) (host parsed))
          else Some (join2 "" (protocol parsed) (host parsed))
        else None
  | _ => None
  end.

(** ** The remaining functions of the module *)

(** [isSiteBookmarked] *)
Definition isSiteBookmarked (sites : option (list site)) (siteDetail : option site) : bool :=
  match getSiteIndex sites siteDetail (TagStr BOOKMARK) with
  | None => false
  | Some index =>
      match sites with
      | Some l =>
          match l !! index with
          | Some entry => isBookmark (TagList (tags entry))
          | None => false
          end
      | None => false
      end
  end.

(** The exported [isBookmark(siteDetail)]; the module-local [isBookmark]
    above takes the tags. *)
Definition exports_isBookmark (siteDetail : option site) : bool :=
  match siteDetail with
  | Some d => isBookmark (TagList (tags d))
  | None => false
  end.

Definition isFolder (siteDetail : option site) : bool :=
  match siteDetail with
  | Some d => isBookmarkFolder (TagList (tags d))
  | None => false
  end.

(** [isEquivalent], on two site details that are there. *)
Definition isEquivalent (siteDetail1 siteDetail2 : site) : bool :=
  let isFolder1 := isFolder (Some siteDetail1) in
  let isFolder2 := isFolder (Some siteDetail2) in
  if negb (Bool.eqb isFolder1 isFolder2) then false
  else if isFolder1 then strict_eq_num (folderId siteDetail1) (folderId siteDetail2)
  else strict_eq_str (location siteDetail1) (location siteDetail2)
       && strict_eq_num (partitionNumber siteDetail1) (partitionNumber siteDetail2).

(** [isHistoryEntry] *)
Definition isHistoryEntry (siteDetail : option site) : bool :=
  match siteDetail with
  | Some d =>
      match location d with
      | Some loc =>
          if String.prefix "about:" loc then false
          else truthy_time (lastAccessedTime d) && negb (isFolder (Some d))
      | None => false
      end
  | None => false
  end.

(** One entry of the result of [getFolders]. *)
Record folderItem : Type := mkFolderItem {
  item_folderId : option Z;
  item_parentFolderId : option Z;
  item_label : string
}.

(** [prefix + v] for a string [prefix] and a string-or-undefined [v]. *)
Definition concat_value (prefix : string) (v : option string) : string :=
  String.append prefix (default "undefined"%string v).

(** The callback of the [forEach] in [getFolders], with [rec] the
    recursive call on a folder id and a label prefix; [folders] is the array
    built so far, [None] once a recursive call has not returned. *)
Definition getFolders_visit
    (rec : option Z -> option string -> option (list folderItem))
    (folderId' : option Z) (parentId : Z) (labelPrefix : option string)
    (acc : option (list folderItem)) (s : site) : option (list folderItem) :=
  match acc with
  | None => None
  | Some folders =>
      if (or0 (parentFolderId s) =? parentId) && isFolder (Some s) then
        if strict_eq_num (folderId s) folderId' then Some folders
        else
          let label :=
            concat_value (default EmptyString labelPrefix)
              (if truthy_str (customTitle s) then customTitle s else title s) in
          match rec (folderId s) (Some (String.append label " / ")) with
          | Some subsites =>
              Some ((folders ++ [mkFolderItem (folderId s) (parentFolderId s) label])
                    ++ subsites)
          | None => None
          end
      else Some folders
  end.

(** [getFolders]; [None]: the recursion into the folders did not end within
    [fuel] calls.  [folderId'] is the folder to leave out, [parentId] the
    folder whose children are listed. *)
Fixpoint getFolders (fuel : nat) (sites : list site) (folderId' : option Z)
    (parentId : option Z) (labelPrefix : option string) : option (list folderItem) :=
  match fuel with
  | O => None
  | S fuel' =>
      fold_left
        (getFolders_visit (getFolders fuel' sites folderId') folderId' (or0 parentId)
           labelPrefix)
        sites (Some [])
  end.

(** [filterSitesRelativeTo] *)
Definition filterSitesRelativeTo (sites : list site) (relSite : site) : list site :=
  if negb (truthy_num (folderId relSite)) then sites
  else List.filter (fun s => strict_eq_num (parentFolderId s) (folderId relSite)) sites.

(** [forEach((value, index) => ...)] threading a state through the calls. *)
Fixpoint foldi {A B : Type} (f : B -> nat -> A -> B) (index : nat) (l : list A) (b : B) : B :=
  match l with
  | [] => b
  | x :: l' => foldi f (S index) l' (f b index x)
  end.

(** [clearHistory]: the loop runs over the filtered list and rewrites the
    variable [bookmarks] entry by entry. *)
Definition clearHistory (sites : list site) : list site :=
  let bookmarks := List.filter (fun s => (0 <? length (tags s))%nat) sites in
  foldi (fun acc index s =>
           if truthy_time (lastAccessedTime s)
           then alter (set_lastAccessedTime JNull) index acc
           else acc)
        0%nat bookmarks bookmarks.

(** [hasNoTagSites] *)
Definition hasNoTagSites (sites : list site) : bool :=
  truthy_opt (findIndex (fun s => (length (tags s) =? 0)%nat) sites).

(** [getBookmarks]; a missing list gives the empty array. *)
Definition getBookmarks (sites : option (list site)) : list site :=
  match sites with
  | Some l =>
      List.filter (fun s => isBookmarkFolder (TagList (tags s))
                            || isBookmark (TagList (tags s))) l
  | None => []
  end.

(** The frame entity, as far as [getDetailFromFrame] reads it. *)
Record frame : Type := mkFrame {
  frame_location : option string;
  frame_pinnedLocation : option string;
  frame_title : option string;
  frame_partitionNumber : option Z;
  frame_icon : option string;
  frame_themeColor : option string;
  frame_computedThemeColor : option string
}.

(** [getDetailFromFrame] *)
Definition getDetailFromFrame (fr : frame) (tag : option siteTag) : site :=
  let location' :=
    if truthy_str (frame_pinnedLocation fr)
       && match tag with Some t => tag_eqb t PINNED | None => false end
    then frame_pinnedLocation fr
    else frame_location fr in
  mkSite location' (frame_title fr) None
         (match tag with Some t => [t] | None => [] end)
         JUndefined None None None (frame_partitionNumber fr) (frame_icon fr)
         (if truthy_str (frame_themeColor fr) then frame_themeColor fr
          else frame_computedThemeColor fr).

(** [toFrameOpts]: the pair of [location] and [partitionNumber]. *)
Definition toFrameOpts (siteDetail : site) : option string * option Z :=
  (location siteDetail, partitionNumber siteDetail).

Definition set_favicon (v : option string) (s : site) : site :=
  mkSite (location s) (title s) (customTitle s) (tags s) (lastAccessedTime s)
         (count s) (folderId s) (parentFolderId s) (partitionNumber s) v
         (themeColor s).

(** [try { x = normalizeUrl(loc) } catch (e) { x = loc }]; [normalizeUrl]
    answers [None] when it throws. *)
Definition normalizeOrRaw (normalizeUrl : option string -> option string)
    (loc : option string) : option string :=
  match normalizeUrl loc with
  | Some n => Some n
  | None => loc
  end.

(** The test of the [filter] callback of [updateSiteFavicon]. *)
Definition faviconMatches (isNotURL : option string -> bool)
    (normalizeUrl : option string -> option string) (location' : string) (s : site) : bool :=
  if isBookmarkFolder (TagList (tags s)) then false
  else if isNotURL (location s) then false
  else strict_eq_str (normalizeOrRaw normalizeUrl (location s))
                     (normalizeOrRaw normalizeUrl (Some location')).

(** [updateSiteFavicon]; [isNotURL] is [UrlUtil.isNotURL] and [normalizeUrl]
    the package [normalize-url], neither of which is part of the sources. *)
Definition updateSiteFavicon (isNotURL : option string -> bool)
    (normalizeUrl : option string -> option string)
    (sites : list site) (location' : string) (favicon' : option string) : list site :=
  if isNotURL (Some location') then sites
  else
    let matchingIndices :=
      foldi (fun acc index s =>
               if faviconMatches isNotURL normalizeUrl location' s
               then acc ++ [index] else acc)
            0%nat sites [] in
    if (length matchingIndices =? 0)%nat then sites
    else fold_left (fun updatedSites index => alter (set_favicon favicon') index updatedSites)
                   matchingIndices sites.

(** What a call that may run out of fuel, or meet an undefined entry,
    comes to. *)
Inductive outcome (A : Type) : Type :=
  | Returns (a : A)
  | OutOfFuel
  | Undefined.

Arguments Returns {A} a.
Arguments OutOfFuel {A}.
Arguments Undefined {A}.

(** The index a lookup hands back in the source: [-1] when nothing is
    found. *)
Definition indexZ (i : option nat) : Z :=
  match i with
  | Some n => Z.of_nat n
  | None => -1
  end.

(** Immutable's [list.get(index)]: a negative index counts from the end. *)
Definition list_get (l : list site) (index : Z) : option site :=
  let index' := if index <? 0 then Z.of_nat (length l) + index else index in
  if (0 <=? index') && (index' <? Z.of_nat (length l)) then l !! Z.to_nat index'
  else None.

(** Immutable's [resolveBegin(index, size)] *)
Definition resolveBegin (index : Z) (size : nat) : nat :=
  if index <? 0 then Z.to_nat (Z.max 0 (Z.of_nat size + index))
  else Z.to_nat (Z.min (Z.of_nat size) index).

(** Immutable's [list.splice(index, 1)] and [list.splice(index, 0, value)] *)
Definition splice_remove (index : Z) (l : list site) : list site :=
  let b := resolveBegin index (length l) in
  take b l ++ drop (b + 1) l.

Definition splice_insert (index : Z) (value : site) (l : list site) : list site :=
  let b := resolveBegin index (length l) in
  take b l ++ [value] ++ drop b l.

(** The re-parenting step of [moveSite]. *)
Definition reparent (destinationIsParent : bool) (destinationDetail : site)
    (destinationSite sourceSite : site) : site :=
  if destinationIsParent
     && negb (strict_eq_num (folderId destinationDetail) (folderId sourceSite))
  then set_parentFolderId (folderId destinationDetail) sourceSite
  else if negb (truthy_num (parentFolderId destinationSite))
  then set_parentFolderId None sourceSite
  else if negb (strict_eq_num (parentFolderId destinationSite) (parentFolderId sourceSite))
  then set_parentFolderId (parentFolderId destinationSite) sourceSite
  else sourceSite.

(** The index at which [moveSite] puts the record back in:
    [destinationSiteIndex + (prepend ? 0 : 1)], less one when the removal
    of the source has shifted it. *)
Definition moveSite_newIndex (destinationSiteIndex sourceSiteIndex : Z)
    (prepend : bool) : Z :=
  let newIndex := destinationSiteIndex + (if prepend then 0 else 1) in
  if newIndex >? sourceSiteIndex then newIndex - 1 else newIndex.

(** [moveSite].  [OutOfFuel]: the walk of [isMoveAllowed] did not end.
    [Undefined]: on an empty list [sites.get] yields [undefined], and the
    call either throws on it or stores it in the list. *)
Definition moveSite (fuel : nat) (sites : list site)
    (sourceDetail destinationDetail : site)
    (prepend destinationIsParent disallowReparent : bool) : outcome (list site) :=
  match isMoveAllowed fuel sites sourceDetail destinationDetail with
  | None => OutOfFuel
  | Some false => Returns sites
  | Some true =>
      let sourceSiteIndex :=
        indexZ (getSiteIndex (Some sites) (Some sourceDetail)
                  (TagList (tags sourceDetail))) in
      let destinationSiteIndex :=
        if destinationIsParent then Z.of_nat (length sites) - 1
        else indexZ (getSiteIndex (Some sites) (Some destinationDetail)
                       (TagList (tags destinationDetail))) in
      let prepend := if destinationIsParent then false else prepend in
      let newIndex := moveSite_newIndex destinationSiteIndex sourceSiteIndex prepend in
      match list_get sites sourceSiteIndex, list_get sites destinationSiteIndex with
      | Some sourceSite, Some destinationSite =>
          let sites' := splice_remove sourceSiteIndex sites in
          let sourceSite' :=
            if disallowReparent then sourceSite
            else reparent destinationIsParent destinationDetail destinationSite sourceSite in
          Returns (splice_insert newIndex sourceSite' sites')
      | _, _ => Undefined
      end
  end.

(** ** Relations between the list before and after a call *)

(** Every record is still there, at its index, with its [location],
    [partitionNumber] and [folderId], and with no tag it did not have. *)
Definition keeps_records (before after : list site) : Prop :=
  length after = length before /\
  forall j s0, before !! j = Some s0 ->
    exists s, after !! j = Some s /\
      location s = location s0 /\
      partitionNumber s = partitionNumber s0 /\
      folderId s = folderId s0 /\
      forall t, t ∈ tags s -> t ∈ tags s0.

(** Every folder record is untouched. *)
Definition keeps_folders (before after : list site) : Prop :=
  forall j s0, before !! j = Some s0 ->
    isBookmarkFolder (TagList (tags s0)) = true -> after !! j = Some s0.

(** ** Sample records *)

Definition sampleFolder (id : Z) (name : string) (parent : option Z) : site :=
  mkSite None None (Some name) [BOOKMARK_FOLDER] (JNum 0) None (Some id) parent
         None None None.

Definition sampleHistory (url : string) (time : Z) (parent : option Z) : site :=
  mkSite (Some url) None None [] (JNum time) (Some 1) None parent None None None.

Definition sampleBookmark (url : string) (parent : option Z) : site :=
  mkSite (Some url) None None [BOOKMARK] (JNum 7) None None parent None None None.

(** A folder with two history entries inside, and the same folder with two
    bookmarks inside. *)
Definition sampleHistoryTree : list site :=
  [sampleFolder 1 "news" None;
   sampleHistory "https://a.example/" 5 (Some 1);
   sampleHistory "https://b.example/" 6 (Some 1)].

Definition sampleBookmarkTree : list site :=
  [sampleFolder 1 "news" None;
   sampleBookmark "https://a.example/" (Some 1);
   sampleBookmark "https://b.example/" (Some 1)].

(** A record whose [location] is the empty string. *)
Definition sampleEmptyLocation : site :=
  mkSite (Some EmptyString) None None [] JUndefined None None None None None None.

(** A folder as handed to [addSite]: a title and a parent, with or without
    an id. *)
Definition sampleNewFolder (id : option Z) (name : string) : site :=
  mkSite None None (Some name) [] JUndefined None id (Some 0) None None None.

(** The folder chain A, B, C: C lies in B, B in A, A in the toolbar. *)
Definition sampleChain : list site :=
  [sampleFolder 1 "A" (Some 0); sampleFolder 2 "B" (Some 1); sampleFolder 3 "C" (Some 2)].

(** A stand-in for Node's [url.parse] on strings of the shape
    [scheme://host/path]; anything else parses to no protocol and no host. *)
Definition sampleUrlParse (s : string) : parsedUrl :=
  match String.index 0 "://" s with
  | Some n =>
      let rest := String.substring (n + 3) (String.length s - (n + 3)) s in
      let h := match String.index 0 "/" rest with
               | Some m => String.substring 0 m rest
               | None => rest
               end in
      mkParsed (Some (String.substring 0 (n + 1) s))
               (if String.eqb h "" then None else Some h) true
  | None => mkParsed None None false
  end.

(** Stand-ins for [UrlUtil.isNotURL] and [normalize-url]: a URL starts
    with "http", and normalising drops one trailing "/". *)
Definition sampleIsNotURL (loc : option string) : bool :=
  match loc with
  | Some s => negb (String.prefix "http" s)
  | None => true
  end.

Definition sampleNormalizeUrl (loc : option string) : option string :=
  match loc with
  | Some s =>
      let n := String.length s in
      if String.eqb (String.substring (n - 1) 1 s) "/"
      then Some (String.substring 0 (n - 1) s)
      else Some s
  | None => None
  end.

(** * Properties *)

(** ** Basic facts about the primitives *)

Lemma tag_eqb_eq (a b : siteTag) : tag_eqb a b = true <-> a = b.
Proof. destruct a, b; vm_compute; split; congruence. Qed.

Lemma tag_eqb_refl (a : siteTag) : tag_eqb a a = true.
Proof. by apply tag_eqb_eq. Qed.

Lemma strict_eq_num_eq (a b : option Z) : strict_eq_num a b = true <-> a = b.
Proof.
  destruct a as [x|], b as [y|]; simpl; try (split; congruence).
  rewrite Z.eqb_eq. split; congruence.
Qed.

Lemma strict_eq_num_refl (a : option Z) : strict_eq_num a a = true.
Proof. by apply strict_eq_num_eq. Qed.

Lemma strict_eq_str_eq (a b : option string) : strict_eq_str a b = true <-> a = b.
Proof.
  destruct a as [x|], b as [y|]; simpl; try (split; congruence).
  rewrite String.eqb_eq. split; congruence.
Qed.

Lemma strict_eq_str_refl (a : option string) : strict_eq_str a a = true.
Proof. by apply strict_eq_str_eq. Qed.

Lemma findIndex_Some {A : Type} (p : A -> bool) (l : list A) (i : nat) :
  findIndex p l = Some i ->
  exists x, l !! i = Some x /\ p x = true /\
            forall j y, (j < i)%nat -> l !! j = Some y -> p y = false.
Proof.
  revert i. induction l as [|a l IH]; intros i; simpl; [done|].
  destruct (p a) eqn:Hpa.
  - intros [= <-]. exists a. repeat split; [done|]. intros j y Hj. lia.
  - destruct (findIndex p l) as [k|]; simpl; [|done].
    intros [= <-]. destruct (IH k eq_refl) as (x & Hx & Hpx & Hlt).
    exists x. repeat split; [done..|].
    intros [|j] y Hj; simpl; [congruence|]. apply Hlt. lia.
Qed.

Lemma findIndex_None {A : Type} (p : A -> bool) (l : list A) :
  findIndex p l = None <-> forall x, x ∈ l -> p x = false.
Proof.
  induction l as [|a l IH]; simpl.
  - split; [|done]. intros _ x Hx. by apply elem_of_nil in Hx.
  - destruct (p a) eqn:Hpa.
    + split; [done|]. intros H. rewrite H in Hpa; [done|]. by left.
    + destruct (findIndex p l) as [k|] eqn:Hk; simpl.
      * split; [done|]. intros H. exfalso.
        assert (Some k = None) as Hbad; [|done].
        apply IH. intros x Hx. apply H. by right.
      * split; [|done]. intros _ x Hx. apply elem_of_cons in Hx as [->|Hx]; [done|].
        by apply IH.
Qed.

Lemma findIndex_lt {A : Type} (p : A -> bool) (l : list A) (i : nat) :
  findIndex p l = Some i -> (i < length l)%nat.
Proof.
  intros H. destruct (findIndex_Some p l i H) as (x & Hx & _).
  by apply lookup_lt_Some in Hx.
Qed.

Lemma findIndex_is_Some {A : Type} (p : A -> bool) (l : list A) (x : A) :
  x ∈ l -> p x = true -> is_Some (findIndex p l).
Proof.
  intros Hx Hp. destruct (findIndex p l) eqn:H; [by eexists|].
  rewrite findIndex_None in H. rewrite (H x Hx) in Hp. done.
Qed.

(** ** Folder ids (C3) *)

Lemma max_step_cases (a b : site) :
  (max_step a b = a \/ max_step a b = b) /\
  forall s n, (s = a \/ s = b) -> folderId s = Some n ->
              exists k, folderId (max_step a b) = Some k /\ n <= k.
Proof.
  unfold max_step, maxCompare, folderIdComparator.
  destruct (folderId a) as [x|] eqn:Ha, (folderId b) as [y|] eqn:Hb; simpl.
  - destruct (y =? x) eqn:Hyx; simpl.
    + apply Z.eqb_eq in Hyx. subst y. split; [by left|].
      intros s n [->| ->] Hs; exists x; split; try done; simplify_eq; lia.
    + destruct (y >? x) eqn:Hgt.
      * split; [by right|]. apply Z.gtb_lt in Hgt.
        intros s n [->| ->] Hs; exists y; split; try done; simplify_eq; lia.
      * split; [by left|].
        assert (y <= x) by (rewrite Z.gtb_ltb in Hgt; apply Z.ltb_ge in Hgt; lia).
        intros s n [->| ->] Hs; exists x; split; try done; simplify_eq; lia.
  - split; [by left|].
    intros s n [->| ->] Hs; exists x; split; try done; simplify_eq; lia.
  - split; [by right|].
    intros s n [->| ->] Hs; exists y; split; try done; simplify_eq; lia.
  - split; [by left|]. intros s n [->| ->] Hs; simplify_eq.
Qed.

Lemma fold_max_spec (rest : list site) (first : site) :
  let m := fold_left max_step rest first in
  m ∈ first :: rest /\
  forall s n, s ∈ first :: rest -> folderId s = Some n ->
              exists k, folderId m = Some k /\ n <= k.
Proof.
  revert first. induction rest as [|b rest IH]; intros first; simpl.
  - split; [by left|]. intros s n Hs Hn. apply list_elem_of_singleton in Hs as ->.
    exists n. split; [done|lia].
  - destruct (IH (max_step first b)) as [Hin Hmax].
    destruct (max_step_cases first b) as [Hor Hstep]. split.
    + apply elem_of_cons in Hin as [Hin|Hin].
      * rewrite Hin. destruct Hor as [-> | ->]; [by left|by right; left].
      * by do 2 right.
    + intros s n Hs Hn.
      assert (s = first \/ s = b \/ s ∈ rest) as [Hs'|[Hs'|Hs']].
      { apply elem_of_cons in Hs as [?|Hs]; [by left|].
        apply elem_of_cons in Hs as [?|Hs]; [by right; left|by right; right]. }
      * destruct (Hstep s n (or_introl Hs') Hn) as (k & Hk & Hle).
        destruct (Hmax _ k (list_elem_of_here _ _) Hk) as (k' & Hk' & Hle').
        exists k'. split; [done|lia].
      * destruct (Hstep s n (or_intror Hs') Hn) as (k & Hk & Hle).
        destruct (Hmax _ k (list_elem_of_here _ _) Hk) as (k' & Hk' & Hle').
        exists k'. split; [done|lia].
      * apply (Hmax s n); [by right|done].
Qed.

(** C3: for every site list, [getNextFolderId] is strictly greater than the
    [folderId] of every entry that has one, and it is exactly 1 when the
    list is empty or no entry has a [folderId]. *)
Theorem getNextFolderId_fresh (sites : list site) :
  (forall s n, s ∈ sites -> folderId s = Some n -> n < getNextFolderId (Some sites)) /\
  ((forall s, s ∈ sites -> folderId s = None) -> getNextFolderId (Some sites) = 1) /\
  getNextFolderId (Some []) = 1.
Proof.
  split; [|split; [|reflexivity]].
  - intros s n Hs Hn. unfold getNextFolderId, getNextFolderIdItem.
    destruct sites as [|first rest]; [by apply elem_of_nil in Hs|].
    destruct (fold_max_spec rest first) as [_ Hmax].
    destruct (Hmax s n Hs Hn) as (k & Hk & Hle).
    rewrite Hk. simpl. lia.
  - intros Hnone. unfold getNextFolderId, getNextFolderIdItem.
    destruct sites as [|first rest]; [done|].
    destruct (fold_max_spec rest first) as [Hin _].
    rewrite (Hnone _ Hin). done.
Qed.

Lemma getNextFolderId_fresh_witness :
  3 < getNextFolderId (Some sampleChain) /\
  getNextFolderId (Some [sampleBookmark "https://a.example/" None]) = 1.
Proof.
  split.
  - apply (proj1 (getNextFolderId_fresh sampleChain) (sampleFolder 3 "C" (Some 2)) 3);
      [|reflexivity].
    unfold sampleChain. do 2 right. by left.
  - apply (proj1 (proj2 (getNextFolderId_fresh [sampleBookmark "https://a.example/" None]))).
    intros s Hs. by apply list_elem_of_singleton in Hs as ->.
Defined.

(** ** Tag sets *)

Lemma elem_of_List_filter {A : Type} (p : A -> bool) (l : list A) (x : A) :
  x ∈ List.filter p l <-> x ∈ l /\ p x = true.
Proof. rewrite !list_elem_of_In. apply filter_In. Qed.

Lemma elem_of_toSet (t : siteTag) (ts : list siteTag) : t ∈ toSet ts <-> t ∈ ts.
Proof.
  induction ts as [|a ts IH]; simpl; [done|].
  rewrite !elem_of_cons, elem_of_List_filter, IH.
  destruct (tag_eqb t a) eqn:E.
  - apply tag_eqb_eq in E. split; intros _; by left.
  - simpl. tauto.
Qed.

Lemma elem_of_tagsRemove (t tag : siteTag) (ts : list siteTag) :
  t ∈ tagsRemove (Some tag) ts <-> t ∈ ts /\ t <> tag.
Proof.
  unfold tagsRemove. rewrite elem_of_List_filter, elem_of_toSet.
  destruct (tag_eqb t tag) eqn:E; simpl.
  - apply tag_eqb_eq in E. split; intros [? ?]; done.
  - split; intros [? ?]; split; try done.
    intros ->. by rewrite tag_eqb_refl in E.
Qed.

Lemma elem_of_tagsAdd (t tag : siteTag) (ts : list siteTag) :
  t ∈ tagsAdd tag ts <-> t = tag \/ t ∈ ts.
Proof.
  unfold tagsAdd. destruct (existsb (tag_eqb tag) (toSet ts)) eqn:E.
  - rewrite elem_of_toSet. split; [auto|]. intros [->|?]; [|done].
    apply existsb_exists in E as (u & Hu & Heq). apply tag_eqb_eq in Heq as ->.
    apply elem_of_toSet, list_elem_of_In, Hu.
  - rewrite elem_of_app, elem_of_toSet, list_elem_of_singleton. tauto.
Qed.

Lemma isBookmarkFolder_list (ts : list siteTag) :
  isBookmarkFolder (TagList ts) = true <-> BOOKMARK_FOLDER ∈ ts.
Proof.
  simpl. rewrite existsb_exists. split.
  - intros (u & Hu & Heq). apply tag_eqb_eq in Heq as <-. by apply list_elem_of_In.
  - intros H. exists BOOKMARK_FOLDER. split; [by apply list_elem_of_In|apply tag_eqb_refl].
Qed.

(** ** Removal *)

Lemma getSiteIndex_lookup (sites : list site) (d : site) (t : tagsArg) (i : nat) :
  getSiteIndex (Some sites) (Some d) t = Some i -> is_Some (sites !! i).
Proof.
  unfold getSiteIndex.
  destruct (isBookmarkFolder t); intros H; apply findIndex_Some in H as (x & Hx & _); eauto.
Qed.

Lemma getSiteIndex_not_folder (sites : list site) (d : site) (t : tagsArg) :
  isBookmarkFolder t = false ->
  getSiteIndex (Some sites) (Some d) t = findIndex (sameIdentity d) sites.
Proof. intros Hf. unfold getSiteIndex. by rewrite Hf. Qed.

Lemma removeSite_unfold (fuel : nat) (sites : list site) (d : site) (tag : option siteTag) :
  removeSite (S fuel) sites d tag =
  match getSiteIndex (Some sites) (Some d) (ofTag tag) with
  | None => Some sites
  | Some index =>
      match sites !! index with
      | None => None
      | Some entry =>
          match
            (if isBookmarkFolder (TagList (tags entry)) then
               removeChildSites (removeSite fuel)
                 (List.filter (fun s => strict_eq_num (parentFolderId s) (folderId entry)) sites)
                 sites
             else Some sites)
          with
          | Some sites' => Some (removeSite_finish index (tags entry) tag sites')
          | None => None
          end
      end
  end.
Proof. reflexivity. Qed.

Lemma removeSite_finish_tag (index : nat) (tags0 : list siteTag) (tag : siteTag)
    (sites : list site) :
  removeSite_finish index tags0 (Some tag) sites =
  alter (fun s => set_tags (tagsRemove (Some tag) tags0)
                    (delete_customTitle (set_parentFolderId (Some 0) s))) index sites.
Proof. unfold removeSite_finish. simpl. by rewrite !andb_false_r. Qed.

Lemma removeSite_finish_length (index : nat) (tags0 : list siteTag) (tag : siteTag)
    (sites : list site) :
  length (removeSite_finish index tags0 (Some tag) sites) = length sites.
Proof. rewrite removeSite_finish_tag. apply length_alter. Qed.

Lemma fold_left_inv {A B : Type} (Q : B -> Prop) (f : B -> A -> B) (l : list A) (b : B) :
  Q b -> (forall b' x, x ∈ l -> Q b' -> Q (f b' x)) -> Q (fold_left f l b).
Proof.
  revert b. induction l as [|x l IH]; intros b Hb Hstep; simpl; [done|].
  apply IH.
  - apply Hstep; [by left|done].
  - intros b' y Hy. apply Hstep. by right.
Qed.

Lemma removeChildSites_length
    (rm : list site -> site -> option siteTag -> option (list site))
    (childSites sites sites' : list site) :
  (forall s c t s', rm s c (Some t) = Some s' -> length s' = length s) ->
  removeChildSites rm childSites sites = Some sites' ->
  length sites' = length sites.
Proof.
  intros Hrm. unfold removeChildSites. intros H.
  set (Q := fun acc : option (list site) =>
              forall b, acc = Some b -> length b = length sites).
  assert (Q (Some sites')) as HQ; [|by apply HQ].
  rewrite <- H. apply fold_left_inv.
  - intros b [= <-]. done.
  - intros acc child _ Hacc. apply fold_left_inv; [done|].
    intros acc' t _ Hacc' b Hb. destruct acc' as [s|]; [|done].
    rewrite (Hrm _ _ _ _ Hb). by apply Hacc'.
Qed.

(** Whatever the children are, a call of [removeSite] with a tag that
    returns keeps the length of the list. *)
Lemma removeSite_length (fuel : nat) (sites : list site) (d : site) (tag : siteTag)
    (sites' : list site) :
  removeSite fuel sites d (Some tag) = Some sites' -> length sites' = length sites.
Proof.
  revert sites d tag sites'. induction fuel as [|fuel IH]; intros sites d tag sites'; [done|].
  rewrite removeSite_unfold.
  destruct (getSiteIndex _ _ _) as [index|]; [|by intros [= <-]].
  destruct (sites !! index) as [entry|]; [|done].
  destruct (isBookmarkFolder (TagList (tags entry))).
  - destruct (removeChildSites _ _ _) as [sites1|] eqn:Hc; [|done].
    intros [= <-]. rewrite removeSite_finish_length.
    eapply removeChildSites_length; [|exact Hc]. intros s c t s'. apply IH.
  - intros [= <-]. apply removeSite_finish_length.
Qed.

Lemma removeChildSites_tagless
    (rm : list site -> site -> option siteTag -> option (list site))
    (childSites sites : list site) :
  (forall c, c ∈ childSites -> tags c = []) ->
  removeChildSites rm childSites sites = Some sites.
Proof.
  unfold removeChildSites. generalize (Some sites) as acc.
  induction childSites as [|c cs IH]; intros acc Hc; simpl; [done|].
  rewrite (Hc c); [|by left]. simpl. apply IH. intros c' Hc'. apply Hc. by right.
Qed.

Lemma removeSite_not_folder (fuel : nat) (sites : list site) (d : site)
    (tag : option siteTag) (i : nat) (entry : site) :
  getSiteIndex (Some sites) (Some d) (ofTag tag) = Some i ->
  sites !! i = Some entry ->
  isBookmarkFolder (TagList (tags entry)) = false ->
  removeSite (S fuel) sites d tag = Some (removeSite_finish i (tags entry) tag sites).
Proof. intros Hi He Hf. rewrite removeSite_unfold, Hi, He, Hf. done. Qed.

(** What the last branch of [removeSite] does to the entry it found. *)
Lemma lookup_removeSite_finish_tag (i : nat) (tags0 : list siteTag) (tag : siteTag)
    (sites : list site) (entry : site) :
  sites !! i = Some entry ->
  removeSite_finish i tags0 (Some tag) sites !! i =
    Some (set_tags (tagsRemove (Some tag) tags0)
            (delete_customTitle (set_parentFolderId (Some 0) entry))) /\
  forall j, j <> i -> removeSite_finish i tags0 (Some tag) sites !! j = sites !! j.
Proof.
  intros He. rewrite removeSite_finish_tag. split.
  - by rewrite list_lookup_alter_eq, He.
  - intros j Hj. by apply list_lookup_alter_ne.
Qed.

Lemma keeps_records_refl (l : list site) : keeps_records l l.
Proof. split; [done|]. intros j s0 Hj. exists s0. repeat split; done. Qed.

Lemma keeps_records_trans (l1 l2 l3 : list site) :
  keeps_records l1 l2 -> keeps_records l2 l3 -> keeps_records l1 l3.
Proof.
  intros [Hlen12 H12] [Hlen23 H23]. split; [congruence|].
  intros j s0 Hj.
  destruct (H12 j s0 Hj) as (s1 & Hs1 & Hl1 & Hp1 & Hf1 & Ht1).
  destruct (H23 j s1 Hs1) as (s2 & Hs2 & Hl2 & Hp2 & Hf2 & Ht2).
  exists s2. repeat split; try congruence. intros t Ht. by apply Ht1, Ht2.
Qed.

Lemma removeSite_finish_keeps_records (i : nat) (tag : siteTag) (sites : list site)
    (entry : site) (tags0 : list siteTag) :
  sites !! i = Some entry ->
  (forall t, t ∈ tags0 -> t ∈ tags entry) ->
  keeps_records sites (removeSite_finish i tags0 (Some tag) sites).
Proof.
  intros He Hsub. split; [apply removeSite_finish_length|].
  destruct (lookup_removeSite_finish_tag i tags0 tag sites entry He) as [Hat Hother].
  intros j s0 Hj. destruct (decide (j = i)) as [->|Hne].
  - rewrite He in Hj. injection Hj as <-. eexists. split; [exact Hat|].
    simpl. repeat split; try done.
    intros t Ht. apply elem_of_tagsRemove in Ht as [Ht _]. by apply Hsub.
  - exists s0. rewrite (Hother j Hne). repeat split; done.
Qed.

Lemma removeSite_finish_keeps_folders (i : nat) (tag : siteTag) (sites : list site)
    (entry : site) (tags0 : list siteTag) :
  sites !! i = Some entry ->
  isBookmarkFolder (TagList (tags entry)) = false ->
  keeps_folders sites (removeSite_finish i tags0 (Some tag) sites).
Proof.
  intros He Hnf j s0 Hj Hfolder.
  destruct (lookup_removeSite_finish_tag i tags0 tag sites entry He) as [_ Hother].
  rewrite Hother; [done|]. intros ->. congruence.
Qed.

(** One call of the cascade, on a child whose [location] and
    [partitionNumber] are shared by no folder of the list. *)
Lemma removeSite_child_step (fuel : nat) (sites l : list site) (c : site) (t : siteTag) :
  keeps_records sites l -> keeps_folders sites l ->
  (forall s0, s0 ∈ sites -> sameIdentity c s0 = true ->
              isBookmarkFolder (TagList (tags s0)) = false) ->
  t <> BOOKMARK_FOLDER ->
  exists l', removeSite (S fuel) l c (Some t) = Some l' /\
             keeps_records sites l' /\ keeps_folders sites l'.
Proof.
  intros Hkeep Hfolders Hnf Ht.
  assert (isBookmarkFolder (TagStr t) = false) as Htag.
  { simpl. destruct (tag_eqb t BOOKMARK_FOLDER) eqn:E; [|done].
    by apply tag_eqb_eq in E. }
  destruct (getSiteIndex (Some l) (Some c) (TagStr t)) as [j|] eqn:Hj.
  - pose proof Hj as Hj'. rewrite (getSiteIndex_not_folder l c _ Htag) in Hj'.
    apply findIndex_Some in Hj' as (entry & He & Hid & _).
    destruct Hkeep as [Hlen Hkeep].
    destruct (lookup_lt_is_Some_2 sites j) as [s0 Hs0].
    { rewrite <- Hlen. by apply lookup_lt_Some in He. }
    destruct (Hkeep j s0 Hs0) as (s & Hs & Hloc & Hpn & _ & Htags).
    rewrite He in Hs. injection Hs as <-.
    assert (isBookmarkFolder (TagList (tags s0)) = false) as Hs0nf.
    { apply Hnf; [by eapply list_elem_of_lookup_2|].
      unfold sameIdentity in *. by rewrite <- Hloc, <- Hpn. }
    assert (isBookmarkFolder (TagList (tags entry)) = false) as Henf.
    { destruct (isBookmarkFolder (TagList (tags entry))) eqn:E; [|done].
      apply isBookmarkFolder_list, Htags, isBookmarkFolder_list in E. congruence. }
    exists (removeSite_finish j (tags entry) (Some t) l).
    split; [by apply removeSite_not_folder|]. split.
    + eapply keeps_records_trans; [by split|].
      by apply (removeSite_finish_keeps_records j t l entry).
    + intros k s1 Hk Hfolder.
      apply (removeSite_finish_keeps_folders j t l entry (tags entry) He Henf);
        [|done].
      by apply Hfolders.
  - exists l. split; [|done]. rewrite removeSite_unfold. simpl ofTag. by rewrite Hj.
Qed.

(** The whole cascade, when no child shares its [location] and
    [partitionNumber] with a folder (so no child is a folder). *)
Lemma removeChildSites_keeps (fuel : nat) (sites childSites : list site) :
  (forall c s0, c ∈ childSites -> s0 ∈ sites -> sameIdentity c s0 = true ->
                isBookmarkFolder (TagList (tags s0)) = false) ->
  (forall c, c ∈ childSites -> c ∈ sites) ->
  exists l, removeChildSites (removeSite (S fuel)) childSites sites = Some l /\
            keeps_records sites l /\ keeps_folders sites l.
Proof.
  intros Hnf Hin. unfold removeChildSites.
  set (Q := fun acc : option (list site) =>
              exists l, acc = Some l /\ keeps_records sites l /\ keeps_folders sites l).
  apply (fold_left_inv Q).
  - exists sites. split; [done|]. split; [apply keeps_records_refl|]. by intros j s0 Hj _.
  - intros acc c Hc Hacc. apply (fold_left_inv Q); [done|].
    intros acc' t Ht (l & -> & Hkeep & Hfolders).
    apply removeSite_child_step; try done.
    + intros s0 Hs0. by apply (Hnf c).
    + intros ->.
      assert (isBookmarkFolder (TagList (tags c)) = false) as Hcnf.
      { apply (Hnf c c Hc (Hin c Hc)). unfold sameIdentity.
        by rewrite strict_eq_str_refl, Z.eqb_refl. }
      apply isBookmarkFolder_list in Ht. congruence.
Qed.

(** C1 (amended): removing a folder with its [BOOKMARK_FOLDER] tag deletes
    no record.  (1) Whatever the children are, a call that returns keeps
    the length of the list.  (2) When no child of the folder shares its
    [location] and [partitionNumber] with a folder record (so no child is a
    folder itself), the call returns: every record stays at its index with
    its location and with no more tags than before, and the folder stays at
    its index with the tag stripped, [parentFolderId] 0 and no
    [customTitle].  (3) When the children are tag-less history entries, the
    call returns and every record but the folder is unchanged. *)
Theorem removeSite_folder_keeps_records (sites : list site) (d : site) (i : nat)
    (entry : site) :
  getSiteIndex (Some sites) (Some d) (TagStr BOOKMARK_FOLDER) = Some i ->
  sites !! i = Some entry ->
  (forall fuel sites', removeSite fuel sites d (Some BOOKMARK_FOLDER) = Some sites' ->
                       length sites' = length sites) /\
  ((forall c s0, c ∈ sites -> parentFolderId c = folderId entry ->
                 s0 ∈ sites -> sameIdentity c s0 = true ->
                 isBookmarkFolder (TagList (tags s0)) = false) ->
   forall fuel, exists sites' entry',
     removeSite (S (S fuel)) sites d (Some BOOKMARK_FOLDER) = Some sites' /\
     keeps_records sites sites' /\
     sites' !! i = Some entry' /\
     (forall t, t ∈ tags entry' <-> t ∈ tags entry /\ t <> BOOKMARK_FOLDER) /\
     parentFolderId entry' = Some 0 /\
     customTitle entry' = None) /\
  ((forall c, c ∈ sites -> parentFolderId c = folderId entry -> tags c = []) ->
   forall fuel, exists sites' entry',
     removeSite (S fuel) sites d (Some BOOKMARK_FOLDER) = Some sites' /\
     length sites' = length sites /\
     sites' !! i = Some entry' /\
     (forall t, t ∈ tags entry' <-> t ∈ tags entry /\ t <> BOOKMARK_FOLDER) /\
     parentFolderId entry' = Some 0 /\
     customTitle entry' = None /\
     folderId entry' = folderId entry /\
     (forall j, j <> i -> sites' !! j = sites !! j)).
Proof.
  intros Hi He.
  assert (isBookmarkFolder (TagList (tags entry)) = true) as Hfolder.
  { unfold getSiteIndex in Hi. simpl in Hi.
    apply findIndex_Some in Hi as (x & Hx & Hp & _). rewrite He in Hx.
    injection Hx as <-. unfold sameFolderId in Hp. by apply andb_prop in Hp as [? _]. }
  split; [|split].
  - intros fuel sites'. apply removeSite_length.
  - intros Hchildren fuel.
    destruct (removeChildSites_keeps fuel sites
                (List.filter (fun s => strict_eq_num (parentFolderId s) (folderId entry))
                             sites))
      as (l & Hl & Hkeep & Hfolders).
    { intros c s0 Hc. apply elem_of_List_filter in Hc as [Hc Heq].
      apply strict_eq_num_eq in Heq. by apply Hchildren. }
    { intros c Hc. by apply elem_of_List_filter in Hc as [Hc _]. }
    pose proof (Hfolders i entry He Hfolder) as Hli.
    destruct (lookup_removeSite_finish_tag i (tags entry) BOOKMARK_FOLDER l entry Hli)
      as [Hat _].
    eexists _, _. split; [|split; [|split; [exact Hat|]]].
    + rewrite removeSite_unfold. simpl ofTag. rewrite Hi, He, Hfolder, Hl. done.
    + eapply keeps_records_trans; [exact Hkeep|].
      by apply (removeSite_finish_keeps_records i BOOKMARK_FOLDER l entry).
    + simpl. split; [intros t; apply elem_of_tagsRemove|]. done.
  - intros Hchildren fuel.
    destruct (lookup_removeSite_finish_tag i (tags entry) BOOKMARK_FOLDER sites entry He)
      as [Hat Hother].
    eexists _, _. split; [|split; [|split; [exact Hat|]]].
    + rewrite removeSite_unfold. simpl ofTag. rewrite Hi, He, Hfolder.
      rewrite removeChildSites_tagless; [done|].
      intros c Hc. apply elem_of_List_filter in Hc as [Hc Heq].
      apply Hchildren; [done|]. by apply strict_eq_num_eq.
    + apply removeSite_finish_length.
    + simpl. split; [intros t; apply elem_of_tagsRemove|]. repeat split; done.
Qed.

(** Case analysis on membership in an explicit list. *)
Ltac elem_of_cases H :=
  repeat (apply elem_of_cons in H as [->|H]); [..|by apply elem_of_nil in H].

Lemma removeSite_folder_keeps_records_witness :
  (exists sites' entry',
     removeSite 2 sampleBookmarkTree (sampleFolder 1 "news" None) (Some BOOKMARK_FOLDER)
       = Some sites' /\
     keeps_records sampleBookmarkTree sites' /\
     sites' !! 0%nat = Some entry' /\
     (forall t, t ∈ tags entry' <->
                t ∈ tags (sampleFolder 1 "news" None) /\ t <> BOOKMARK_FOLDER) /\
     parentFolderId entry' = Some 0 /\
     customTitle entry' = None) /\
  (exists sites' entry',
     removeSite 1 sampleHistoryTree (sampleFolder 1 "news" None) (Some BOOKMARK_FOLDER)
       = Some sites' /\
     length sites' = length sampleHistoryTree /\
     sites' !! 0%nat = Some entry' /\
     (forall t, t ∈ tags entry' <->
                t ∈ tags (sampleFolder 1 "news" None) /\ t <> BOOKMARK_FOLDER) /\
     parentFolderId entry' = Some 0 /\
     customTitle entry' = None /\
     folderId entry' = folderId (sampleFolder 1 "news" None) /\
     (forall j, j <> 0%nat -> sites' !! j = sampleHistoryTree !! j)).
Proof.
  split.
  - refine (proj1 (proj2 (removeSite_folder_keeps_records sampleBookmarkTree
                            (sampleFolder 1 "news" None) 0 (sampleFolder 1 "news" None)
                            eq_refl eq_refl)) _ 0%nat).
    intros c s0 Hc Hp Hs0 Hid. unfold sampleBookmarkTree in Hc, Hs0.
    elem_of_cases Hc; elem_of_cases Hs0;
      first [reflexivity | discriminate Hp | discriminate Hid].
  - refine (proj2 (proj2 (removeSite_folder_keeps_records sampleHistoryTree
                            (sampleFolder 1 "news" None) 0 (sampleFolder 1 "news" None)
                            eq_refl eq_refl)) _ 0%nat).
    intros c Hc Hp. unfold sampleHistoryTree in Hc.
    elem_of_cases Hc; first [reflexivity | discriminate Hp].
Defined.

(** C1 fails as stated: on a folder with two history children, and on a
    folder with two bookmarked children, with or without the folder tag in
    the call, all three records are still in the list afterwards. *)
Lemma removeSite_folder_cascade_counterexample :
  removeSite 2 sampleHistoryTree (sampleFolder 1 "news" None) (Some BOOKMARK_FOLDER)
    = Some [set_tags [] (delete_customTitle
                           (set_parentFolderId (Some 0) (sampleFolder 1 "news" None)));
            sampleHistory "https://a.example/" 5 (Some 1);
            sampleHistory "https://b.example/" 6 (Some 1)] /\
  (length <$> removeSite 2 sampleHistoryTree (sampleFolder 1 "news" None) None)
    = Some 3%nat /\
  (length <$> removeSite 2 sampleBookmarkTree (sampleFolder 1 "news" None)
                (Some BOOKMARK_FOLDER)) = Some 3%nat /\
  (length <$> removeSite 2 sampleBookmarkTree (sampleFolder 1 "news" None) None)
    = Some 3%nat /\
  length sampleHistoryTree = 3%nat /\ length sampleBookmarkTree = 3%nat.
Proof. repeat split; vm_compute; reflexivity. Qed.

(** C9: for a non-folder target whose record has tags, [removeSite] without
    a tag returns, with any fuel, the list in which that record has
    [lastAccessedTime] null; the record keeps its index and its other
    fields, and every other record is unchanged. *)
Theorem removeSite_no_tag_clears_history (fuel : nat) (sites : list site) (d : site)
    (i : nat) (entry : site) :
  getSiteIndex (Some sites) (Some d) NoTags = Some i ->
  sites !! i = Some entry ->
  isBookmarkFolder (TagList (tags entry)) = false ->
  tags entry <> [] ->
  exists sites' entry',
    removeSite (S fuel) sites d None = Some sites' /\
    length sites' = length sites /\
    sites' !! i = Some entry' /\
    lastAccessedTime entry' = JNull /\
    location entry' = location entry /\
    title entry' = title entry /\
    customTitle entry' = customTitle entry /\
    tags entry' = tags entry /\
    count entry' = count entry /\
    folderId entry' = folderId entry /\
    parentFolderId entry' = parentFolderId entry /\
    partitionNumber entry' = partitionNumber entry /\
    favicon entry' = favicon entry /\
    themeColor entry' = themeColor entry /\
    (forall j, j <> i -> sites' !! j = sites !! j).
Proof.
  intros Hi He Hf Htags.
  exists (alter (set_lastAccessedTime JNull) i sites), (set_lastAccessedTime JNull entry).
  split.
  - rewrite (removeSite_not_folder fuel sites d None i entry Hi He Hf).
    unfold removeSite_finish. destruct (tags entry); [done|]. done.
  - split; [apply length_alter|]. split; [by rewrite list_lookup_alter_eq, He|].
    repeat split; try done. intros j Hj. by apply list_lookup_alter_ne.
Qed.

Lemma removeSite_no_tag_clears_history_witness :
  exists sites' entry',
    removeSite 1 sampleBookmarkTree (sampleBookmark "https://b.example/" None) None
      = Some sites' /\
    length sites' = length sampleBookmarkTree /\
    sites' !! 2%nat = Some entry' /\
    lastAccessedTime entry' = JNull /\
    location entry' = Some "https://b.example/"%string /\
    title entry' = None /\
    customTitle entry' = None /\
    tags entry' = [BOOKMARK] /\
    count entry' = None /\
    folderId entry' = None /\
    parentFolderId entry' = Some 1 /\
    partitionNumber entry' = None /\
    favicon entry' = None /\
    themeColor entry' = None /\
    (forall j, j <> 2%nat -> sites' !! j = sampleBookmarkTree !! j).
Proof.
  apply (removeSite_no_tag_clears_history 0 sampleBookmarkTree
           (sampleBookmark "https://b.example/" None) 2
           (sampleBookmark "https://b.example/" (Some 1)));
    [reflexivity | reflexivity | reflexivity | discriminate].
Defined.

(** C10: for a non-folder target and a requested tag, [removeSite] returns,
    with any fuel, a list of the same length; the matched record stays at
    its index with the tag stripped, [parentFolderId] 0 and no
    [customTitle], its other fields and every other record unchanged. *)
Theorem removeSite_tag_keeps_length (fuel : nat) (sites : list site) (d : site)
    (tag : siteTag) :
  (forall i entry, getSiteIndex (Some sites) (Some d) (TagStr tag) = Some i ->
                   sites !! i = Some entry ->
                   isBookmarkFolder (TagList (tags entry)) = false) ->
  exists sites',
    removeSite (S fuel) sites d (Some tag) = Some sites' /\
    length sites' = length sites /\
    forall i entry, getSiteIndex (Some sites) (Some d) (TagStr tag) = Some i ->
                    sites !! i = Some entry ->
      exists entry',
        sites' !! i = Some entry' /\
        (forall t, t ∈ tags entry' <-> t ∈ tags entry /\ t <> tag) /\
        parentFolderId entry' = Some 0 /\
        customTitle entry' = None /\
        location entry' = location entry /\
        title entry' = title entry /\
        lastAccessedTime entry' = lastAccessedTime entry /\
        count entry' = count entry /\
        folderId entry' = folderId entry /\
        partitionNumber entry' = partitionNumber entry /\
        favicon entry' = favicon entry /\
        themeColor entry' = themeColor entry /\
        (forall j, j <> i -> sites' !! j = sites !! j).
Proof.
  intros Hnf.
  destruct (getSiteIndex (Some sites) (Some d) (TagStr tag)) as [i|] eqn:Hi.
  - destruct (getSiteIndex_lookup _ _ _ _ Hi) as [entry He].
    specialize (Hnf i entry eq_refl He).
    exists (removeSite_finish i (tags entry) (Some tag) sites).
    split; [by apply removeSite_not_folder|].
    split; [apply removeSite_finish_length|].
    intros i' entry' [= <-] He'. rewrite He in He'. injection He' as <-.
    destruct (lookup_removeSite_finish_tag i (tags entry) tag sites entry He)
      as [Hat Hother].
    eexists. split; [exact Hat|]. simpl.
    split; [intros t; apply elem_of_tagsRemove|]. repeat split; done.
  - exists sites. rewrite removeSite_unfold. simpl ofTag. rewrite Hi.
    repeat split; done.
Qed.

Lemma removeSite_tag_keeps_length_witness :
  exists sites',
    removeSite 1 sampleBookmarkTree (sampleBookmark "https://b.example/" None)
      (Some BOOKMARK) = Some sites' /\
    length sites' = length sampleBookmarkTree /\
    forall i entry,
      getSiteIndex (Some sampleBookmarkTree)
        (Some (sampleBookmark "https://b.example/" None)) (TagStr BOOKMARK) = Some i ->
      sampleBookmarkTree !! i = Some entry ->
      exists entry',
        sites' !! i = Some entry' /\
        (forall t, t ∈ tags entry' <-> t ∈ tags entry /\ t <> BOOKMARK) /\
        parentFolderId entry' = Some 0 /\
        customTitle entry' = None /\
        location entry' = location entry /\
        title entry' = title entry /\
        lastAccessedTime entry' = lastAccessedTime entry /\
        count entry' = count entry /\
        folderId entry' = folderId entry /\
        partitionNumber entry' = partitionNumber entry /\
        favicon entry' = favicon entry /\
        themeColor entry' = themeColor entry /\
        (forall j, j <> i -> sites' !! j = sampleBookmarkTree !! j).
Proof.
  apply (removeSite_tag_keeps_length 0 sampleBookmarkTree
           (sampleBookmark "https://b.example/" None) BOOKMARK).
  intros i entry Hi. vm_compute in Hi. injection Hi as <-.
  intros He. vm_compute in He. injection He as <-. reflexivity.
Defined.

(** ** Merge *)

(** C8: the [lastAccessedTime] of a merged record is the new partial's
    value when that is truthy; otherwise it is 0 when the supplied tag is
    BOOKMARK or BOOKMARK_FOLDER, and the wall-clock time [now] for any
    other tag or no tag. *)
Theorem mergeSiteDetails_lastAccessedTime (now : Z) (oldSiteDetail : option site)
    (newSiteDetail : site) (tag : option siteTag) (folderId' : option Z) :
  let merged := mergeSiteDetails now oldSiteDetail newSiteDetail tag folderId' in
  (truthy_time (lastAccessedTime newSiteDetail) = true ->
   lastAccessedTime merged = lastAccessedTime newSiteDetail) /\
  (truthy_time (lastAccessedTime newSiteDetail) = false ->
   (tag = Some BOOKMARK \/ tag = Some BOOKMARK_FOLDER -> lastAccessedTime merged = JNum 0) /\
   (tag <> Some BOOKMARK /\ tag <> Some BOOKMARK_FOLDER -> lastAccessedTime merged = JNum now)).
Proof.
  simpl. split.
  - destruct (lastAccessedTime newSiteDetail) as [| |n]; simpl; try done.
    intros Hn. destruct (n =? 0); [done|]. by destruct (_ || _).
  - intros Hf.
    assert (forall dflt, time_or (lastAccessedTime newSiteDetail) dflt = dflt) as Hdflt.
    { intros dflt. destruct (lastAccessedTime newSiteDetail) as [| |n]; simpl in *; try done.
      by destruct (n =? 0). }
    split.
    + intros [-> | ->]; simpl; by rewrite Hdflt.
    + intros [Hb Hbf]. destruct tag as [[]|]; try done; simpl; by rewrite Hdflt.
Qed.

Lemma mergeSiteDetails_lastAccessedTime_witness :
  lastAccessedTime
    (mergeSiteDetails 1000 None (sampleHistory "https://a.example/" 5 None)
       (Some BOOKMARK) None) = JNum 5 /\
  lastAccessedTime
    (mergeSiteDetails 1000 None (sampleFolder 1 "news" None)
       (Some BOOKMARK_FOLDER) (Some 1)) = JNum 0 /\
  lastAccessedTime
    (mergeSiteDetails 1000 None (sampleFolder 1 "news" None) (Some PINNED) None)
    = JNum 1000.
Proof.
  split; [|split].
  - apply (proj1 (mergeSiteDetails_lastAccessedTime 1000 None
                    (sampleHistory "https://a.example/" 5 None) (Some BOOKMARK) None)).
    reflexivity.
  - apply (proj2 (mergeSiteDetails_lastAccessedTime 1000 None
                    (sampleFolder 1 "news" None) (Some BOOKMARK_FOLDER) (Some 1)));
      [reflexivity|by right].
  - apply (proj2 (mergeSiteDetails_lastAccessedTime 1000 None
                    (sampleFolder 1 "news" None) (Some PINNED) None));
      [reflexivity|split; discriminate].
Defined.

(** ** Origins *)

Section Origins.

(** Node's [url.parse], which is not part of the sources. *)
Variable urlParse : string -> parsedUrl.

(** C6: with [urlParse] splitting "https://example.com:8080/path" into
    protocol "https:", host "example.com:8080" and slashes, [getOrigin]
    returns "https://example.com:8080" for it; it returns "file:///" for
    every string that starts with "file://", null for every value that is
    not a string, and null for every other string whose parse lacks a host
    or a protocol. *)
Theorem getOrigin_cases :
  (urlParse "https://example.com:8080/path"%string
     = mkParsed (Some "https:"%string) (Some "example.com:8080"%string) true ->
   getOrigin urlParse (VString "https://example.com:8080/path")
     = Some "https://example.com:8080"%string) /\
  (forall s, String.prefix "file://" s = true ->
             getOrigin urlParse (VString s) = Some "file:///"%string) /\
  (forall v, (forall s, v <> VString s) -> getOrigin urlParse v = None) /\
  (forall s, String.prefix "file://" s = false ->
             truthy_str (host (urlParse s)) = false \/
             truthy_str (protocol (urlParse s)) = false ->
             getOrigin urlParse (VString s) = None).
Proof.
  split; [|split; [|split]].
  - intros Hparse. unfold getOrigin.
    change (String.prefix "file://" "https://example.com:8080/path"%string) with false.
    cbv iota. rewrite Hparse. reflexivity.
  - intros s Hs. simpl. by rewrite Hs.
  - intros v Hv. destruct v; try done. by destruct (Hv s).
  - intros s Hs Hor. simpl. rewrite Hs.
    destruct Hor as [-> | ->]; [done|]. by rewrite andb_false_r.
Qed.

End Origins.

Lemma getOrigin_cases_witness :
  getOrigin sampleUrlParse (VString "https://example.com:8080/path")
    = Some "https://example.com:8080"%string /\
  getOrigin sampleUrlParse (VString "file:///Users/x") = Some "file:///"%string /\
  getOrigin sampleUrlParse (VNumber 42) = None /\
  getOrigin sampleUrlParse (VString "example.com/path") = None.
Proof.
  destruct (getOrigin_cases sampleUrlParse) as (H1 & H2 & H3 & H4).
  split; [|split; [|split]].
  - apply H1. reflexivity.
  - apply H2. reflexivity.
  - apply H3. discriminate.
  - apply H4; [reflexivity|left; reflexivity].
Defined.

(** ** Recents *)

(** The recency key of a record: [lastAccessedTime || 0]. *)
Lemma recencyComparator_le (x y : site) :
  recencyComparator x y <= 0 <->
  time_or (lastAccessedTime y) 0 <= time_or (lastAccessedTime x) 0.
Proof. unfold recencyComparator. lia. Qed.

Lemma sort_insert_perm (c : site -> site -> Z) (x : site) (l : list site) :
  sort_insert c x l ≡ₚ x :: l.
Proof.
  induction l as [|y l IH]; simpl; [done|].
  destruct (c x y <=? 0); [done|]. rewrite IH. apply Permutation_swap.
Qed.

Lemma sort_perm (c : site -> site -> Z) (l : list site) : sort c l ≡ₚ l.
Proof.
  induction l as [|x l IH]; simpl; [done|]. by rewrite sort_insert_perm, IH.
Qed.

Lemma sort_insert_sorted (x : site) (l : list site) :
  StronglySorted more_recent l ->
  StronglySorted more_recent (sort_insert recencyComparator x l).
Proof.
  induction 1 as [|y l Hl IH Hy]; simpl.
  - repeat constructor.
  - destruct (recencyComparator x y <=? 0) eqn:E.
    + apply Z.leb_le, recencyComparator_le in E.
      constructor; [by constructor|]. constructor; [done|].
      eapply Forall_impl; [exact Hy|]. unfold more_recent in *. intros z Hz. lia.
    + apply Z.leb_gt in E. constructor; [done|].
      rewrite sort_insert_perm. constructor; [|done].
      unfold more_recent, recencyComparator in *. lia.
Qed.

Lemma sort_sorted (l : list site) : StronglySorted more_recent (sort recencyComparator l).
Proof.
  induction l as [|x l IH]; simpl; [constructor|]. by apply sort_insert_sorted.
Qed.

(** The sort is stable: records with the same recency key keep the order
    they had in the input. *)
Lemma sort_insert_stable (v : Z) (x : site) (l : list site) :
  List.filter (fun s => time_or (lastAccessedTime s) 0 =? v)
              (sort_insert recencyComparator x l) =
  List.filter (fun s => time_or (lastAccessedTime s) 0 =? v) (x :: l).
Proof.
  induction l as [|y l IH]; [done|].
  cbn [sort_insert]. destruct (recencyComparator x y <=? 0) eqn:E; [done|].
  apply Z.leb_gt in E. unfold recencyComparator in E.
  cbn [List.filter] in *. rewrite IH.
  destruct (time_or (lastAccessedTime y) 0 =? v) eqn:Ey,
           (time_or (lastAccessedTime x) 0 =? v) eqn:Ex; try done.
  apply Z.eqb_eq in Ey, Ex. lia.
Qed.

Lemma sort_stable (v : Z) (l : list site) :
  List.filter (fun s => time_or (lastAccessedTime s) 0 =? v) (sort recencyComparator l) =
  List.filter (fun s => time_or (lastAccessedTime s) 0 =? v) l.
Proof.
  induction l as [|x l IH]; [done|].
  cbn [sort]. rewrite sort_insert_stable. cbn [List.filter]. by rewrite IH.
Qed.

(** C7: for every site list and cap [k], [filterOutNonRecents] returns the
    records with tags in their original order, followed by the first [k]
    (none when [k] is negative) of the tag-less records arranged in
    descending order of [lastAccessedTime || 0]. *)
Theorem filterOutNonRecents_spec (k : Z) (sites : list site) :
  exists history,
    filterOutNonRecents k sites =
      List.filter (fun s => negb (length (tags s) =? 0)%nat) sites
      ++ take (Z.to_nat k) history /\
    history ≡ₚ List.filter (fun s => (length (tags s) =? 0)%nat) sites /\
    StronglySorted
      (fun x y => time_or (lastAccessedTime y) 0 <= time_or (lastAccessedTime x) 0)
      history /\
    (length (take (Z.to_nat k) history) <= Z.to_nat k)%nat.
Proof.
  exists (sort recencyComparator
            (List.filter (fun s => (length (tags s) =? 0)%nat) sites)).
  split; [|split; [|split]].
  - unfold filterOutNonRecents, take_amount. do 2 f_equal. lia.
  - apply sort_perm.
  - apply sort_sorted.
  - rewrite length_take. lia.
Qed.

(** ** Moves *)

Lemma find_folder_unique (sites : list site) (F : site) (f : Z) :
  F ∈ sites -> folderId F = Some f ->
  (forall s, s ∈ sites -> folderId s = Some f -> s = F) ->
  List.find (fun item => strict_eq_num (folderId item) (Some f)) sites = Some F.
Proof.
  intros HF Hf Huniq.
  destruct (List.find _ sites) as [x|] eqn:Hfind.
  - apply find_some in Hfind as [Hx Hp]. apply strict_eq_num_eq in Hp.
    f_equal. apply Huniq; [by apply list_elem_of_In|done].
  - apply list_elem_of_In in HF. pose proof (find_none _ _ Hfind F HF) as Hp.
    simpl in Hp. rewrite Hf, strict_eq_num_refl in Hp. done.
Qed.

Lemma getAncestorFolderIds_acc (fuel : nat) (acc : list (option Z)) (x : site)
    (sites : list site) :
  getAncestorFolderIds fuel acc x sites =
  (fun r => acc ++ r) <$> getAncestorFolderIds fuel [] x sites.
Proof.
  revert acc x. induction fuel as [|fuel IH]; intros acc x; simpl; [done|].
  destruct (truthy_num (parentFolderId x)); simpl; [|by rewrite app_nil_r].
  destruct (List.find _ sites) as [y|]; simpl; [|done].
  rewrite (IH (acc ++ _)), (IH [_]).
  destruct (getAncestorFolderIds fuel [] y sites); simpl; [|done].
  by rewrite <- app_assoc.
Qed.

(** C2: in a list that encodes the folder chain A, B, C (C lies in B, B in
    A; the folder ids of A and B are non-zero and each names one record of
    the list; A and C are different folders; the walk up from A ends and
    does not meet C), moving A into C is refused and moving C into A is
    allowed; and whatever the list, a move is allowed when the source has
    no numeric [folderId] or the destination has no numeric
    [parentFolderId]. *)
Theorem isMoveAllowed_chain (sites : list site) :
  (forall (A B C : site) (a b : Z) (fuel : nat) (ancestors : list (option Z)),
     folderId A = Some a -> folderId B = Some b -> a <> 0 -> b <> 0 ->
     parentFolderId C = Some b -> parentFolderId B = Some a ->
     folderId C <> folderId A ->
     A ∈ sites -> B ∈ sites ->
     (forall s, s ∈ sites -> folderId s = Some a -> s = A) ->
     (forall s, s ∈ sites -> folderId s = Some b -> s = B) ->
     getAncestorFolderIds fuel [] A sites = Some ancestors ->
     folderId C ∉ ancestors ->
     isMoveAllowed (2 + fuel) sites A C = Some false /\
     isMoveAllowed fuel sites C A = Some true) /\
  (forall (fuel : nat) (sourceDetail destinationDetail : site),
     is_number (folderId sourceDetail) = false \/
     is_number (parentFolderId destinationDetail) = false ->
     isMoveAllowed fuel sites sourceDetail destinationDetail = Some true).
Proof.
  split.
  - intros A B C a b fuel anc HA HB Ha Hb HCB HBA Hne HinA HinB HuA HuB Hanc HC.
    split.
    + unfold isMoveAllowed. rewrite HCB, HA. simpl is_number. cbv iota.
      simpl andb. cbv iota.
      destruct (strict_eq_num (Some a) (folderId C)); [done|].
      assert (getAncestorFolderIds (2 + fuel) [] C sites
              = Some ([Some b; Some a] ++ anc)) as ->.
      { simpl. rewrite HCB. simpl.
        destruct (b =? 0) eqn:Eb; [apply Z.eqb_eq in Eb; done|]. simpl.
        rewrite (find_folder_unique sites B b HinB HB HuB), HBA. simpl.
        destruct (a =? 0) eqn:Ea; [apply Z.eqb_eq in Ea; done|]. simpl.
        rewrite (find_folder_unique sites A a HinA HA HuA).
        rewrite getAncestorFolderIds_acc, Hanc. done. }
      simpl. rewrite Z.eqb_refl. by rewrite orb_true_r.
    + unfold isMoveAllowed.
      destruct (is_number (parentFolderId A) && is_number (folderId C)); [|done].
      destruct (strict_eq_num (folderId C) (folderId A)) eqn:E.
      { apply strict_eq_num_eq in E. done. }
      rewrite Hanc.
      destruct (existsb (strict_eq_num (folderId C)) anc) eqn:Ex; [|done].
      apply existsb_exists in Ex as (x & Hx & Heq). apply strict_eq_num_eq in Heq.
      subst x. by apply list_elem_of_In in Hx.
  - intros fuel s d Hor. unfold isMoveAllowed.
    destruct Hor as [-> | ->]; [by rewrite andb_false_r|done].
Qed.

Lemma isMoveAllowed_chain_witness :
  (isMoveAllowed 3 sampleChain (sampleFolder 1 "A" (Some 0)) (sampleFolder 3 "C" (Some 2))
     = Some false /\
   isMoveAllowed 1 sampleChain (sampleFolder 3 "C" (Some 2)) (sampleFolder 1 "A" (Some 0))
     = Some true) /\
  isMoveAllowed 0 sampleChain (sampleBookmark "https://a.example/" None)
    (sampleFolder 3 "C" (Some 2)) = Some true.
Proof.
  destruct (isMoveAllowed_chain sampleChain) as [Hchain Hfree]. split.
  - apply (Hchain (sampleFolder 1 "A" (Some 0)) (sampleFolder 2 "B" (Some 1))
             (sampleFolder 3 "C" (Some 2)) 1 2 1%nat []);
      try reflexivity; try discriminate.
    + by left.
    + right; by left.
    + intros s Hs Hid. unfold sampleChain in Hs.
      elem_of_cases Hs; first [reflexivity | discriminate Hid].
    + intros s Hs Hid. unfold sampleChain in Hs.
      elem_of_cases Hs; first [reflexivity | discriminate Hid].
    + apply not_elem_of_nil.
  - apply Hfree. left. reflexivity.
Defined.

(** ** Adding *)

Lemma addSite_not_folder (fuel : nat) (now : Z) (sites : list site) (r : site)
    (tag : option siteTag) :
  isBookmarkFolder (ofTag (defaultTag tag r)) = false ->
  addSite fuel now sites r tag None =
  Some (match getSiteIndex (Some sites) (Some r) (ofTag (defaultTag tag r)) with
        | None =>
            sites ++ [mergeSiteDetails now None r (defaultTag tag r) (folderId r)]
        | Some i =>
            <[i := mergeSiteDetails now (sites !! i) r (defaultTag tag r) (folderId r)]> sites
        end).
Proof.
  intros Hf. unfold addSite. rewrite Hf.
  by destruct (getSiteIndex _ _ _).
Qed.

(** A record merged from [r] has the identity of [r], unless the location
    of [r] is the empty string, which the merge drops. *)
Lemma mergeSiteDetails_identity (now : Z) (old : option site) (r : site)
    (tag : option siteTag) (fid : option Z) :
  location r <> Some EmptyString ->
  (forall o, old = Some o -> sameIdentity r o = true) ->
  sameIdentity r (mergeSiteDetails now old r tag fid) = true.
Proof.
  intros Hloc Hold. unfold sameIdentity, mergeSiteDetails. simpl.
  apply andb_true_intro. split.
  - destruct (location r) as [s|] eqn:Hl; simpl; [|done].
    destruct (String.eqb s "") eqn:E; simpl.
    + apply String.eqb_eq in E. by subst s.
    + apply String.eqb_refl.
  - apply Z.eqb_eq. destruct (partitionNumber r) as [p|] eqn:Hp; simpl; [done|].
    destruct old as [o|]; [|done].
    specialize (Hold o eq_refl). unfold sameIdentity in Hold.
    apply andb_prop in Hold as [_ Hpn]. apply Z.eqb_eq in Hpn. rewrite Hp in Hpn.
    simpl in Hpn. destruct (partitionNumber o) as [q|]; simpl in *; [|done].
    subst q. done.
Qed.

(** C4 (amended): for a non-folder record [r] whose [location] is not the
    empty string, adding [r] and then adding a record with the same
    [location] and [partitionNumber || 0] replaces the entry found for it
    and leaves the length of the list unchanged. *)
Theorem addSite_twice_updates_in_place (fuel fuel' : nat) (now now' : Z)
    (sites : list site) (r r' : site) (tag tag' : option siteTag) :
  isBookmarkFolder (ofTag (defaultTag tag r)) = false ->
  isBookmarkFolder (ofTag (defaultTag tag' r')) = false ->
  location r' = location r ->
  or0 (partitionNumber r') = or0 (partitionNumber r) ->
  location r <> Some EmptyString ->
  exists sites1 sites2 i old,
    addSite fuel now sites r tag None = Some sites1 /\
    addSite fuel' now' sites1 r' tag' None = Some sites2 /\
    sites1 !! i = Some old /\
    sites2 = <[i := mergeSiteDetails now' (Some old) r' (defaultTag tag' r')
                      (folderId r')]> sites1 /\
    length sites2 = length sites1.
Proof.
  intros Hf Hf' Hloc Hpn Hne.
  rewrite (addSite_not_folder fuel now sites r tag Hf).
  rewrite (getSiteIndex_not_folder sites r _ Hf).
  set (sites1 := match findIndex (sameIdentity r) sites with
                 | None => _ | Some i => _ end).
  assert (exists x, x ∈ sites1 /\ sameIdentity r x = true) as (x & Hx & Hid).
  { unfold sites1. destruct (findIndex (sameIdentity r) sites) as [i|] eqn:Hi.
    - apply findIndex_Some in Hi as (o & Ho & Hpo & _).
      eexists. split.
      + apply list_elem_of_lookup. exists i.
        apply list_lookup_insert_eq. by apply lookup_lt_Some in Ho.
      + apply mergeSiteDetails_identity; [done|]. rewrite Ho. by intros ? [= <-].
    - eexists. split.
      + apply elem_of_app. right. by apply list_elem_of_singleton.
      + by apply mergeSiteDetails_identity. }
  assert (sameIdentity r' = sameIdentity r) as Hsame.
  { unfold sameIdentity. by rewrite Hloc, Hpn. }
  destruct (findIndex_is_Some (sameIdentity r') sites1 x Hx) as [i Hi];
    [by rewrite Hsame|].
  destruct (findIndex_Some _ _ _ Hi) as (old & Hold & _).
  exists sites1, (<[i := mergeSiteDetails now' (Some old) r' (defaultTag tag' r')
                          (folderId r')]> sites1), i, old.
  split; [done|]. split; [|split; [done|split; [done|apply length_insert]]].
  rewrite (addSite_not_folder fuel' now' sites1 r' tag' Hf').
  rewrite (getSiteIndex_not_folder sites1 r' _ Hf'), Hi, Hold. done.
Qed.

Lemma addSite_twice_updates_in_place_witness :
  exists sites1 sites2 i old,
    addSite 0 1000 sampleBookmarkTree (sampleHistory "https://c.example/" 5 None)
      None None = Some sites1 /\
    addSite 0 2000 sites1 (sampleHistory "https://c.example/" 9 None)
      (Some BOOKMARK) None = Some sites2 /\
    sites1 !! i = Some old /\
    sites2 = <[i := mergeSiteDetails 2000 (Some old)
                      (sampleHistory "https://c.example/" 9 None)
                      (defaultTag (Some BOOKMARK)
                         (sampleHistory "https://c.example/" 9 None))
                      (folderId (sampleHistory "https://c.example/" 9 None))]> sites1 /\
    length sites2 = length sites1.
Proof.
  apply (addSite_twice_updates_in_place 0 0 1000 2000 sampleBookmarkTree
           (sampleHistory "https://c.example/" 5 None)
           (sampleHistory "https://c.example/" 9 None) None (Some BOOKMARK));
    [reflexivity | reflexivity | reflexivity | reflexivity | discriminate].
Defined.

(** C4 fails as stated: a record whose [location] is the empty string is
    stored without a [location], so adding it again appends a second
    entry. *)
Lemma addSite_empty_location_counterexample :
  exists sites1 sites2,
    addSite 1 1000 [] sampleEmptyLocation None None = Some sites1 /\
    addSite 1 2000 sites1 sampleEmptyLocation None None = Some sites2 /\
    isBookmarkFolder (TagList (tags sampleEmptyLocation)) = false /\
    length sites1 = 1%nat /\ length sites2 = 2%nat.
Proof. eexists _, _. repeat split; vm_compute; reflexivity. Qed.

(** ** Duplicate folders *)

Lemma findIndex_app_r {A : Type} (p : A -> bool) (l l' : list A) :
  (forall y, y ∈ l -> p y = false) ->
  findIndex p (l ++ l') = (fun i => (length l + i)%nat) <$> findIndex p l'.
Proof.
  induction l as [|a l IH]; intros Hl; simpl.
  - by destruct (findIndex p l').
  - rewrite (Hl a); [|by left]. rewrite IH; [|intros y Hy; apply Hl; by right].
    by destruct (findIndex p l').
Qed.

Lemma find_app_r {A : Type} (p : A -> bool) (l l' : list A) :
  (forall y, y ∈ l -> p y = false) ->
  List.find p (l ++ l') = List.find p l'.
Proof.
  induction l as [|a l IH]; intros Hl; simpl; [done|].
  rewrite (Hl a); [|by left]. apply IH. intros y Hy. apply Hl. by right.
Qed.

Lemma filter_none {A : Type} (p : A -> bool) (l : list A) :
  (forall y, y ∈ l -> p y = false) -> List.filter p l = [].
Proof.
  induction l as [|a l IH]; intros Hl; simpl; [done|].
  rewrite (Hl a); [|by left]. apply IH. intros y Hy. apply Hl. by right.
Qed.

(** The fields of a folder record merged without an old record. *)
Lemma mergeSiteDetails_new_folder (now : Z) (r : site) (f : Z) :
  f <> 0 ->
  let m := mergeSiteDetails now None r (Some BOOKMARK_FOLDER) (Some f) in
  tags m = [BOOKMARK_FOLDER] /\ folderId m = Some f /\
  parentFolderId m = parentFolderId r /\ customTitle m = customTitle r.
Proof.
  intros Hf. simpl. repeat split.
  - destruct (f =? 0) eqn:E; [apply Z.eqb_eq in E; done|done].
  - by destruct (parentFolderId r).
  - by destruct (customTitle r).
Qed.

(** C5 (amended): let two folder records with the same [parentFolderId] and
    [customTitle] be added with the BOOKMARK_FOLDER tag to a list that has
    no folder with that pair, the second one with an explicit non-zero
    [folderId].  When the ids are new to the list (no folder carries them,
    no record lies in the first folder, the two ids differ), the second
    call strips the BOOKMARK_FOLDER tag of the first folder, whose record
    stays in the list, and appends the second folder: exactly one folder
    with that pair survives. *)
Theorem addSite_duplicate_folder (fuel fuel' : nat) (now now' : Z)
    (sites : list site) (r1 r2 : site) (f1 f2 : Z) :
  (if truthy_num (folderId r1) then folderId r1
   else Some (getNextFolderId (Some sites))) = Some f1 ->
  folderId r2 = Some f2 ->
  f1 <> 0 -> f2 <> 0 -> f1 <> f2 ->
  parentFolderId r2 = parentFolderId r1 ->
  customTitle r2 = customTitle r1 ->
  parentFolderId r1 <> Some f1 ->
  (forall s, s ∈ sites -> isBookmarkFolder (TagList (tags s)) = true ->
             folderId s <> folderId r1 /\ folderId s <> Some f1 /\ folderId s <> Some f2) ->
  (forall s, s ∈ sites -> isDupFolder r1 s = false) ->
  (forall s, s ∈ sites -> parentFolderId s <> Some f1) ->
  exists sites1 sites2 first second,
    addSite fuel now sites r1 (Some BOOKMARK_FOLDER) None = Some sites1 /\
    addSite (S fuel') now' sites1 r2 (Some BOOKMARK_FOLDER) None = Some sites2 /\
    sites1 = sites ++ [first] /\
    sites2 = sites ++ [set_tags [] (delete_customTitle
                                      (set_parentFolderId (Some 0) first)); second] /\
    isDupFolder r2 first = true /\
    isDupFolder r2 second = true /\
    List.filter (isDupFolder r2) sites2 = [second] /\
    (length (List.filter (isDupFolder r2) sites2) <= 1)%nat.
Proof.
  intros Hf1 Hf2 Hz1 Hz2 Hne Hpar Htitle Hself Hids Hnodup Hnochild.
  set (first := mergeSiteDetails now None r1 (Some BOOKMARK_FOLDER) (Some f1)).
  set (second := mergeSiteDetails now' None r2 (Some BOOKMARK_FOLDER) (Some f2)).
  destruct (mergeSiteDetails_new_folder now r1 f1 Hz1) as (Ht1 & Hi1 & Hp1 & Hc1).
  destruct (mergeSiteDetails_new_folder now' r2 f2 Hz2) as (Ht2 & Hi2 & Hp2 & Hc2).
  fold first in Ht1, Hi1, Hp1, Hc1. fold second in Ht2, Hi2, Hp2, Hc2.
  assert (isDupFolder r2 = isDupFolder r1) as Hdup.
  { unfold isDupFolder. by rewrite Hpar, Htitle. }
  assert (isDupFolder r2 first = true) as Hdup1.
  { unfold isDupFolder. rewrite Ht1, Hp1, Hc1, Hpar, Htitle.
    by rewrite strict_eq_num_refl, strict_eq_str_refl. }
  assert (isDupFolder r2 second = true) as Hdup2.
  { unfold isDupFolder. rewrite Ht2, Hp2, Hc2.
    by rewrite strict_eq_num_refl, strict_eq_str_refl. }
  assert (forall d, (folderId d = folderId r1 \/ folderId d = Some f1 \/ folderId d = Some f2) ->
                    forall s, s ∈ sites -> sameFolderId d s = false) as Hfresh.
  { intros d Hd s Hs. unfold sameFolderId.
    destruct (isBookmarkFolder (TagList (tags s))) eqn:E; [|done].
    destruct (Hids s Hs E) as (H0 & H1 & H2). simpl.
    destruct (strict_eq_num (folderId s) (folderId d)) eqn:E'; [|done].
    apply strict_eq_num_eq in E'. destruct Hd as [Hd|[Hd|Hd]]; congruence. }
  (* the first call appends [first] *)
  assert (addSite fuel now sites r1 (Some BOOKMARK_FOLDER) None = Some (sites ++ [first]))
    as Hadd1.
  { unfold addSite. simpl defaultTag. simpl ofTag.
    change (isBookmarkFolder (TagStr BOOKMARK_FOLDER)) with true.
    unfold getSiteIndex. cbv iota.
    rewrite (proj2 (findIndex_None (sameFolderId r1) sites)); [|by apply Hfresh; left].
    simpl negb. simpl andb.
    destruct (truthy_num (folderId r1)) eqn:Et.
    - destruct (List.find (isDupFolder r1) sites) as [x|] eqn:Hfind.
      + apply find_some in Hfind as [Hx Hp]. apply list_elem_of_In in Hx.
        by rewrite (Hnodup x Hx) in Hp.
      + by rewrite Hf1.
    - injection Hf1 as <-. done. }
  (* the second call finds [first] as the duplicate and strips its tag *)
  assert (removeSite (S fuel') (sites ++ [first]) first (Some BOOKMARK_FOLDER)
          = Some (sites ++ [set_tags [] (delete_customTitle
                                          (set_parentFolderId (Some 0) first))]))
    as Hrm.
  { rewrite removeSite_unfold. simpl ofTag. unfold getSiteIndex.
    change (isBookmarkFolder (TagStr BOOKMARK_FOLDER)) with true. cbv iota.
    rewrite findIndex_app_r; [|by apply Hfresh; right; left].
    simpl findIndex. unfold sameFolderId at 1. rewrite Ht1, strict_eq_num_refl.
    simpl. rewrite Nat.add_0_r.
    rewrite list_lookup_middle; [|done]. rewrite Ht1. simpl.
    rewrite filter_none.
    - simpl. rewrite removeSite_finish_tag.
      replace (length sites) with (length sites + 0)%nat at 1 by lia.
      rewrite alter_app_r. done.
    - intros y Hy. apply elem_of_app in Hy as [Hy|Hy].
      + destruct (strict_eq_num (parentFolderId y) (folderId first)) eqn:E; [|done].
        apply strict_eq_num_eq in E. rewrite Hi1 in E. by destruct (Hnochild y Hy).
      + apply list_elem_of_singleton in Hy as ->.
        destruct (strict_eq_num (parentFolderId first) (folderId first)) eqn:E; [|done].
        apply strict_eq_num_eq in E. rewrite Hi1, Hp1 in E. done. }
  assert (addSite (S fuel') now' (sites ++ [first]) r2 (Some BOOKMARK_FOLDER) None
          = Some (sites ++ [set_tags [] (delete_customTitle
                                          (set_parentFolderId (Some 0) first)); second]))
    as Hadd2.
  { unfold addSite. simpl defaultTag. simpl ofTag.
    change (isBookmarkFolder (TagStr BOOKMARK_FOLDER)) with true.
    unfold getSiteIndex. cbv iota.
    rewrite (proj2 (findIndex_None (sameFolderId r2) (sites ++ [first]))).
    - simpl negb. rewrite Hf2. simpl truthy_num.
      destruct (f2 =? 0) eqn:E; [apply Z.eqb_eq in E; done|]. simpl andb. cbv iota.
      rewrite find_app_r; [|by rewrite Hdup]. simpl List.find. rewrite Hdup1.
      rewrite Hrm. by rewrite <- app_assoc.
    - intros y Hy. apply elem_of_app in Hy as [Hy|Hy].
      + apply (Hfresh r2); [by right; right|done].
      + apply list_elem_of_singleton in Hy as ->. unfold sameFolderId.
        rewrite Ht1, Hi1, Hf2. simpl.
        destruct (f1 =? f2) eqn:E; [apply Z.eqb_eq in E; done|done]. }
  assert (List.filter (isDupFolder r2)
            (sites ++ [set_tags [] (delete_customTitle
                                      (set_parentFolderId (Some 0) first)); second])
          = [second]) as Hfilter.
  { rewrite List.filter_app, filter_none; [|by rewrite Hdup]. simpl.
    by rewrite Hdup2. }
  exists (sites ++ [first]),
         (sites ++ [set_tags [] (delete_customTitle
                                   (set_parentFolderId (Some 0) first)); second]),
         first, second.
  repeat split; try done. rewrite Hfilter. simpl. lia.
Qed.

Lemma addSite_duplicate_folder_witness :
  exists sites1 sites2 first second,
    addSite 0 1000 sampleBookmarkTree (sampleNewFolder (Some 5) "imported")
      (Some BOOKMARK_FOLDER) None = Some sites1 /\
    addSite 1 2000 sites1 (sampleNewFolder (Some 6) "imported")
      (Some BOOKMARK_FOLDER) None = Some sites2 /\
    sites1 = sampleBookmarkTree ++ [first] /\
    sites2 = sampleBookmarkTree
             ++ [set_tags [] (delete_customTitle
                                (set_parentFolderId (Some 0) first)); second] /\
    isDupFolder (sampleNewFolder (Some 6) "imported") first = true /\
    isDupFolder (sampleNewFolder (Some 6) "imported") second = true /\
    List.filter (isDupFolder (sampleNewFolder (Some 6) "imported")) sites2 = [second] /\
    Nat.le (length (List.filter (isDupFolder (sampleNewFolder (Some 6) "imported"))
                      sites2)) 1.
Proof.
  apply (addSite_duplicate_folder 0 0 1000 2000 sampleBookmarkTree
           (sampleNewFolder (Some 5) "imported") (sampleNewFolder (Some 6) "imported")
           5 6);
    try reflexivity; try discriminate;
    intros s Hs; unfold sampleBookmarkTree in Hs; elem_of_cases Hs;
    first [reflexivity | discriminate | intros _; repeat split; discriminate].
Defined.

(** C5 fails as stated: two folders added without a [folderId], with the
    same parent and title, both survive, under the fresh ids 1 and 2. *)
Lemma addSite_duplicate_folder_counterexample :
  exists sites1 sites2,
    addSite 1 1000 [] (sampleNewFolder None "imported") (Some BOOKMARK_FOLDER) None
      = Some sites1 /\
    addSite 1 2000 sites1 (sampleNewFolder None "imported") (Some BOOKMARK_FOLDER) None
      = Some sites2 /\
    folderId <$> sites2 = [Some 1; Some 2] /\
    List.filter (isDupFolder (sampleNewFolder None "imported")) sites2 = sites2 /\
    length (List.filter (isDupFolder (sampleNewFolder None "imported")) sites2) = 2%nat.
Proof. eexists _, _. repeat split; vm_compute; reflexivity. Qed.

(** * Further properties of the module *)

(** ** Lookup after a change *)

Lemma findIndex_insert {A : Type} (p : A -> bool) (l : list A) (i : nat) (x : A) :
  findIndex p l = Some i -> p x = true -> findIndex p (<[i := x]> l) = Some i.
Proof.
  revert i. induction l as [|a l IH]; intros i; simpl; [done|].
  destruct (p a) eqn:Hpa.
  - intros [= <-] Hx. simpl. by rewrite Hx.
  - destruct (findIndex p l) as [k|] eqn:Hk; simpl; [|done].
    intros [= <-] Hx. simpl. rewrite Hpa, (IH k eq_refl Hx). done.
Qed.

Lemma findIndex_alter {A : Type} (p : A -> bool) (f : A -> A) (l : list A) (i : nat) :
  (forall x, p (f x) = p x) -> findIndex p (alter f i l) = findIndex p l.
Proof.
  intros Hf. revert i. induction l as [|a l IH]; intros [|i]; simpl; try done.
  - by rewrite Hf.
  - destruct (p a); [done|]. f_equal. apply IH.
Qed.

Lemma delete_snoc {A : Type} (l : list A) (x : A) : delete (length l) (l ++ [x]) = l.
Proof. induction l as [|a l IH]; simpl; [done|]. f_equal. apply IH. Qed.

Lemma sameIdentity_refl (s : site) : sameIdentity s s = true.
Proof. unfold sameIdentity. by rewrite strict_eq_str_refl, Z.eqb_refl. Qed.

(** Where [addSite] leaves the record when the tag is not the folder tag
    and the location is not the empty string: at the index the lookup
    returns afterwards, merged with the entry found before, if any. *)
Lemma addSite_entry (fuel : nat) (now : Z) (sites : list site) (r : site)
    (tag : option siteTag) :
  isBookmarkFolder (ofTag (defaultTag tag r)) = false ->
  location r <> Some EmptyString ->
  exists sites' i,
    addSite fuel now sites r tag None = Some sites' /\
    let old := findIndex (sameIdentity r) sites ≫= (fun k => sites !! k) in
    findIndex (sameIdentity r) sites' = Some i /\
    sites' !! i = Some (mergeSiteDetails now old r (defaultTag tag r) (folderId r)) /\
    (findIndex (sameIdentity r) sites = None ->
     old = None /\ sites' = sites ++ [mergeSiteDetails now None r (defaultTag tag r)
                                        (folderId r)]) /\
    (forall k, findIndex (sameIdentity r) sites = Some k ->
               k = i /\ length sites' = length sites /\
               forall j, j <> i -> sites' !! j = sites !! j).
Proof.
  intros Hf Hloc. rewrite (addSite_not_folder fuel now sites r tag Hf).
  rewrite (getSiteIndex_not_folder sites r _ Hf).
  destruct (findIndex (sameIdentity r) sites) as [k|] eqn:Hk; simpl.
  - destruct (findIndex_Some _ _ _ Hk) as (o & Ho & Hpo & _).
    eexists _, k. split; [done|]. rewrite Ho.
    assert (sameIdentity r (mergeSiteDetails now (Some o) r (defaultTag tag r) (folderId r))
            = true) as Hid.
    { apply mergeSiteDetails_identity; [done|]. by intros ? [= <-]. }
    split; [by apply findIndex_insert|].
    split; [apply list_lookup_insert_eq; by apply lookup_lt_Some in Ho|].
    split; [done|]. intros k' [= <-]. split; [done|]. split; [apply length_insert|].
    intros j Hj. by apply list_lookup_insert_ne.
  - eexists _, (length sites). split; [done|].
    assert (sameIdentity r (mergeSiteDetails now None r (defaultTag tag r) (folderId r))
            = true) as Hid by (by apply mergeSiteDetails_identity).
    split.
    { rewrite findIndex_app_r; [|by apply findIndex_None]. simpl. rewrite Hid. simpl.
      f_equal. lia. }
    split; [by apply list_lookup_middle|]. split; [done|]. done.
Qed.

(** X1: a record that is new to the list and has no tags, added without a
    tag and removed again without a tag, leaves the list as it was: the add
    appends one entry and the remove splices that entry out. *)
Theorem addSite_removeSite_roundtrip (fuel fuel' : nat) (now : Z) (sites : list site)
    (r : site) :
  tags r = [] ->
  location r <> Some EmptyString ->
  getSiteIndex (Some sites) (Some r) NoTags = None ->
  exists sites1,
    addSite fuel now sites r None None = Some sites1 /\
    length sites1 = S (length sites) /\
    removeSite (S fuel') sites1 r None = Some sites.
Proof.
  intros Htags Hloc Hnew.
  assert (defaultTag None r = None) as Hdt by (unfold defaultTag; by rewrite Htags).
  assert (isBookmarkFolder (ofTag (defaultTag None r)) = false) as Hf by (by rewrite Hdt).
  rewrite (getSiteIndex_not_folder sites r NoTags eq_refl) in Hnew.
  destruct (addSite_entry fuel now sites r None Hf Hloc)
    as (sites1 & i & Hadd & Hi & He & Hnone & _).
  destruct (Hnone Hnew) as [_ ->]. rewrite Hnew in He. cbn [mbind option_bind] in He.
  rewrite Hdt in *.
  set (m := mergeSiteDetails now None r None (folderId r)) in *.
  assert (tags m = []) as Htm by reflexivity.
  assert (i = length sites) as ->.
  { rewrite findIndex_app_r in Hi; [|by apply findIndex_None].
    cbn [findIndex] in Hi. destruct (sameIdentity r m); simpl in Hi; [|done].
    injection Hi as <-. lia. }
  exists (sites ++ [m]).
  split; [done|]. split; [rewrite length_app; simpl; lia|].
  rewrite (removeSite_not_folder fuel' (sites ++ [m]) r None (length sites) m
             (eq_trans (getSiteIndex_not_folder _ r NoTags eq_refl) Hi) He);
    [|by rewrite Htm].
  unfold removeSite_finish. rewrite Htm. simpl. f_equal. apply delete_snoc.
Qed.

Lemma addSite_removeSite_roundtrip_witness :
  exists sites1,
    addSite 0 1000 sampleBookmarkTree (sampleHistory "https://c.example/" 5 None)
      None None = Some sites1 /\
    length sites1 = S (length sampleBookmarkTree) /\
    removeSite 1 sites1 (sampleHistory "https://c.example/" 5 None) None
      = Some sampleBookmarkTree.
Proof.
  apply (addSite_removeSite_roundtrip 0 0 1000 sampleBookmarkTree
           (sampleHistory "https://c.example/" 5 None));
    [reflexivity | discriminate | reflexivity].
Defined.

(** ** Bookmarked or not *)

Lemma isBookmark_list (ts : list siteTag) :
  isBookmark (TagList ts) = true <-> BOOKMARK ∈ ts.
Proof.
  simpl. rewrite existsb_exists. split.
  - intros (u & Hu & Heq). apply tag_eqb_eq in Heq as <-. by apply list_elem_of_In.
  - intros H. exists BOOKMARK. split; [by apply list_elem_of_In|apply tag_eqb_refl].
Qed.

(** X2: [isSiteBookmarked] looks at the first entry with the location and
    partition of the site detail only: it is true exactly when that entry
    carries the BOOKMARK tag, and false when the list or the detail is
    missing. *)
Theorem isSiteBookmarked_first_match (sites : list site) (d : site) :
  (isSiteBookmarked (Some sites) (Some d) = true <->
   exists i entry,
     sites !! i = Some entry /\ sameIdentity d entry = true /\
     BOOKMARK ∈ tags entry /\
     forall j e, (j < i)%nat -> sites !! j = Some e -> sameIdentity d e = false) /\
  isSiteBookmarked None (Some d) = false /\
  isSiteBookmarked (Some sites) None = false.
Proof.
  split; [|done]. unfold isSiteBookmarked.
  rewrite (getSiteIndex_not_folder sites d (TagStr BOOKMARK) eq_refl).
  destruct (findIndex (sameIdentity d) sites) as [i|] eqn:Hi.
  - destruct (findIndex_Some _ _ _ Hi) as (entry & He & Hid & Hfirst).
    rewrite He, isBookmark_list. split.
    + intros Hb. exists i, entry. done.
    + intros (i' & entry' & He' & Hid' & Hb & Hfirst').
      destruct (Nat.lt_trichotomy i i') as [Hlt|[->|Hlt]].
      * by rewrite (Hfirst' i entry Hlt He) in Hid.
      * rewrite He in He'. by injection He' as <-.
      * by rewrite (Hfirst i' entry' Hlt He') in Hid'.
  - split; [done|]. intros (i & entry & He & Hid & _).
    rewrite findIndex_None in Hi. rewrite Hi in Hid; [done|].
    by eapply list_elem_of_lookup_2.
Qed.

(** X3: after [addSite] with the BOOKMARK tag, for a record whose location
    is not the empty string, [isSiteBookmarked] holds for that record. *)
Theorem addSite_bookmark_isSiteBookmarked (fuel : nat) (now : Z) (sites : list site)
    (r : site) :
  location r <> Some EmptyString ->
  exists sites',
    addSite fuel now sites r (Some BOOKMARK) None = Some sites' /\
    isSiteBookmarked (Some sites') (Some r) = true.
Proof.
  intros Hloc.
  destruct (addSite_entry fuel now sites r (Some BOOKMARK) eq_refl Hloc)
    as (sites' & i & Hadd & Hi & He & _).
  exists sites'. split; [done|]. unfold isSiteBookmarked.
  rewrite (getSiteIndex_not_folder sites' r (TagStr BOOKMARK) eq_refl), Hi, He.
  apply isBookmark_list. cbn [mergeSiteDetails tags defaultTag].
  apply elem_of_tagsAdd. by left.
Qed.

Lemma addSite_bookmark_isSiteBookmarked_witness :
  exists sites',
    addSite 0 1000 sampleHistoryTree (sampleHistory "https://a.example/" 9 None)
      (Some BOOKMARK) None = Some sites' /\
    isSiteBookmarked (Some sites') (Some (sampleHistory "https://a.example/" 9 None)) = true.
Proof.
  apply (addSite_bookmark_isSiteBookmarked 0 1000 sampleHistoryTree
           (sampleHistory "https://a.example/" 9 None)).
  discriminate.
Defined.

Lemma sameIdentity_strip (d s : site) (ts : list siteTag) :
  sameIdentity d (set_tags ts (delete_customTitle (set_parentFolderId (Some 0) s)))
  = sameIdentity d s.
Proof. done. Qed.

(** X4: after [removeSite] with the BOOKMARK tag, for a target whose record
    is not a folder, [isSiteBookmarked] no longer holds for that target. *)
Theorem removeSite_bookmark_not_bookmarked (fuel : nat) (sites : list site) (d : site) :
  (forall i entry, getSiteIndex (Some sites) (Some d) (TagStr BOOKMARK) = Some i ->
                   sites !! i = Some entry ->
                   isBookmarkFolder (TagList (tags entry)) = false) ->
  exists sites',
    removeSite (S fuel) sites d (Some BOOKMARK) = Some sites' /\
    isSiteBookmarked (Some sites') (Some d) = false.
Proof.
  intros Hnf.
  destruct (getSiteIndex (Some sites) (Some d) (TagStr BOOKMARK)) as [i|] eqn:Hi.
  - destruct (getSiteIndex_lookup _ _ _ _ Hi) as [entry He].
    specialize (Hnf i entry eq_refl He).
    exists (removeSite_finish i (tags entry) (Some BOOKMARK) sites).
    split; [by apply (removeSite_not_folder fuel sites d (Some BOOKMARK))|].
    unfold isSiteBookmarked.
    rewrite (getSiteIndex_not_folder _ d (TagStr BOOKMARK) eq_refl).
    rewrite (getSiteIndex_not_folder _ d (TagStr BOOKMARK) eq_refl) in Hi.
    rewrite removeSite_finish_tag at 1.
    rewrite findIndex_alter; [|intros x; apply sameIdentity_strip]. rewrite Hi.
    destruct (lookup_removeSite_finish_tag i (tags entry) BOOKMARK sites entry He)
      as [-> _].
    destruct (isBookmark _) eqn:E; [|done].
    apply isBookmark_list in E. cbn [tags set_tags] in E.
    apply elem_of_tagsRemove in E as [_ E]. done.
  - exists sites. rewrite removeSite_unfold. simpl ofTag. rewrite Hi.
    split; [done|]. unfold isSiteBookmarked. by rewrite Hi.
Qed.

Lemma removeSite_bookmark_not_bookmarked_witness :
  exists sites',
    removeSite 1 sampleBookmarkTree (sampleBookmark "https://b.example/" None)
      (Some BOOKMARK) = Some sites' /\
    isSiteBookmarked (Some sites') (Some (sampleBookmark "https://b.example/" None))
      = false.
Proof.
  apply (removeSite_bookmark_not_bookmarked 0 sampleBookmarkTree
           (sampleBookmark "https://b.example/" None)).
  intros i entry Hi. vm_compute in Hi. injection Hi as <-.
  intros He. vm_compute in He. injection He as <-. reflexivity.
Defined.

(** ** Equivalence of site details *)

(** X5: [isEquivalent] is an equivalence relation on site details:
    reflexive, symmetric and transitive. *)
Theorem isEquivalent_equivalence :
  (forall a, isEquivalent a a = true) /\
  (forall a b, isEquivalent a b = isEquivalent b a) /\
  (forall a b c, isEquivalent a b = true -> isEquivalent b c = true ->
                 isEquivalent a c = true).
Proof.
  unfold isEquivalent, isFolder. split; [|split].
  - intros a. destruct (isBookmarkFolder _); simpl;
      by rewrite ?strict_eq_num_refl, ?strict_eq_str_refl.
  - intros a b.
    destruct (isBookmarkFolder (TagList (tags a))), (isBookmarkFolder (TagList (tags b)));
      simpl; try done.
    + apply eq_true_iff_eq. rewrite !strict_eq_num_eq. split; congruence.
    + apply eq_true_iff_eq. rewrite !andb_true_iff, !strict_eq_num_eq, !strict_eq_str_eq.
      split; intros [? ?]; split; congruence.
  - intros a b c.
    destruct (isBookmarkFolder (TagList (tags a))), (isBookmarkFolder (TagList (tags b))),
             (isBookmarkFolder (TagList (tags c))); simpl; try done.
    + rewrite !strict_eq_num_eq. congruence.
    + rewrite !andb_true_iff, !strict_eq_num_eq, !strict_eq_str_eq.
      intros [? ?] [? ?]; split; congruence.
Qed.

Lemma isEquivalent_equivalence_witness :
  isEquivalent (sampleFolder 1 "A" (Some 0)) (sampleFolder 1 "news" None) = true.
Proof.
  apply (proj2 (proj2 isEquivalent_equivalence) _ (sampleFolder 1 "B" (Some 7)));
    reflexivity.
Defined.

(** X6: a site detail that [isEquivalent] to some entry of the list is
    found by [getSiteIndex] called with the detail's own tags, as [moveSite]
    calls it. *)
Theorem isEquivalent_found (sites : list site) (d e : site) :
  e ∈ sites -> isEquivalent d e = true ->
  is_Some (getSiteIndex (Some sites) (Some d) (TagList (tags d))).
Proof.
  intros He Heq. unfold getSiteIndex. unfold isEquivalent, isFolder in Heq.
  destruct (isBookmarkFolder (TagList (tags d))) eqn:Hd,
           (isBookmarkFolder (TagList (tags e))) eqn:Hfe; simpl in Heq; try done.
  - apply (findIndex_is_Some _ sites e He). unfold sameFolderId.
    rewrite Hfe. simpl. apply strict_eq_num_eq. apply strict_eq_num_eq in Heq. done.
  - apply (findIndex_is_Some _ sites e He). unfold sameIdentity.
    apply andb_prop in Heq as [Hl Hp].
    apply strict_eq_str_eq in Hl. apply strict_eq_num_eq in Hp.
    rewrite Hl, Hp, strict_eq_str_refl. by rewrite Z.eqb_refl.
Qed.

Lemma isEquivalent_found_witness :
  is_Some (getSiteIndex (Some sampleChain) (Some (sampleFolder 2 "renamed" None))
             (TagList (tags (sampleFolder 2 "renamed" None)))).
Proof.
  apply (isEquivalent_found sampleChain (sampleFolder 2 "renamed" None)
           (sampleFolder 2 "B" (Some 1))); [|reflexivity].
  unfold sampleChain. right. by left.
Defined.

(** ** Clearing history *)

Lemma foldi_alter_map (c : site -> bool) (g : site -> site) (l pre : list site) :
  foldi (fun acc index s => if c s then alter g index acc else acc)
        (length pre) l (pre ++ l)
  = pre ++ map (fun s => if c s then g s else s) l.
Proof.
  revert pre. induction l as [|x l IH]; intros pre; simpl; [done|].
  set (x' := if c x then g x else x).
  assert ((if c x then alter g (length pre) (pre ++ x :: l) else pre ++ x :: l)
          = (pre ++ [x']) ++ l) as ->.
  { unfold x'. destruct (c x); [|by rewrite <- app_assoc].
    replace (length pre) with (length pre + 0)%nat at 1 by lia.
    rewrite alter_app_r. simpl. by rewrite <- app_assoc. }
  replace (S (length pre)) with (length (pre ++ [x'])) by (rewrite length_app; simpl; lia).
  rewrite IH. by rewrite <- app_assoc.
Qed.

Lemma lookup_map {A B : Type} (f : A -> B) (l : list A) (i : nat) :
  map f l !! i = f <$> l !! i.
Proof. revert i. induction l as [|a l IH]; intros [|i]; simpl; done. Qed.

Lemma clearHistory_map (sites : list site) :
  clearHistory sites =
  map (fun s => if truthy_time (lastAccessedTime s) then set_lastAccessedTime JNull s else s)
      (List.filter (fun s => (0 <? length (tags s))%nat) sites).
Proof. unfold clearHistory. apply (foldi_alter_map _ _ _ []). Qed.

(** X7: [clearHistory] keeps exactly the entries that have tags, in their
    order; each is unchanged except that a truthy [lastAccessedTime] has
    become null. *)
Theorem clearHistory_entries (sites : list site) :
  length (clearHistory sites)
    = length (List.filter (fun s => (0 <? length (tags s))%nat) sites) /\
  forall i e,
    List.filter (fun s => (0 <? length (tags s))%nat) sites !! i = Some e ->
    exists e',
      clearHistory sites !! i = Some e' /\
      e' = set_lastAccessedTime (lastAccessedTime e') e /\
      lastAccessedTime e' =
        (if truthy_time (lastAccessedTime e) then JNull else lastAccessedTime e).
Proof.
  rewrite clearHistory_map. split; [by rewrite length_map|].
  intros i e He. eexists. split.
  - rewrite lookup_map, He. done.
  - destruct e as [? ? ? ? lat ? ? ? ? ? ?]. simpl.
    destruct (truthy_time lat); done.
Qed.

Lemma clearHistory_entries_witness :
  exists e',
    clearHistory (sampleHistoryTree ++ sampleBookmarkTree) !! 1%nat = Some e' /\
    e' = set_lastAccessedTime (lastAccessedTime e') (sampleFolder 1 "news" None) /\
    lastAccessedTime e' =
      (if truthy_time (lastAccessedTime (sampleFolder 1 "news" None)) then JNull
       else lastAccessedTime (sampleFolder 1 "news" None)).
Proof.
  apply (proj2 (clearHistory_entries (sampleHistoryTree ++ sampleBookmarkTree)) 1%nat
           (sampleFolder 1 "news" None)).
  reflexivity.
Defined.

(** X8: after [clearHistory] no entry is a history entry, and
    [hasNoTagSites] is false. *)
Theorem clearHistory_no_history (sites : list site) :
  (forall e, e ∈ clearHistory sites -> isHistoryEntry (Some e) = false) /\
  hasNoTagSites (clearHistory sites) = false.
Proof.
  rewrite clearHistory_map. split.
  - intros e He. apply list_elem_of_In, in_map_iff in He as (s & <- & Hs).
    unfold isHistoryEntry.
    destruct (truthy_time (lastAccessedTime s)) eqn:E; simpl.
    + destruct (location s); [|done]. by destruct (String.prefix _ _).
    + destruct (location s); [|done]. destruct (String.prefix _ _); [done|].
      by rewrite E.
  - unfold hasNoTagSites.
    replace (findIndex _ _) with (@None nat); [done|]. symmetry. apply findIndex_None.
    intros e He. apply list_elem_of_In, in_map_iff in He as (s & <- & Hs).
    apply filter_In in Hs as [_ Hs]. apply Nat.ltb_lt in Hs.
    apply Nat.eqb_neq. destruct (truthy_time _); simpl; lia.
Qed.

Lemma clearHistory_no_history_witness :
  isHistoryEntry (Some (sampleBookmark "https://a.example/" (Some 1))) = true /\
  isHistoryEntry
    (Some (set_lastAccessedTime JNull (sampleBookmark "https://a.example/" (Some 1))))
    = false.
Proof.
  split; [reflexivity|].
  apply (proj1 (clearHistory_no_history sampleBookmarkTree)).
  vm_compute. right. by left.
Defined.

Lemma List_filter_all {A : Type} (p : A -> bool) (l : list A) :
  (forall x, x ∈ l -> p x = true) -> List.filter p l = l.
Proof.
  induction l as [|a l IH]; intros Hl; simpl; [done|].
  rewrite (Hl a); [|by left]. f_equal. apply IH. intros x Hx. apply Hl. by right.
Qed.

(** X9: [clearHistory] is idempotent. *)
Theorem clearHistory_idempotent (sites : list site) :
  clearHistory (clearHistory sites) = clearHistory sites.
Proof.
  rewrite !clearHistory_map.
  set (clear := fun s : site => if truthy_time (lastAccessedTime s)
                                then set_lastAccessedTime JNull s else s).
  set (l := List.filter _ sites).
  rewrite List_filter_all.
  - rewrite map_map. apply map_ext. intros s. unfold clear.
    destruct (truthy_time (lastAccessedTime s)) eqn:E; simpl; [done|]. by rewrite E.
  - intros x Hx. apply list_elem_of_In, in_map_iff in Hx as (s & <- & Hs).
    apply filter_In in Hs as [_ Hs]. unfold clear. by destruct (truthy_time _).
Qed.

(** ** Recents and bookmarks *)

Lemma elem_of_topHistory (k : Z) (l : list site) (x : site) :
  x ∈ take_amount k (sort recencyComparator l) -> x ∈ l.
Proof.
  unfold take_amount. intros Hx. apply elem_of_take in Hx as (i & Hx & _).
  apply list_elem_of_lookup_2 in Hx. by rewrite sort_perm in Hx.
Qed.

Lemma filter_filter_impl {A : Type} (p q : A -> bool) (l : list A) :
  (forall x, p x = true -> q x = true) ->
  List.filter p (List.filter q l) = List.filter p l.
Proof.
  intros Hpq. induction l as [|a l IH]; simpl; [done|].
  destruct (q a) eqn:Hq; simpl.
  - by rewrite IH.
  - destruct (p a) eqn:Hp; [|done]. by rewrite (Hpq a Hp) in Hq.
Qed.

(** X10: the recents filter never drops a bookmark or a folder:
    [getBookmarks] gives the same list before and after
    [filterOutNonRecents]. *)
Theorem filterOutNonRecents_keeps_bookmarks (k : Z) (sites : list site) :
  getBookmarks (Some (filterOutNonRecents k sites)) = getBookmarks (Some sites).
Proof.
  unfold getBookmarks, filterOutNonRecents. rewrite List.filter_app.
  rewrite (filter_none _ (take_amount _ _)).
  - rewrite app_nil_r. apply filter_filter_impl.
    intros x Hx. by destruct (tags x).
  - intros x Hx. apply elem_of_topHistory, elem_of_List_filter in Hx as [_ Hx].
    apply Nat.eqb_eq in Hx. destruct (tags x); [done|discriminate].
Qed.

(** X11: when [hasNoTagSites] is false, [filterOutNonRecents] returns the
    list unchanged, whatever the cap. *)
Theorem filterOutNonRecents_all_tagged (k : Z) (sites : list site) :
  hasNoTagSites sites = false -> filterOutNonRecents k sites = sites.
Proof.
  unfold hasNoTagSites. intros H.
  destruct (findIndex _ sites) eqn:Hi; [done|]. rewrite findIndex_None in Hi.
  unfold filterOutNonRecents. rewrite (filter_none _ sites Hi). simpl.
  unfold take_amount. rewrite take_nil, app_nil_r.
  apply List_filter_all. intros x Hx. by rewrite (Hi x Hx).
Qed.

Lemma filterOutNonRecents_all_tagged_witness :
  filterOutNonRecents 0 sampleChain = sampleChain.
Proof. apply (filterOutNonRecents_all_tagged 0 sampleChain). reflexivity. Defined.

Lemma sort_of_sorted (l : list site) :
  StronglySorted more_recent l -> sort recencyComparator l = l.
Proof.
  induction 1 as [|x l Hl IH Hx]; simpl; [done|]. rewrite IH.
  destruct l as [|y l]; simpl; [done|].
  apply Forall_cons in Hx as [Hxy _]. apply recencyComparator_le in Hxy.
  apply Z.leb_le in Hxy. by rewrite Hxy.
Qed.

Lemma StronglySorted_take {A : Type} (R : A -> A -> Prop) (n : nat) (l : list A) :
  StronglySorted R l -> StronglySorted R (take n l).
Proof.
  intros H. revert n. induction H as [|x l Hl IH Hx]; intros [|n]; simpl;
    try constructor; [apply IH|by apply Forall_take].
Qed.

(** X12: [filterOutNonRecents] is idempotent: filtering its own output
    with the same cap changes nothing. *)
Theorem filterOutNonRecents_idempotent (k : Z) (sites : list site) :
  filterOutNonRecents k (filterOutNonRecents k sites) = filterOutNonRecents k sites.
Proof.
  unfold filterOutNonRecents at 1 3.
  set (T := List.filter (fun s => negb (length (tags s) =? 0)%nat) sites).
  set (H := take_amount k
              (sort recencyComparator
                 (List.filter (fun s => (length (tags s) =? 0)%nat) sites))).
  assert (forall x, x ∈ T -> (length (tags x) =? 0)%nat = false) as HT.
  { intros x Hx. apply elem_of_List_filter in Hx as [_ Hx]. by apply negb_true_iff. }
  assert (forall x, x ∈ H -> (length (tags x) =? 0)%nat = true) as HH.
  { intros x Hx. by apply elem_of_topHistory, elem_of_List_filter in Hx as [_ Hx]. }
  unfold filterOutNonRecents. rewrite !List.filter_app.
  rewrite (List_filter_all _ T), (filter_none _ H), (filter_none _ T), (List_filter_all _ H);
    try done.
  - simpl. rewrite app_nil_r. f_equal.
    rewrite sort_of_sorted; [|apply StronglySorted_take, sort_sorted].
    unfold H, take_amount. rewrite take_take. f_equal. lia.
  - intros x Hx. by rewrite (HH x Hx).
  - intros x Hx. by rewrite (HT x Hx).
Qed.

(** ** Visits and bookmarks as history entries *)

Lemma time_or_truthy (v : jsnum) (dflt : Z) :
  dflt <> 0 -> truthy_time (JNum (time_or v dflt)) = true.
Proof.
  intros Hd. assert (negb (dflt =? 0) = true) as Hd'.
  { destruct (dflt =? 0) eqn:E; [apply Z.eqb_eq in E|]; done. }
  destruct v as [| |n]; simpl; try done.
  destruct (n =? 0) eqn:En; [done|]. by rewrite En.
Qed.

(** X13: a visit (an add without a tag of a record without tags) to a
    location that is not empty and not an [about:] page leaves, at the
    index the lookup returns, an entry that [isHistoryEntry] accepts,
    provided the clock is not 0 and the entry found before, if any, is not
    a folder. *)
Theorem addSite_visit_isHistoryEntry (fuel : nat) (now : Z) (sites : list site)
    (r : site) (loc : string) :
  tags r = [] ->
  location r = Some loc -> loc <> EmptyString ->
  String.prefix "about:" loc = false ->
  now <> 0 ->
  (forall k old, getSiteIndex (Some sites) (Some r) NoTags = Some k ->
                 sites !! k = Some old ->
                 isBookmarkFolder (TagList (tags old)) = false) ->
  exists sites' i e,
    addSite fuel now sites r None None = Some sites' /\
    getSiteIndex (Some sites') (Some r) NoTags = Some i /\
    sites' !! i = Some e /\
    isHistoryEntry (Some e) = true.
Proof.
  intros Htags Hloc Hne Habout Hnow Hold.
  assert (defaultTag None r = None) as Hdt by (unfold defaultTag; by rewrite Htags).
  assert (location r <> Some EmptyString) as Hloc' by (rewrite Hloc; congruence).
  destruct (addSite_entry fuel now sites r None) as (sites' & i & Hadd & Hi & He & _);
    [by rewrite Hdt|done|].
  eexists sites', i, _. split; [done|].
  split; [by rewrite (getSiteIndex_not_folder sites' r NoTags eq_refl)|].
  split; [exact He|]. rewrite Hdt.
  rewrite (getSiteIndex_not_folder sites r NoTags eq_refl) in Hold.
  unfold isHistoryEntry. cbn [mergeSiteDetails location]. rewrite Hloc.
  assert (truthy_str (Some loc) = true) as ->.
  { simpl. destruct (String.eqb loc "") eqn:E; [|done]. by apply String.eqb_eq in E. }
  rewrite Habout. apply andb_true_intro. split.
  - cbn [lastAccessedTime ofTag isBookmark isBookmarkFolder orb].
    by apply time_or_truthy.
  - cbn [isFolder tags]. apply negb_true_iff.
    destruct (findIndex (sameIdentity r) sites) as [k|] eqn:Hk; simpl; [|done].
    destruct (sites !! k) as [old|] eqn:Hok; simpl; [|done]. by apply (Hold k).
Qed.

Lemma addSite_visit_isHistoryEntry_witness :
  exists sites' i e,
    addSite 0 1000 sampleBookmarkTree (sampleHistory "https://a.example/" 0 None)
      None None = Some sites' /\
    getSiteIndex (Some sites') (Some (sampleHistory "https://a.example/" 0 None)) NoTags
      = Some i /\
    sites' !! i = Some e /\
    isHistoryEntry (Some e) = true.
Proof.
  apply (addSite_visit_isHistoryEntry 0 1000 sampleBookmarkTree
           (sampleHistory "https://a.example/" 0 None) "https://a.example/");
    try reflexivity; try discriminate.
  intros k old Hk. vm_compute in Hk. injection Hk as <-.
  intros Ho. vm_compute in Ho. injection Ho as <-. reflexivity.
Defined.

(** X14: a record added with the BOOKMARK tag and without a truthy
    [lastAccessedTime] gets the time 0, so [isHistoryEntry] rejects the
    entry: a fresh bookmark does not show up as history. *)
Theorem addSite_bookmark_not_history (fuel : nat) (now : Z) (sites : list site)
    (r : site) :
  location r <> Some EmptyString ->
  truthy_time (lastAccessedTime r) = false ->
  exists sites' i e,
    addSite fuel now sites r (Some BOOKMARK) None = Some sites' /\
    getSiteIndex (Some sites') (Some r) (TagStr BOOKMARK) = Some i /\
    sites' !! i = Some e /\
    lastAccessedTime e = JNum 0 /\
    isHistoryEntry (Some e) = false.
Proof.
  intros Hloc Hlat.
  destruct (addSite_entry fuel now sites r (Some BOOKMARK) eq_refl Hloc)
    as (sites' & i & Hadd & Hi & He & _).
  eexists sites', i, _. split; [done|].
  split; [by rewrite (getSiteIndex_not_folder sites' r (TagStr BOOKMARK) eq_refl)|].
  split; [exact He|].
  assert (time_or (lastAccessedTime r) 0 = 0) as H0.
  { destruct (lastAccessedTime r) as [| |n]; simpl in *; try done. by destruct (n =? 0). }
  split.
  - cbn [mergeSiteDetails lastAccessedTime defaultTag ofTag]. simpl isBookmark.
    cbn [orb]. by rewrite H0.
  - unfold isHistoryEntry. cbn [mergeSiteDetails location lastAccessedTime defaultTag ofTag].
    simpl isBookmark. cbn [orb]. rewrite H0.
    destruct (if truthy_str (location r) then location r else None); [|done].
    by destruct (String.prefix _ _).
Qed.

Lemma addSite_bookmark_not_history_witness :
  exists sites' i e,
    addSite 0 1000 sampleHistoryTree (sampleHistory "https://n.example/" 0 None)
      (Some BOOKMARK) None = Some sites' /\
    getSiteIndex (Some sites') (Some (sampleHistory "https://n.example/" 0 None))
      (TagStr BOOKMARK) = Some i /\
    sites' !! i = Some e /\
    lastAccessedTime e = JNum 0 /\
    isHistoryEntry (Some e) = false.
Proof.
  apply (addSite_bookmark_not_history 0 1000 sampleHistoryTree
           (sampleHistory "https://n.example/" 0 None)); [discriminate|reflexivity].
Defined.

(** X15: the visit counter.  After a visit (an add without a tag of a
    record without tags, location not empty) the entry has count 1 when the
    site was new, the old count plus 1 when the entry found had no tags,
    and no count at all when the entry found had tags. *)
Theorem addSite_visit_count (fuel : nat) (now : Z) (sites : list site) (r : site) :
  tags r = [] ->
  location r <> Some EmptyString ->
  exists sites' i e,
    addSite fuel now sites r None None = Some sites' /\
    getSiteIndex (Some sites') (Some r) NoTags = Some i /\
    sites' !! i = Some e /\
    count e =
      match getSiteIndex (Some sites) (Some r) NoTags ≫= (fun k => sites !! k) with
      | None => Some 1
      | Some old =>
          match tags old with
          | [] => Some (or0 (count old) + 1)
          | _ :: _ => None
          end
      end.
Proof.
  intros Htags Hloc.
  assert (defaultTag None r = None) as Hdt by (unfold defaultTag; by rewrite Htags).
  destruct (addSite_entry fuel now sites r None) as (sites' & i & Hadd & Hi & He & _);
    [by rewrite Hdt|done|].
  eexists sites', i, _. split; [done|].
  split; [by rewrite (getSiteIndex_not_folder sites' r NoTags eq_refl)|].
  split; [exact He|]. rewrite Hdt.
  rewrite (getSiteIndex_not_folder sites r NoTags eq_refl).
  cbn [mergeSiteDetails count].
  destruct (findIndex (sameIdentity r) sites ≫= _) as [old|]; [|done].
  by destruct (tags old).
Qed.

Lemma addSite_visit_count_witness :
  exists sites' i e,
    addSite 0 1000 sampleHistoryTree (sampleHistory "https://a.example/" 0 None)
      None None = Some sites' /\
    getSiteIndex (Some sites') (Some (sampleHistory "https://a.example/" 0 None)) NoTags
      = Some i /\
    sites' !! i = Some e /\
    count e = Some 2.
Proof.
  apply (addSite_visit_count 0 1000 sampleHistoryTree
           (sampleHistory "https://a.example/" 0 None)); [reflexivity|discriminate].
Defined.

(** ** Adding: lengths and folder ids *)

Lemma getNextFolderId_bounds (sites : list site) :
  (forall s n, s ∈ sites -> folderId s = Some n -> n < getNextFolderId (Some sites)) /\
  ((forall s n, s ∈ sites -> folderId s = Some n -> 0 <= n) ->
   0 < getNextFolderId (Some sites)).
Proof.
  unfold getNextFolderId, getNextFolderIdItem.
  destruct sites as [|first rest].
  - split; [|done]. intros s n Hs. by apply elem_of_nil in Hs.
  - destruct (fold_max_spec rest first) as [Hin Hmax]. split.
    + intros s n Hs Hn. destruct (Hmax s n Hs Hn) as (k & Hk & Hle).
      rewrite Hk. simpl. lia.
    + intros Hpos. destruct (folderId (fold_left max_step rest first)) as [k|] eqn:Hk;
        simpl; [|lia].
      specialize (Hpos _ k Hin Hk). lia.
Qed.

(** X16: a folder added without a [folderId] (or with 0) to a list whose
    folder ids are not negative is appended with a positive id that is
    larger than every id in the list, so ids stay unique; its parent and
    title are those of the record. *)
Theorem addSite_new_folder_fresh_id (fuel : nat) (now : Z) (sites : list site) (r : site) :
  truthy_num (folderId r) = false ->
  (forall s, s ∈ sites -> isBookmarkFolder (TagList (tags s)) = true ->
             folderId s <> folderId r) ->
  (forall s n, s ∈ sites -> folderId s = Some n -> 0 <= n) ->
  exists f n,
    addSite fuel now sites r (Some BOOKMARK_FOLDER) None = Some (sites ++ [f]) /\
    isFolder (Some f) = true /\
    folderId f = Some n /\ 0 < n /\
    (forall s k, s ∈ sites -> folderId s = Some k -> k < n) /\
    parentFolderId f = parentFolderId r /\
    customTitle f = customTitle r.
Proof.
  intros Hfalsy Hnew Hpos.
  destruct (getNextFolderId_bounds sites) as [Habove Hnext]. specialize (Hnext Hpos).
  set (n := getNextFolderId (Some sites)) in *.
  destruct (mergeSiteDetails_new_folder now r n) as (Ht & Hi & Hp & Hc); [lia|].
  exists (mergeSiteDetails now None r (Some BOOKMARK_FOLDER) (Some n)), n.
  split; [|split; [unfold isFolder; by rewrite Ht|repeat split; done]].
  unfold addSite. simpl defaultTag. simpl ofTag.
  change (isBookmarkFolder (TagStr BOOKMARK_FOLDER)) with true.
  unfold getSiteIndex. cbv iota.
  rewrite (proj2 (findIndex_None (sameFolderId r) sites)).
  - simpl negb. rewrite Hfalsy. simpl. done.
  - intros s Hs. unfold sameFolderId.
    destruct (isBookmarkFolder (TagList (tags s))) eqn:E; [|done]. simpl.
    destruct (strict_eq_num (folderId s) (folderId r)) eqn:E'; [|done].
    apply strict_eq_num_eq in E'. by destruct (Hnew s Hs E).
Qed.

Lemma addSite_new_folder_fresh_id_witness :
  exists f n,
    addSite 0 1000 sampleChain (sampleNewFolder None "D") (Some BOOKMARK_FOLDER) None
      = Some (sampleChain ++ [f]) /\
    isFolder (Some f) = true /\
    folderId f = Some n /\ 0 < n /\
    (forall s k, s ∈ sampleChain -> folderId s = Some k -> k < n) /\
    parentFolderId f = parentFolderId (sampleNewFolder None "D") /\
    customTitle f = customTitle (sampleNewFolder None "D").
Proof.
  apply (addSite_new_folder_fresh_id 0 1000 sampleChain (sampleNewFolder None "D"));
    [reflexivity| |];
    intros s; [|intros n]; intros Hs; unfold sampleChain in Hs; elem_of_cases Hs;
    first [discriminate | intros [= <-]; lia].
Defined.

(** X17: [addSite] never drops a record.  A call that returns keeps the
    length of the list when the lookup found an entry to update and
    lengthens it by one otherwise; and with a tag other than the folder tag
    it always returns. *)
Theorem addSite_length (fuel : nat) (now : Z) (sites : list site) (r : site)
    (tag : option siteTag) (original : option site) :
  (forall sites',
     addSite fuel now sites r tag original = Some sites' ->
     length sites' =
       match getSiteIndex (Some sites)
               (Some (match original with Some o => o | None => r end))
               (ofTag (defaultTag tag r)) with
       | Some _ => length sites
       | None => S (length sites)
       end) /\
  (isBookmarkFolder (ofTag (defaultTag tag r)) = false ->
   is_Some (addSite fuel now sites r tag original)).
Proof.
  unfold addSite.
  set (index := getSiteIndex _ _ _).
  set (oldSite := match index with Some i => sites !! i | None => None end).
  assert (forall l fid sites',
            length l = length sites ->
            match index with
            | Some i => Some (<[i := mergeSiteDetails now oldSite r (defaultTag tag r) fid]> l)
            | None => Some (l ++ [mergeSiteDetails now oldSite r (defaultTag tag r) fid])
            end = Some sites' ->
            length sites' = match index with Some _ => length sites | None => S (length sites) end)
    as Hlen.
  { intros l fid sites' Hl. destruct index; intros [= <-].
    - by rewrite length_insert.
    - rewrite length_app. simpl. lia. }
  split.
  - intros sites'. destruct (isBookmarkFolder (ofTag (defaultTag tag r))).
    + destruct (negb (truthy_opt oldSite) && truthy_num (folderId r)).
      * destruct (List.find (isDupFolder r) sites) as [dup|]; [|by apply Hlen].
        destruct (removeSite fuel sites dup (Some BOOKMARK_FOLDER)) as [l|] eqn:Hrm;
          [|done].
        apply Hlen. by apply removeSite_length in Hrm.
      * destruct (negb (truthy_num (folderId r))); by apply Hlen.
    + by apply Hlen.
  - intros ->. by destruct index.
Qed.

Lemma addSite_length_witness :
  (forall sites',
     addSite 1 1000 sampleChain (sampleNewFolder (Some 9) "A") (Some BOOKMARK_FOLDER) None
       = Some sites' ->
     length sites' =
       match getSiteIndex (Some sampleChain) (Some (sampleNewFolder (Some 9) "A"))
               (ofTag (defaultTag (Some BOOKMARK_FOLDER) (sampleNewFolder (Some 9) "A"))) with
       | Some _ => length sampleChain
       | None => S (length sampleChain)
       end) /\
  is_Some (addSite 0 1000 sampleChain (sampleBookmark "https://a.example/" None) None None).
Proof.
  split.
  - apply (proj1 (addSite_length 1 1000 sampleChain (sampleNewFolder (Some 9) "A")
                    (Some BOOKMARK_FOLDER) None)).
  - apply (proj2 (addSite_length 0 1000 sampleChain
                    (sampleBookmark "https://a.example/" None) None None)).
    reflexivity.
Defined.

(** ** Favicons *)

Lemma foldi_indices {A : Type} (p : A -> bool) (l : list A) (k : nat) (acc : list nat)
    (i : nat) :
  i ∈ foldi (fun acc index x => if p x then acc ++ [index] else acc) k l acc <->
  i ∈ acc \/ exists j x, i = (k + j)%nat /\ l !! j = Some x /\ p x = true.
Proof.
  revert k acc. induction l as [|a l IH]; intros k acc; simpl.
  - split; [by left|]. intros [?|(j & x & _ & Hx & _)]; done.
  - rewrite IH. split.
    + intros [Hi|(j & x & -> & Hx & Hp)].
      * destruct (p a) eqn:Hpa; [|by left].
        apply elem_of_app in Hi as [Hi|Hi]; [by left|].
        apply list_elem_of_singleton in Hi as ->. right. exists 0%nat, a.
        split; [lia|done].
      * right. exists (S j), x. split; [lia|done].
    + intros [Hi|(j & x & -> & Hx & Hp)].
      * left. destruct (p a); [|done]. apply elem_of_app. by left.
      * destruct j as [|j]; simpl in Hx.
        -- injection Hx as <-. left. rewrite Hp. apply elem_of_app. right.
           apply list_elem_of_singleton. lia.
        -- right. exists j, x. split; [lia|done].
Qed.

Lemma fold_left_alter_lookup {A : Type} (g : A -> A) (indices : list nat) (l : list A)
    (j : nat) :
  (forall x, g (g x) = g x) ->
  fold_left (fun updated index => alter g index updated) indices l !! j =
  if bool_decide (j ∈ indices) then g <$> l !! j else l !! j.
Proof.
  intros Hg. revert l. induction indices as [|i indices IH]; intros l; simpl; [done|].
  rewrite IH. destruct (decide (j = i)) as [->|Hne].
  - rewrite list_lookup_alter_eq.
    rewrite (bool_decide_eq_true_2 (i ∈ i :: indices)); [|by left].
    destruct (bool_decide (i ∈ indices)); [|done].
    destruct (l !! i); simpl; [|done]. by rewrite Hg.
  - rewrite list_lookup_alter_ne; [|done].
    destruct (decide (j ∈ indices)) as [Hin|Hnin].
    + rewrite !bool_decide_eq_true_2; [done|by right|done].
    + rewrite !bool_decide_eq_false_2; [done| |done].
      intros Hin. apply elem_of_cons in Hin as [?|?]; done.
Qed.

Lemma fold_left_alter_length {A : Type} (g : A -> A) (indices : list nat) (l : list A) :
  length (fold_left (fun updated index => alter g index updated) indices l) = length l.
Proof.
  revert l. induction indices as [|i indices IH]; intros l; simpl; [done|].
  by rewrite IH, length_alter.
Qed.

Section Favicons.

(** [UrlUtil.isNotURL] and the package [normalize-url] ([None] when it
    throws), neither of which is part of the sources. *)
Variable isNotURL : option string -> bool.
Variable normalizeUrl : option string -> option string.

(** What [updateSiteFavicon] does to each entry. *)
Lemma updateSiteFavicon_lookup (sites : list site) (loc : string)
    (fav : option string) (j : nat) :
  updateSiteFavicon isNotURL normalizeUrl sites loc fav !! j =
  (fun s => if negb (isNotURL (Some loc)) && faviconMatches isNotURL normalizeUrl loc s
            then set_favicon fav s else s) <$> sites !! j.
Proof.
  unfold updateSiteFavicon. destruct (isNotURL (Some loc)); simpl.
  { by destruct (sites !! j). }
  set (indices := foldi _ 0%nat sites []).
  assert (forall i, i ∈ indices <->
                    exists x, sites !! i = Some x /\
                              faviconMatches isNotURL normalizeUrl loc x = true) as Hind.
  { intros i. unfold indices. rewrite foldi_indices. split.
    - intros [Hi|(k & x & -> & Hx & Hp)]; [by apply elem_of_nil in Hi|]. by exists x.
    - intros (x & Hx & Hp). right. by exists i, x. }
  assert (fold_left (fun updated index => alter (set_favicon fav) index updated)
                    indices sites !! j
          = (fun s => if faviconMatches isNotURL normalizeUrl loc s
                      then set_favicon fav s else s) <$> sites !! j) as Hfold.
  { rewrite fold_left_alter_lookup; [|done].
    destruct (sites !! j) as [s|] eqn:Hs; simpl.
    - destruct (faviconMatches isNotURL normalizeUrl loc s) eqn:Hm.
      + rewrite bool_decide_eq_true_2; [done|]. apply Hind. by exists s.
      + rewrite bool_decide_eq_false_2; [done|]. intros Hin.
        apply Hind in Hin as (x & Hx & Hp). congruence.
    - by destruct (bool_decide _). }
  destruct (length indices =? 0)%nat eqn:Hlen; [|done].
  apply Nat.eqb_eq in Hlen. destruct indices; [|done]. exact Hfold.
Qed.

(** X18: [updateSiteFavicon] keeps the length of the list and changes
    nothing but favicons: every entry is either unchanged or has its
    favicon replaced, folders are never touched, and when the location is
    not a URL the list is unchanged. *)
Theorem updateSiteFavicon_frame (sites : list site) (loc : string) (fav : option string) :
  length (updateSiteFavicon isNotURL normalizeUrl sites loc fav) = length sites /\
  (forall j s, sites !! j = Some s ->
     (updateSiteFavicon isNotURL normalizeUrl sites loc fav !! j = Some s \/
      updateSiteFavicon isNotURL normalizeUrl sites loc fav !! j
        = Some (set_favicon fav s)) /\
     (isBookmarkFolder (TagList (tags s)) = true ->
      updateSiteFavicon isNotURL normalizeUrl sites loc fav !! j = Some s)) /\
  (isNotURL (Some loc) = true ->
   updateSiteFavicon isNotURL normalizeUrl sites loc fav = sites).
Proof.
  split; [|split].
  - unfold updateSiteFavicon. destruct (isNotURL (Some loc)); [done|].
    destruct (_ =? _)%nat; [done|]. apply fold_left_alter_length.
  - intros j s Hs. rewrite updateSiteFavicon_lookup, Hs.
    cbn [fmap option_fmap option_map]. split.
    + destruct (_ && _); [by right|by left].
    + intros Hf. unfold faviconMatches. rewrite Hf. by rewrite andb_false_r.
  - intros Hn. unfold updateSiteFavicon. by rewrite Hn.
Qed.

(** X19: when the location is a URL, [updateSiteFavicon] sets the favicon
    of every entry that is not a folder and whose location is that same
    string. *)
Theorem updateSiteFavicon_same_location (sites : list site) (loc : string)
    (fav : option string) (j : nat) (s : site) :
  isNotURL (Some loc) = false ->
  sites !! j = Some s ->
  isBookmarkFolder (TagList (tags s)) = false ->
  location s = Some loc ->
  updateSiteFavicon isNotURL normalizeUrl sites loc fav !! j = Some (set_favicon fav s) /\
  favicon (set_favicon fav s) = fav.
Proof.
  intros Hurl Hs Hf Hloc. split; [|done].
  rewrite updateSiteFavicon_lookup, Hs. cbn [fmap option_fmap option_map].
  unfold faviconMatches. rewrite Hf, Hloc, Hurl. by rewrite strict_eq_str_refl.
Qed.

End Favicons.

Lemma updateSiteFavicon_frame_witness :
  updateSiteFavicon sampleIsNotURL sampleNormalizeUrl sampleBookmarkTree
    "https://a.example" (Some "a.ico"%string) !! 0%nat
  = Some (sampleFolder 1 "news" None) /\
  updateSiteFavicon sampleIsNotURL sampleNormalizeUrl sampleBookmarkTree
    "about:blank" (Some "a.ico"%string) = sampleBookmarkTree.
Proof.
  destruct (updateSiteFavicon_frame sampleIsNotURL sampleNormalizeUrl sampleBookmarkTree
              "https://a.example" (Some "a.ico"%string)) as (_ & H & _).
  destruct (updateSiteFavicon_frame sampleIsNotURL sampleNormalizeUrl sampleBookmarkTree
              "about:blank" (Some "a.ico"%string)) as (_ & _ & H').
  split.
  - apply (H 0%nat (sampleFolder 1 "news" None)); reflexivity.
  - apply H'. reflexivity.
Defined.

Lemma updateSiteFavicon_same_location_witness :
  updateSiteFavicon sampleIsNotURL sampleNormalizeUrl sampleBookmarkTree
    "https://b.example/" (Some "b.ico"%string) !! 2%nat
  = Some (set_favicon (Some "b.ico"%string) (sampleBookmark "https://b.example/" (Some 1))) /\
  favicon (set_favicon (Some "b.ico"%string) (sampleBookmark "https://b.example/" (Some 1)))
  = Some "b.ico"%string.
Proof.
  apply (updateSiteFavicon_same_location sampleIsNotURL sampleNormalizeUrl
           sampleBookmarkTree "https://b.example/" (Some "b.ico"%string) 2
           (sampleBookmark "https://b.example/" (Some 1))); reflexivity.
Defined.

(** ** The folder listing *)

Lemma getFolders_unfold (fuel : nat) (sites : list site) (excl parentId : option Z)
    (prefix : option string) :
  getFolders (S fuel) sites excl parentId prefix =
  fold_left (getFolders_visit (getFolders fuel sites excl) excl (or0 parentId) prefix)
            sites (Some []).
Proof. reflexivity. Qed.

(** X20: whatever [getFolders] returns, every item of the listing comes
    from a folder record of the list, with that record's [folderId] and
    [parentFolderId], and never from the folder that was to be left out. *)
Theorem getFolders_sound (fuel : nat) (sites : list site) (excl parentId : option Z)
    (prefix : option string) (items : list folderItem) :
  getFolders fuel sites excl parentId prefix = Some items ->
  forall it, it ∈ items ->
    exists s, s ∈ sites /\ isFolder (Some s) = true /\
              item_folderId it = folderId s /\
              item_parentFolderId it = parentFolderId s /\
              folderId s <> excl.
Proof.
  revert parentId prefix items.
  induction fuel as [|fuel IH]; intros parentId prefix items; [done|].
  rewrite getFolders_unfold.
  set (P := fun it : folderItem =>
              exists s, s ∈ sites /\ isFolder (Some s) = true /\
                        item_folderId it = folderId s /\
                        item_parentFolderId it = parentFolderId s /\
                        folderId s <> excl).
  set (Q := fun acc : option (list folderItem) =>
              forall l, acc = Some l -> forall it, it ∈ l -> P it).
  intros H.
  assert (Q (fold_left
               (getFolders_visit (getFolders fuel sites excl) excl (or0 parentId) prefix)
               sites (Some []))) as HQ; [|by apply (HQ items)].
  clear H. apply (fold_left_inv Q).
  - intros l [= <-] it Hit. by apply elem_of_nil in Hit.
  - intros acc x Hx Hacc l. unfold getFolders_visit.
    destruct acc as [folders|]; [|done].
    destruct ((or0 (parentFolderId x) =? or0 parentId) && isFolder (Some x)) eqn:Hc;
      [|by apply Hacc].
    apply andb_prop in Hc as [_ Hfolder].
    destruct (strict_eq_num (folderId x) excl) eqn:Hex; [by apply Hacc|].
    destruct (getFolders fuel sites excl (folderId x) _) as [subsites|] eqn:Hrec; [|done].
    intros [= <-] it Hit.
    apply elem_of_app in Hit as [Hit|Hit]; [apply elem_of_app in Hit as [Hit|Hit]|].
    + by apply (Hacc folders).
    + apply list_elem_of_singleton in Hit as ->. exists x. repeat split; try done.
      intros Heq. apply strict_eq_num_eq in Heq. congruence.
    + by apply (IH _ _ _ Hrec).
Qed.

Lemma getFolders_sound_witness :
  exists s, s ∈ sampleChain /\ isFolder (Some s) = true /\
            item_folderId (mkFolderItem (Some 2) (Some 1) "A / B") = folderId s /\
            item_parentFolderId (mkFolderItem (Some 2) (Some 1) "A / B")
              = parentFolderId s /\
            folderId s <> Some 3.
Proof.
  apply (getFolders_sound 4 sampleChain (Some 3) None None
           [mkFolderItem (Some 1) (Some 0) "A"; mkFolderItem (Some 2) (Some 1) "A / B"]);
    [reflexivity|].
  right. by left.
Defined.

(** X21: [getFolders] returns whenever the folders can be ranked so that
    each listed folder ranks above the folders listed inside it (the tree
    has no cycle): [n + 1] calls deep are enough when the folders listed
    first rank below [n]. *)
Theorem getFolders_returns (rank : site -> nat) (sites : list site) (excl : option Z) :
  (forall s c, s ∈ sites -> c ∈ sites ->
               isFolder (Some s) = true -> isFolder (Some c) = true ->
               or0 (parentFolderId c) = or0 (folderId s) ->
               folderId c <> excl ->
               (rank c < rank s)%nat) ->
  forall (n : nat) (parentId : option Z) (prefix : option string),
    (forall c, c ∈ sites -> isFolder (Some c) = true ->
               or0 (parentFolderId c) = or0 parentId -> folderId c <> excl ->
               (rank c < n)%nat) ->
    is_Some (getFolders (S n) sites excl parentId prefix).
Proof.
  intros Hrank n. induction n as [|n IH]; intros parentId prefix Htop;
    rewrite getFolders_unfold; apply (fold_left_inv is_Some); try by eexists.
  - intros acc x Hx [folders ->]. unfold getFolders_visit.
    destruct ((or0 (parentFolderId x) =? or0 parentId) && isFolder (Some x)) eqn:Hc;
      [|by eexists].
    apply andb_prop in Hc as [Hp Hfolder]. apply Z.eqb_eq in Hp.
    destruct (strict_eq_num (folderId x) excl) eqn:Hex; [by eexists|].
    assert (folderId x <> excl) as Hne.
    { intros Heq. apply strict_eq_num_eq in Heq. congruence. }
    specialize (Htop x Hx Hfolder Hp Hne). lia.
  - intros acc x Hx [folders ->]. unfold getFolders_visit.
    destruct ((or0 (parentFolderId x) =? or0 parentId) && isFolder (Some x)) eqn:Hc;
      [|by eexists].
    apply andb_prop in Hc as [Hp Hfolder]. apply Z.eqb_eq in Hp.
    destruct (strict_eq_num (folderId x) excl) eqn:Hex; [by eexists|].
    assert (folderId x <> excl) as Hne.
    { intros Heq. apply strict_eq_num_eq in Heq. congruence. }
    specialize (Htop x Hx Hfolder Hp Hne).
    destruct (IH (folderId x)
                 (Some (String.append
                          (concat_value (default EmptyString prefix)
                             (if truthy_str (customTitle x) then customTitle x else title x))
                          " / "))) as [subsites ->]; [|by eexists].
    intros c Hc Hcf Hcp Hcne. specialize (Hrank x c Hx Hc Hfolder Hcf Hcp Hcne). lia.
Qed.

Lemma getFolders_returns_witness :
  is_Some (getFolders 4 sampleChain None None None).
Proof.
  apply (getFolders_returns (fun s => Z.to_nat (3 - or0 (folderId s))) sampleChain None).
  - intros s c Hs Hc _ _ Hp _. unfold sampleChain in Hs, Hc.
    elem_of_cases Hs; elem_of_cases Hc; vm_compute in Hp;
      first [discriminate Hp | vm_compute; lia].
  - intros c Hc _ _ _. unfold sampleChain in Hc. elem_of_cases Hc; vm_compute; lia.
Defined.

Lemma getFolders_visit_fold
    (rec : option Z -> option string -> option (list folderItem))
    (excl : option Z) (parentId : Z) (prefix : option string)
    (l : list site) (acc : option (list folderItem)) (items : list folderItem) :
  fold_left (getFolders_visit rec excl parentId prefix) l acc = Some items ->
  exists acc0, acc = Some acc0 /\
    (forall it, it ∈ acc0 -> it ∈ items) /\
    forall s, s ∈ l -> isFolder (Some s) = true ->
      or0 (parentFolderId s) = parentId -> folderId s <> excl ->
      mkFolderItem (folderId s) (parentFolderId s)
        (concat_value (default EmptyString prefix)
           (if truthy_str (customTitle s) then customTitle s else title s)) ∈ items.
Proof.
  revert acc. induction l as [|x l IH]; intros acc; simpl.
  - intros ->. exists items. repeat split; [done|]. intros s Hs. by apply elem_of_nil in Hs.
  - intros H. destruct (IH _ H) as (acc1 & Hacc1 & Hsub & Hrest).
    destruct acc as [acc0|]; [|done]. exists acc0. split; [done|].
    unfold getFolders_visit in Hacc1.
    destruct ((or0 (parentFolderId x) =? parentId) && isFolder (Some x)) eqn:Hc.
    + apply andb_prop in Hc as [Hp Hfolder].
      destruct (strict_eq_num (folderId x) excl) eqn:Hex.
      * injection Hacc1 as <-. split; [done|]. intros s Hs Hsf Hsp Hsne.
        apply elem_of_cons in Hs as [->|Hs]; [|by apply Hrest].
        apply strict_eq_num_eq in Hex. done.
      * destruct (rec (folderId x) _) as [subsites|]; [|done].
        injection Hacc1 as <-. split.
        -- intros it Hit. apply Hsub. apply elem_of_app. left. apply elem_of_app. by left.
        -- intros s Hs Hsf Hsp Hsne.
           apply elem_of_cons in Hs as [->|Hs]; [|by apply Hrest].
           apply Hsub. apply elem_of_app. left. apply elem_of_app. right.
           by apply list_elem_of_singleton.
    + injection Hacc1 as <-. split; [done|]. intros s Hs Hsf Hsp Hsne.
      apply elem_of_cons in Hs as [->|Hs]; [|by apply Hrest].
      apply andb_false_iff in Hc as [Hc|Hc]; [apply Z.eqb_neq in Hc; done|].
      unfold isFolder, isBookmarkFolder in *. congruence.
Qed.

(** X22: whatever [getFolders] returns, the listing holds an item for
    every folder record that lies directly in the folder asked for (a
    missing [parentFolderId] counting as 0) and is not the one left out;
    the item's label is the prefix followed by the [customTitle] or, when
    that is missing or empty, the [title]. *)
Theorem getFolders_lists_children (fuel : nat) (sites : list site)
    (excl parentId : option Z) (prefix : option string) (items : list folderItem)
    (s : site) :
  getFolders fuel sites excl parentId prefix = Some items ->
  s ∈ sites -> isFolder (Some s) = true ->
  or0 (parentFolderId s) = or0 parentId ->
  folderId s <> excl ->
  mkFolderItem (folderId s) (parentFolderId s)
    (concat_value (default EmptyString prefix)
       (if truthy_str (customTitle s) then customTitle s else title s)) ∈ items.
Proof.
  destruct fuel as [|fuel]; [done|]. rewrite getFolders_unfold. intros H Hs Hf Hp Hne.
  destruct (getFolders_visit_fold _ _ _ _ _ _ _ H) as (acc0 & _ & _ & Hall).
  by apply Hall.
Qed.

Lemma getFolders_lists_children_witness :
  mkFolderItem (Some 1) (Some 0) "A" ∈
    [mkFolderItem (Some 1) (Some 0) "A"; mkFolderItem (Some 2) (Some 1) "A / B"].
Proof.
  apply (getFolders_lists_children 4 sampleChain (Some 3) None None _
           (sampleFolder 1 "A" (Some 0))); try reflexivity; try discriminate.
  unfold sampleChain. by left.
Defined.

(** ** Moving *)

Lemma list_get_of_nat (l : list site) (i : nat) :
  (i < length l)%nat -> list_get l (Z.of_nat i) = l !! i.
Proof.
  intros Hi. unfold list_get.
  destruct (Z.of_nat i <? 0) eqn:E; [apply Z.ltb_lt in E; lia|].
  destruct (0 <=? Z.of_nat i) eqn:E1; [|apply Z.leb_gt in E1; lia].
  destruct (Z.of_nat i <? Z.of_nat (length l)) eqn:E2; [|apply Z.ltb_ge in E2; lia].
  simpl. by rewrite Nat2Z.id.
Qed.

Lemma list_get_is_Some (l : list site) (i : Z) :
  l <> [] -> -1 <= i < Z.of_nat (length l) -> is_Some (list_get l i).
Proof.
  intros Hl Hi. assert (0 < length l)%nat by (destruct l; [done|simpl; lia]).
  unfold list_get. destruct (i <? 0) eqn:E.
  - apply Z.ltb_lt in E. assert (i = -1) as -> by lia.
    destruct (0 <=? _) eqn:E1; [|apply Z.leb_gt in E1; lia].
    destruct (_ <? _) eqn:E2; [|apply Z.ltb_ge in E2; lia].
    simpl. apply lookup_lt_is_Some. lia.
  - apply Z.ltb_ge in E.
    destruct (0 <=? i) eqn:E1; [|apply Z.leb_gt in E1; lia].
    destruct (i <? _) eqn:E2; [|apply Z.ltb_ge in E2; lia].
    simpl. apply lookup_lt_is_Some. lia.
Qed.

Lemma resolveBegin_le (index : Z) (size : nat) : (resolveBegin index size <= size)%nat.
Proof.
  unfold resolveBegin. destruct (index <? 0) eqn:E; [apply Z.ltb_lt in E|]; lia.
Qed.

Lemma resolveBegin_of_nat (k size : nat) :
  (k <= size)%nat -> resolveBegin (Z.of_nat k) size = k.
Proof.
  intros Hk. unfold resolveBegin.
  destruct (Z.of_nat k <? 0) eqn:E; [apply Z.ltb_lt in E; lia|lia].
Qed.

Lemma splice_remove_of_nat (l : list site) (s : nat) :
  (s < length l)%nat -> splice_remove (Z.of_nat s) l = delete s l.
Proof.
  intros Hs. unfold splice_remove. rewrite resolveBegin_of_nat; [|lia].
  rewrite delete_take_drop. do 2 f_equal. lia.
Qed.

(** The list with [x] put in at position [b]. *)
Lemma lookup_inserted (l : list site) (x : site) (b : nat) :
  (b <= length l)%nat ->
  (take b l ++ [x] ++ drop b l) !! b = Some x /\
  delete b (take b l ++ [x] ++ drop b l) = l /\
  length (take b l ++ [x] ++ drop b l) = S (length l) /\
  (forall j, (j < b)%nat -> (take b l ++ [x] ++ drop b l) !! j = l !! j) /\
  (forall j, (b <= j)%nat -> (take b l ++ [x] ++ drop b l) !! S j = l !! j).
Proof.
  intros Hb. assert (length (take b l) = b) as Hlen by (rewrite length_take; lia).
  change ([x] ++ drop b l) with (x :: drop b l).
  split; [|split; [|split; [|split]]].
  - rewrite lookup_app_r; [|lia]. rewrite Hlen, Nat.sub_diag. done.
  - rewrite <- Hlen at 1. rewrite delete_middle. apply take_drop.
  - rewrite length_app, Hlen. simpl. rewrite length_drop. lia.
  - intros j Hj. rewrite lookup_app_l; [|lia]. by apply lookup_take_lt.
  - intros j Hj. rewrite lookup_app_r; [|lia]. rewrite Hlen.
    replace (S j - b)%nat with (S (j - b)) by lia. simpl.
    rewrite lookup_drop. f_equal. lia.
Qed.

Lemma set_parentFolderId_same (e : site) (v : option Z) :
  set_parentFolderId (parentFolderId (set_parentFolderId v e)) e = set_parentFolderId v e.
Proof. done. Qed.

Lemma set_parentFolderId_id (e : site) : set_parentFolderId (parentFolderId e) e = e.
Proof. by destruct e. Qed.

Lemma reparent_only_parent (dp : bool) (dest destSite e : site) :
  set_parentFolderId (parentFolderId (reparent dp dest destSite e)) e
  = reparent dp dest destSite e.
Proof.
  unfold reparent.
  repeat (match goal with |- context [if ?c then _ else _] => destruct c end);
    first [apply set_parentFolderId_same | apply set_parentFolderId_id].
Qed.

Lemma moveSite_found (fuel : nat) (sites : list site) (src dest : site)
    (prepend dp dr : bool) (s : nat) (e : site) :
  isMoveAllowed fuel sites src dest = Some true ->
  getSiteIndex (Some sites) (Some src) (TagList (tags src)) = Some s ->
  sites !! s = Some e ->
  exists destSite,
    list_get sites (if dp then Z.of_nat (length sites) - 1
                    else indexZ (getSiteIndex (Some sites) (Some dest)
                                   (TagList (tags dest)))) = Some destSite /\
    moveSite fuel sites src dest prepend dp dr =
    Returns (splice_insert
               (moveSite_newIndex
                  (if dp then Z.of_nat (length sites) - 1
                   else indexZ (getSiteIndex (Some sites) (Some dest)
                                  (TagList (tags dest))))
                  (Z.of_nat s) (if dp then false else prepend))
               (if dr then e else reparent dp dest destSite e)
               (delete s sites)).
Proof.
  intros Hallowed Hs He. pose proof (lookup_lt_Some _ _ _ He) as Hlt.
  assert (sites <> []) as Hne by (intros ->; simpl in Hlt; lia).
  set (di := if dp then Z.of_nat (length sites) - 1
             else indexZ (getSiteIndex (Some sites) (Some dest) (TagList (tags dest)))).
  destruct (list_get_is_Some sites di Hne) as [destSite Hd].
  { unfold di. destruct dp; [lia|].
    destruct (getSiteIndex (Some sites) (Some dest) (TagList (tags dest)))
      as [d|] eqn:Hdi; simpl; [|lia].
    destruct (getSiteIndex_lookup _ _ _ _ Hdi) as [x Hx].
    apply lookup_lt_Some in Hx. lia. }
  exists destSite. split; [done|].
  unfold moveSite. rewrite Hallowed, Hs. cbn [indexZ]. fold di.
  rewrite (list_get_of_nat sites s Hlt), He, Hd.
  rewrite (splice_remove_of_nat sites s Hlt). done.
Qed.

Lemma splice_insert_of_nat (l : list site) (x : site) (b : nat) :
  (b <= length l)%nat ->
  splice_insert (Z.of_nat b) x l = take b l ++ [x] ++ drop b l.
Proof. intros Hb. unfold splice_insert. by rewrite resolveBegin_of_nat. Qed.

(** X23: an allowed move whose source is found relocates that one record
    and nothing else: the result has the length of the list, taking the
    moved record out of the result gives the list without the source, and
    the moved record differs from the source at most in [parentFolderId]
    (not at all when re-parenting is disallowed). *)
Theorem moveSite_relocates (fuel : nat) (sites : list site) (src dest : site)
    (prepend dp dr : bool) (s : nat) (e : site) :
  isMoveAllowed fuel sites src dest = Some true ->
  getSiteIndex (Some sites) (Some src) (TagList (tags src)) = Some s ->
  sites !! s = Some e ->
  exists result k e',
    moveSite fuel sites src dest prepend dp dr = Returns result /\
    result !! k = Some e' /\
    delete k result = delete s sites /\
    length result = length sites /\
    e' = set_parentFolderId (parentFolderId e') e /\
    (dr = true -> e' = e).
Proof.
  intros Hallowed Hs He. pose proof (lookup_lt_Some _ _ _ He) as Hlt.
  destruct (moveSite_found fuel sites src dest prepend dp dr s e Hallowed Hs He)
    as (destSite & _ & ->).
  set (idx := moveSite_newIndex _ _ _).
  set (e' := if dr then e else reparent dp dest destSite e).
  unfold splice_insert.
  pose proof (resolveBegin_le idx (length (delete s sites))) as Hb.
  destruct (lookup_inserted (delete s sites) e' _ Hb) as (Hat & Hdel & Hlen & _).
  eexists _, _, e'. split; [done|]. split; [exact Hat|]. split; [exact Hdel|].
  split; [rewrite Hlen, length_delete; [lia|by eexists]|].
  unfold e'. destruct dr.
  - split; [by rewrite set_parentFolderId_id|done].
  - split; [by rewrite reparent_only_parent|done].
Qed.

Lemma moveSite_relocates_witness :
  exists result k e',
    moveSite 1 sampleChain (sampleFolder 3 "C" (Some 2)) (sampleFolder 1 "A" (Some 0))
      true false false = Returns result /\
    result !! k = Some e' /\
    delete k result = delete 2%nat sampleChain /\
    length result = length sampleChain /\
    e' = set_parentFolderId (parentFolderId e') (sampleFolder 3 "C" (Some 2)) /\
    (false = true -> e' = sampleFolder 3 "C" (Some 2)).
Proof.
  apply (moveSite_relocates 1 sampleChain (sampleFolder 3 "C" (Some 2))
           (sampleFolder 1 "A" (Some 0)) true false false 2
           (sampleFolder 3 "C" (Some 2))); reflexivity.
Defined.

Lemma moveSite_parent_result (fuel : nat) (sites : list site) (src dest : site)
    (prepend dr : bool) (s : nat) (e : site) :
  isMoveAllowed fuel sites src dest = Some true ->
  getSiteIndex (Some sites) (Some src) (TagList (tags src)) = Some s ->
  sites !! s = Some e ->
  exists e',
    moveSite fuel sites src dest prepend true dr = Returns (delete s sites ++ [e']) /\
    (dr = true -> e' = e) /\
    (dr = false -> folderId dest <> folderId e ->
     e' = set_parentFolderId (folderId dest) e).
Proof.
  intros Hallowed Hs He. pose proof (lookup_lt_Some _ _ _ He) as Hlt.
  destruct (moveSite_found fuel sites src dest prepend true dr s e Hallowed Hs He)
    as (destSite & _ & ->).
  exists (if dr then e else reparent true dest destSite e). split.
  - f_equal. unfold moveSite_newIndex.
    destruct (_ >? _) eqn:E; [|rewrite Z.gtb_ltb in E; apply Z.ltb_ge in E; lia].
    assert (length (delete s sites) = (length sites - 1)%nat) as Hlen.
    { rewrite length_delete; [done|by eexists]. }
    replace (Z.of_nat (length sites) - 1 + 1 - 1) with (Z.of_nat (length (delete s sites)))
      by lia.
    rewrite splice_insert_of_nat; [|done].
    rewrite take_ge, drop_ge; [|done..]. by rewrite app_nil_r.
  - split; [by intros ->|]. intros -> Hne. unfold reparent.
    destruct (strict_eq_num (folderId dest) (folderId e)) eqn:E; [|done].
    by apply strict_eq_num_eq in E.
Qed.

(** X24: an allowed move with [destinationIsParent] puts the source at the
    end of the list, whatever [prepend] says; unless re-parenting is
    disallowed, its [parentFolderId] becomes the destination's [folderId]
    when that differs from the source's own [folderId]. *)
Theorem moveSite_into_folder (fuel : nat) (sites : list site) (src dest : site)
    (prepend dr : bool) (s : nat) (e : site) :
  isMoveAllowed fuel sites src dest = Some true ->
  getSiteIndex (Some sites) (Some src) (TagList (tags src)) = Some s ->
  sites !! s = Some e ->
  exists e',
    moveSite fuel sites src dest prepend true dr = Returns (delete s sites ++ [e']) /\
    (dr = true -> e' = e) /\
    (dr = false -> folderId dest <> folderId e ->
     e' = set_parentFolderId (folderId dest) e).
Proof. apply moveSite_parent_result. Qed.

Lemma moveSite_into_folder_witness :
  exists e',
    moveSite 0 sampleBookmarkTree (sampleBookmark "https://a.example/" (Some 1))
      (sampleNewFolder (Some 8) "other") true true false
    = Returns (delete 1%nat sampleBookmarkTree ++ [e']) /\
    (false = true -> e' = sampleBookmark "https://a.example/" (Some 1)) /\
    (false = false ->
     folderId (sampleNewFolder (Some 8) "other")
       <> folderId (sampleBookmark "https://a.example/" (Some 1)) ->
     e' = set_parentFolderId (folderId (sampleNewFolder (Some 8) "other"))
            (sampleBookmark "https://a.example/" (Some 1))).
Proof.
  apply (moveSite_into_folder 0 sampleBookmarkTree
           (sampleBookmark "https://a.example/" (Some 1))
           (sampleNewFolder (Some 8) "other") true false 1
           (sampleBookmark "https://a.example/" (Some 1))); reflexivity.
Defined.

(** X25: an allowed move beside a destination that is found elsewhere in
    the list puts the source directly before the destination's entry when
    [prepend] is set and directly after it otherwise; unless re-parenting
    is disallowed, the moved record takes the [parentFolderId] of the
    destination's entry (none when that is missing or 0). *)
Theorem moveSite_beside (fuel : nat) (sites : list site) (src dest : site)
    (prepend dr : bool) (s d : nat) (e de : site) :
  isMoveAllowed fuel sites src dest = Some true ->
  getSiteIndex (Some sites) (Some src) (TagList (tags src)) = Some s ->
  getSiteIndex (Some sites) (Some dest) (TagList (tags dest)) = Some d ->
  s <> d ->
  sites !! s = Some e -> sites !! d = Some de ->
  exists result k e',
    moveSite fuel sites src dest prepend false dr = Returns result /\
    (if prepend then result !! k = Some e' /\ result !! S k = Some de
     else result !! k = Some de /\ result !! S k = Some e') /\
    e' = set_parentFolderId (parentFolderId e') e /\
    (dr = false ->
     parentFolderId e' =
       if truthy_num (parentFolderId de) then parentFolderId de else None).
Proof.
  intros Hallowed Hs Hd Hsd He Hde.
  pose proof (lookup_lt_Some _ _ _ He) as Hlts.
  pose proof (lookup_lt_Some _ _ _ Hde) as Hltd.
  destruct (moveSite_found fuel sites src dest prepend false dr s e Hallowed Hs He)
    as (destSite & Hdest & ->).
  rewrite Hd in *. cbn [indexZ] in *.
  rewrite (list_get_of_nat sites d Hltd), Hde in Hdest. injection Hdest as <-.
  set (e' := if dr then e else reparent false dest de e).
  assert (length (delete s sites) = (length sites - 1)%nat) as Hlen.
  { rewrite length_delete; [done|by eexists]. }
  assert (exists b,
            moveSite_newIndex (Z.of_nat d) (Z.of_nat s) prepend = Z.of_nat b /\
            (b <= length (delete s sites))%nat /\
            if prepend then (b = d /\ d < s)%nat \/ (S b = d /\ s < d)%nat
            else (b = S d /\ d < s)%nat \/ (b = d /\ s < d)%nat) as (b & -> & Hb & Hcase).
  { unfold moveSite_newIndex.
    destruct prepend; destruct (_ >? _) eqn:E; rewrite Z.gtb_ltb in E;
      [apply Z.ltb_lt in E|apply Z.ltb_ge in E|apply Z.ltb_lt in E|apply Z.ltb_ge in E].
    - exists (d - 1)%nat. split; [lia|]. split; [lia|]. right. lia.
    - exists d. split; [lia|]. split; [lia|]. left. lia.
    - exists d. split; [lia|]. split; [lia|]. right. lia.
    - exists (S d). split; [lia|]. split; [lia|]. left. lia. }
  rewrite (splice_insert_of_nat _ e' b Hb).
  destruct (lookup_inserted (delete s sites) e' b Hb) as (Hat & _ & _ & Hbefore & Hafter).
  assert (e' = set_parentFolderId (parentFolderId e') e /\
          (dr = false ->
           parentFolderId e' =
             if truthy_num (parentFolderId de) then parentFolderId de else None))
    as [He1 He2].
  { unfold e'. destruct dr.
    - split; [by rewrite set_parentFolderId_id|done].
    - split; [by rewrite reparent_only_parent|]. intros _. unfold reparent. simpl.
      destruct (truthy_num (parentFolderId de)); simpl; [|done].
      destruct (strict_eq_num (parentFolderId de) (parentFolderId e)) eqn:E; simpl; [|done].
      by apply strict_eq_num_eq in E. }
  destruct prepend.
  - exists (take b (delete s sites) ++ [e'] ++ drop b (delete s sites)), b, e'.
    split; [done|]. split; [|done]. split; [exact Hat|].
    rewrite Hafter; [|lia]. destruct Hcase as [[-> Hlt]|[<- Hlt]].
    + by rewrite list_lookup_delete_lt.
    + by rewrite list_lookup_delete_ge; [|lia].
  - destruct Hcase as [[-> Hlt]|[-> Hlt]].
    + exists (take (S d) (delete s sites) ++ [e'] ++ drop (S d) (delete s sites)), d, e'.
      split; [done|]. split; [|done]. split; [|exact Hat].
      rewrite Hbefore; [|lia]. by rewrite list_lookup_delete_lt.
    + destruct d as [|d']; [lia|].
      exists (take (S d') (delete s sites) ++ [e'] ++ drop (S d') (delete s sites)), d', e'.
      split; [done|]. split; [|done]. split; [|exact Hat].
      rewrite Hbefore; [|lia]. by rewrite list_lookup_delete_ge; [|lia].
Qed.

Lemma moveSite_beside_witness :
  exists result k e',
    moveSite 0 sampleBookmarkTree (sampleBookmark "https://b.example/" (Some 1))
      (sampleBookmark "https://a.example/" (Some 1)) true false false = Returns result /\
    (result !! k = Some e' /\
     result !! S k = Some (sampleBookmark "https://a.example/" (Some 1))) /\
    e' = set_parentFolderId (parentFolderId e')
           (sampleBookmark "https://b.example/" (Some 1)) /\
    (false = false ->
     parentFolderId e' =
       if truthy_num (parentFolderId (sampleBookmark "https://a.example/" (Some 1)))
       then parentFolderId (sampleBookmark "https://a.example/" (Some 1)) else None).
Proof.
  apply (moveSite_beside 0 sampleBookmarkTree
           (sampleBookmark "https://b.example/" (Some 1))
           (sampleBookmark "https://a.example/" (Some 1)) true false 2 1
           (sampleBookmark "https://b.example/" (Some 1))
           (sampleBookmark "https://a.example/" (Some 1)));
    first [reflexivity | discriminate].
Defined.

(** X26: after an allowed move into a folder with a non-zero [folderId]
    (re-parenting not disallowed, the source not being that folder), the
    moved record is the last entry of the list and is among the entries
    that [filterSitesRelativeTo] returns for the folder. *)
Theorem moveSite_then_filterSitesRelativeTo (fuel : nat) (sites : list site)
    (src dest : site) (prepend : bool) (s : nat) (e : site) :
  isMoveAllowed fuel sites src dest = Some true ->
  getSiteIndex (Some sites) (Some src) (TagList (tags src)) = Some s ->
  sites !! s = Some e ->
  truthy_num (folderId dest) = true ->
  folderId dest <> folderId e ->
  exists result e',
    moveSite fuel sites src dest prepend true false = Returns result /\
    last result = Some e' /\
    e' ∈ filterSitesRelativeTo result dest /\
    e' = set_parentFolderId (folderId dest) e.
Proof.
  intros Hallowed Hs He Hf Hne.
  destruct (moveSite_parent_result fuel sites src dest prepend false s e Hallowed Hs He)
    as (e' & -> & _ & He').
  specialize (He' eq_refl Hne). subst e'.
  eexists _, _. split; [done|]. split; [apply last_snoc|]. split; [|done].
  unfold filterSitesRelativeTo. rewrite Hf. simpl.
  apply elem_of_List_filter. split.
  - apply elem_of_app. right. by apply list_elem_of_singleton.
  - apply strict_eq_num_refl.
Qed.

Lemma moveSite_then_filterSitesRelativeTo_witness :
  exists result e',
    moveSite 0 sampleBookmarkTree (sampleBookmark "https://a.example/" (Some 1))
      (sampleNewFolder (Some 8) "other") false true false = Returns result /\
    last result = Some e' /\
    e' ∈ filterSitesRelativeTo result (sampleNewFolder (Some 8) "other") /\
    e' = set_parentFolderId (folderId (sampleNewFolder (Some 8) "other"))
           (sampleBookmark "https://a.example/" (Some 1)).
Proof.
  apply (moveSite_then_filterSitesRelativeTo 0 sampleBookmarkTree
           (sampleBookmark "https://a.example/" (Some 1))
           (sampleNewFolder (Some 8) "other") false 1
           (sampleBookmark "https://a.example/" (Some 1)));
    first [reflexivity | discriminate].
Defined.

(** ** Tags kept by an add *)

(** X27: an add with a tag other than the folder tag (location not empty)
    leaves an entry whose tags are exactly the tags of the entry found
    before, if any, together with the tag: no tag is lost. *)
Theorem addSite_tags (fuel : nat) (now : Z) (sites : list site) (r : site) (t : siteTag) :
  t <> BOOKMARK_FOLDER ->
  location r <> Some EmptyString ->
  exists sites' i e,
    addSite fuel now sites r (Some t) None = Some sites' /\
    getSiteIndex (Some sites') (Some r) (TagStr t) = Some i /\
    sites' !! i = Some e /\
    forall u, u ∈ tags e <->
      u = t \/
      exists k old, getSiteIndex (Some sites) (Some r) (TagStr t) = Some k /\
                    sites !! k = Some old /\ u ∈ tags old.
Proof.
  intros Ht Hloc.
  assert (isBookmarkFolder (TagStr t) = false) as Hf.
  { simpl. destruct (tag_eqb t BOOKMARK_FOLDER) eqn:E; [|done]. by apply tag_eqb_eq in E. }
  destruct (addSite_entry fuel now sites r (Some t) Hf Hloc)
    as (sites' & i & Hadd & Hi & He & _).
  eexists sites', i, _. split; [done|].
  split; [by rewrite (getSiteIndex_not_folder sites' r (TagStr t) Hf)|].
  split; [exact He|]. intros u.
  rewrite (getSiteIndex_not_folder sites r (TagStr t) Hf).
  cbn [mergeSiteDetails tags defaultTag]. rewrite elem_of_tagsAdd.
  destruct (findIndex (sameIdentity r) sites) as [k|]; simpl.
  - destruct (sites !! k) as [old|] eqn:Hk; simpl.
    + split; [intros [?|?]; [by left|right; by exists k, old]|].
      intros [?|(k' & old' & [= <-] & Ho & Hu)]; [by left|].
      rewrite Hk in Ho. injection Ho as <-. by right.
    + split; [intros [?|Hu]; [by left|by apply elem_of_nil in Hu]|].
      intros [?|(k' & old' & [= <-] & Ho & Hu)]; [by left|]. congruence.
  - split; [intros [?|Hu]; [by left|by apply elem_of_nil in Hu]|].
    intros [?|(k' & old' & Hk' & _)]; [by left|done].
Qed.

Lemma addSite_tags_witness :
  exists sites' i e,
    addSite 0 1000 sampleBookmarkTree (sampleHistory "https://a.example/" 0 None)
      (Some PINNED) None = Some sites' /\
    getSiteIndex (Some sites') (Some (sampleHistory "https://a.example/" 0 None))
      (TagStr PINNED) = Some i /\
    sites' !! i = Some e /\
    forall u, u ∈ tags e <->
      u = PINNED \/
      exists k old,
        getSiteIndex (Some sampleBookmarkTree)
          (Some (sampleHistory "https://a.example/" 0 None)) (TagStr PINNED) = Some k /\
        sampleBookmarkTree !! k = Some old /\ u ∈ tags old.
Proof.
  apply (addSite_tags 0 1000 sampleBookmarkTree
           (sampleHistory "https://a.example/" 0 None) PINNED); discriminate.
Defined.

(** ** Bookmarks survive the clearing of history *)

Lemma filter_map_commute {A : Type} (p : A -> bool) (c : A -> A) (l : list A) :
  (forall x, p (c x) = p x) -> List.filter p (map c l) = map c (List.filter p l).
Proof.
  intros Hc. induction l as [|a l IH]; simpl; [done|].
  rewrite Hc. destruct (p a); simpl; by rewrite IH.
Qed.

(** X28: [clearHistory] keeps every bookmark and every folder:
    [getBookmarks] lists the same records before and after, up to their
    [lastAccessedTime]. *)
Theorem clearHistory_keeps_bookmarks (sites : list site) :
  map (set_lastAccessedTime JNull) (getBookmarks (Some (clearHistory sites))) =
  map (set_lastAccessedTime JNull) (getBookmarks (Some sites)).
Proof.
  rewrite clearHistory_map. unfold getBookmarks.
  rewrite filter_map_commute; [|intros x; by destruct (truthy_time _)].
  rewrite filter_filter_impl.
  - rewrite map_map. apply map_ext. intros x. by destruct (truthy_time _).
  - intros x Hx. destruct (tags x); [done|done].
Qed.

(** ** Removing a tag twice *)

Lemma toSet_NoDup (ts : list siteTag) : NoDup (toSet ts).
Proof.
  induction ts as [|a ts IH]; simpl; [constructor|]. constructor.
  - intros Hin. apply elem_of_List_filter in Hin as [_ Hin].
    by rewrite tag_eqb_refl in Hin.
  - apply NoDup_ListNoDup, List.NoDup_filter, NoDup_ListNoDup, IH.
Qed.

Lemma toSet_of_NoDup (ts : list siteTag) : NoDup ts -> toSet ts = ts.
Proof.
  induction 1 as [|a ts Hin Hnd IH]; simpl; [done|]. rewrite IH. f_equal.
  apply List_filter_all. intros u Hu. apply negb_true_iff.
  destruct (tag_eqb u a) eqn:E; [|done]. apply tag_eqb_eq in E. by subst u.
Qed.

Lemma tagsRemove_idempotent (t : siteTag) (ts : list siteTag) :
  tagsRemove (Some t) (tagsRemove (Some t) ts) = tagsRemove (Some t) ts.
Proof.
  unfold tagsRemove. rewrite toSet_of_NoDup.
  - apply List_filter_all. intros u Hu. by apply elem_of_List_filter in Hu as [_ Hu].
  - apply NoDup_ListNoDup, List.NoDup_filter, NoDup_ListNoDup, toSet_NoDup.
Qed.

(** X29: removing a tag from a target whose record is not a folder is
    idempotent: a second [removeSite] with the same target and tag returns
    the list the first one returned. *)
Theorem removeSite_tag_idempotent (fuel fuel' : nat) (sites : list site) (d : site)
    (t : siteTag) :
  (forall i entry, getSiteIndex (Some sites) (Some d) (TagStr t) = Some i ->
                   sites !! i = Some entry ->
                   isBookmarkFolder (TagList (tags entry)) = false) ->
  exists sites',
    removeSite (S fuel) sites d (Some t) = Some sites' /\
    removeSite (S fuel') sites' d (Some t) = Some sites'.
Proof.
  intros Hnf.
  destruct (getSiteIndex (Some sites) (Some d) (TagStr t)) as [i|] eqn:Hi.
  - destruct (getSiteIndex_lookup _ _ _ _ Hi) as [entry He].
    specialize (Hnf i entry eq_refl He).
    assert (isBookmarkFolder (TagStr t) = false) as Ht.
    { destruct (isBookmarkFolder (TagStr t)) eqn:E; [|done].
      unfold getSiteIndex in Hi. rewrite E in Hi.
      apply findIndex_Some in Hi as (x & Hx & Hp & _). rewrite He in Hx.
      injection Hx as <-. unfold sameFolderId in Hp. apply andb_prop in Hp as [Hp _].
      congruence. }
    set (strip := fun s : site =>
                    set_tags (tagsRemove (Some t) (tags entry))
                      (delete_customTitle (set_parentFolderId (Some 0) s))).
    exists (alter strip i sites).
    rewrite (removeSite_not_folder fuel sites d (Some t) i entry Hi He Hnf).
    rewrite removeSite_finish_tag. split; [reflexivity|].
    assert (getSiteIndex (Some (alter strip i sites)) (Some d) (TagStr t) = Some i) as Hi'.
    { rewrite (getSiteIndex_not_folder _ d _ Ht).
      rewrite (getSiteIndex_not_folder _ d _ Ht) in Hi.
      rewrite findIndex_alter; [done|]. intros x. apply sameIdentity_strip. }
    assert (alter strip i sites !! i = Some (strip entry)) as He'.
    { by rewrite list_lookup_alter_eq, He. }
    rewrite (removeSite_not_folder fuel' _ d (Some t) i (strip entry) Hi' He').
    + rewrite removeSite_finish_tag. f_equal. rewrite list_alter_alter_eq.
      apply list_alter_ext; [|done]. intros x Hx. unfold strip. cbn [tags set_tags].
      rewrite tagsRemove_idempotent. done.
    + unfold strip. cbn [tags set_tags].
      destruct (isBookmarkFolder (TagList (tagsRemove (Some t) (tags entry)))) eqn:E;
        [|reflexivity].
      apply isBookmarkFolder_list, elem_of_tagsRemove in E as [E _].
      apply isBookmarkFolder_list in E. congruence.
  - exists sites. rewrite !removeSite_unfold. simpl ofTag. by rewrite Hi.
Qed.

Lemma removeSite_tag_idempotent_witness :
  exists sites',
    removeSite 1 sampleBookmarkTree (sampleBookmark "https://b.example/" None)
      (Some BOOKMARK) = Some sites' /\
    removeSite 1 sites' (sampleBookmark "https://b.example/" None) (Some BOOKMARK)
      = Some sites'.
Proof.
  apply (removeSite_tag_idempotent 0 0 sampleBookmarkTree
           (sampleBookmark "https://b.example/" None) BOOKMARK).
  intros i entry Hi. vm_compute in Hi. injection Hi as <-.
  intros He. vm_compute in He. injection He as <-. reflexivity.
Defined.

(** ** Details derived from a frame *)

Lemma mergeSiteDetails_partitionNumber (now : Z) (old : option site) (r : site)
    (tag : option siteTag) (fid : option Z) :
  (forall o, old = Some o -> sameIdentity r o = true) ->
  partitionNumber (mergeSiteDetails now old r tag fid) = partitionNumber r.
Proof.
  intros Hold. cbn [mergeSiteDetails partitionNumber].
  destruct (partitionNumber r) as [p|] eqn:Hp; [done|].
  destruct old as [o|]; [|done]. specialize (Hold o eq_refl).
  unfold sameIdentity in Hold. apply andb_prop in Hold as [_ Hpn].
  apply Z.eqb_eq in Hpn. rewrite Hp in Hpn. simpl in Hpn.
  destruct (partitionNumber o) as [q|]; simpl in *; [|done]. by subst q.
Qed.

(** X30: a site detail derived from a frame with a tag other than the
    folder tag, and handed to [addSite] without naming the tag, is stored
    with that tag and with the frame's title; [toFrameOpts] of the stored
    entry is [toFrameOpts] of the detail: the frame's partition and
    location, the pinned location standing in for a PINNED tag.  The
    location must not be the empty string. *)
Theorem getDetailFromFrame_addSite (fuel : nat) (now : Z) (sites : list site)
    (fr : frame) (t : siteTag) :
  t <> BOOKMARK_FOLDER ->
  location (getDetailFromFrame fr (Some t)) <> Some EmptyString ->
  exists sites' i e,
    addSite fuel now sites (getDetailFromFrame fr (Some t)) None None = Some sites' /\
    getSiteIndex (Some sites') (Some (getDetailFromFrame fr (Some t))) (TagStr t) = Some i /\
    sites' !! i = Some e /\
    t ∈ tags e /\
    title e = frame_title fr /\
    toFrameOpts e = toFrameOpts (getDetailFromFrame fr (Some t)) /\
    toFrameOpts (getDetailFromFrame fr (Some t)) =
      (if truthy_str (frame_pinnedLocation fr) && tag_eqb t PINNED
       then frame_pinnedLocation fr else frame_location fr,
       frame_partitionNumber fr).
Proof.
  intros Ht Hloc.
  set (r := getDetailFromFrame fr (Some t)) in *.
  assert (defaultTag None r = Some t) as Hdt by reflexivity.
  assert (isBookmarkFolder (TagStr t) = false) as Hf.
  { simpl. destruct (tag_eqb t BOOKMARK_FOLDER) eqn:E; [|done]. by apply tag_eqb_eq in E. }
  destruct (addSite_entry fuel now sites r None) as (sites' & i & Hadd & Hi & He & _);
    [by rewrite Hdt|done|].
  rewrite Hdt in He.
  eexists sites', i, _. split; [done|].
  split; [by rewrite (getSiteIndex_not_folder sites' r (TagStr t) Hf)|].
  split; [exact He|]. split; [|split; [done|split; [|done]]].
  - cbn [mergeSiteDetails tags]. apply elem_of_tagsAdd. by left.
  - unfold toFrameOpts. f_equal.
    + cbn [mergeSiteDetails location]. destruct (location r) as [s|] eqn:Hl; [|done].
      simpl. destruct (String.eqb s "") eqn:E; [|done].
      apply String.eqb_eq in E. by subst s.
    + apply mergeSiteDetails_partitionNumber. intros o Ho.
      destruct (findIndex (sameIdentity r) sites) as [k|] eqn:Hk; [|done].
      simpl in Ho. apply findIndex_Some in Hk as (x & Hx & Hp & _). congruence.
Qed.

Lemma getDetailFromFrame_addSite_witness :
  exists sites' i e,
    addSite 0 1000 sampleBookmarkTree
      (getDetailFromFrame
         (mkFrame (Some "https://a.example/x"%string) (Some "https://a.example/"%string)
                  (Some "A"%string) None None None None) (Some PINNED))
      None None = Some sites' /\
    getSiteIndex (Some sites')
      (Some (getDetailFromFrame
               (mkFrame (Some "https://a.example/x"%string) (Some "https://a.example/"%string)
                        (Some "A"%string) None None None None) (Some PINNED)))
      (TagStr PINNED) = Some i /\
    sites' !! i = Some e /\
    PINNED ∈ tags e /\
    title e = Some "A"%string /\
    toFrameOpts e = (Some "https://a.example/"%string, None) /\
    (Some "https://a.example/"%string, @None Z) =
      (Some "https://a.example/"%string, None).
Proof.
  apply (getDetailFromFrame_addSite 0 1000 sampleBookmarkTree
           (mkFrame (Some "https://a.example/x"%string) (Some "https://a.example/"%string)
                    (Some "A"%string) None None None None) PINNED); discriminate.
Defined.

Lemma isSiteBookmarked_first_match_witness :
  isSiteBookmarked (Some sampleBookmarkTree)
    (Some (sampleBookmark "https://b.example/" None)) = true.
Proof.
  apply (proj1 (isSiteBookmarked_first_match sampleBookmarkTree
                  (sampleBookmark "https://b.example/" None))).
  exists 2%nat, (sampleBookmark "https://b.example/" (Some 1)).
  split; [reflexivity|]. split; [reflexivity|]. split; [by left|].
  intros [|[|j]] e Hj He; [| |lia]; vm_compute in He; injection He as <-; reflexivity.
Defined.
